(** * ZATCA QR payload builder (src/utils/qrCodeUtils.ts)

    A shallow embedding of [encodeTLV] and [generateZatcaQrCode] together
    with the platform operations they call (TextEncoder, Uint8Array,
    Number.prototype.toFixed, Date, String.fromCharCode, btoa), followed by
    the properties the specification states about them.

    Conventions.
    - A JavaScript string is the list of its UTF-16 code units, each a [Z].
    - A byte is a [Z]; every store into a Uint8Array goes through [ToUint8],
      which writes the wrap-around out.
    - A JavaScript number is an IEEE-754 binary64 value, [spec_float].
    - Statements run in the monad [M]: they read and write a [World] (the
      clock, the local time zone, the console) and complete normally or
      throw.

    The platform operations follow their standards: ECMAScript for Date,
    Number.prototype.toFixed and String.fromCharCode, the Encoding standard
    for TextEncoder, RFC 4648 for the base64 of btoa. What the standards
    leave to the engine (the parse of date strings outside the date-time
    format, limits on array sizes and argument counts) is not modelled.
    An invoice has the fields of the declared type; those the function
    guards may be absent.

    Two callers and neighbours of the builder follow it: the handlers of
    the invoice form (src/components/InvoiceForm.tsx), whose preview calls
    the builder, and the numbering of invoices by the invoice service
    (getNextInvoiceNumber), with [parseInt], [Number.prototype.toString]
    and [padStart] after ECMAScript. *)

From Stdlib Require Import String Ascii.
From Stdlib Require Import ZArith List Bool Lia DecimalPos DecimalN.
From Stdlib Require Import Floats.SpecFloat.
Import ListNotations.
Open Scope Z_scope.

(* ================================================================== *)
(** ** Strings *)

Definition jsstring := list Z.

(** A source literal, as the code units of its (ASCII) characters. *)
Fixpoint lit (s : string) : jsstring :=
  match s with
  | EmptyString => []
  | String c r => Z.of_nat (nat_of_ascii c) :: lit r
  end.

(** [a + b] on strings. *)
Definition concat_str (a b : jsstring) : jsstring := a ++ b.

(** [v || dflt] for a possibly absent string: undefined, null and the empty
    string are falsy. *)
Definition or_str (v : option jsstring) (dflt : jsstring) : jsstring :=
  match v with
  | Some (c :: r) => c :: r
  | _ => dflt
  end.

(* ================================================================== *)
(** ** Completions and the statement monad *)

Inductive JsError : Type :=
| RangeError
| TypeError
| InvalidCharacterError.

Inductive completion (A : Type) : Type :=
| Normal (a : A)
| Throw (e : JsError).

Arguments Normal {A} a.
Arguments Throw {A} e.

(** The range of time values: 8.64e15 ms either side of the epoch. *)
Definition maxTime : Z := 8640000000000000.

(** What the function can observe or change outside its arguments. The
    clock reads a time value, so it stays within the range of time values. *)
Record World : Type := mkWorld {
  clock : Z;                 (* the current time value, in ms since the epoch *)
  clock_ok : (Z.abs clock <=? maxTime) = true;
  localTZA : Z -> Z;         (* local time zone adjustment, in ms *)
  console : list jsstring    (* messages written so far, oldest first *)
}.

Definition M (A : Type) : Type := World -> completion A * World.

Definition ret {A} (a : A) : M A := fun w => (Normal a, w).

Definition throw {A} (e : JsError) : M A := fun w => (Throw e, w).

Definition bind {A B} (c : M A) (k : A -> M B) : M B :=
  fun w =>
    match c w with
    | (Normal a, w') => k a w'
    | (Throw e, w') => (Throw e, w')
    end.

Notation "x <- c ;; k" := (bind c (fun x => k))
  (at level 61, c at next level, right associativity).
Notation "c ;;; k" := (bind c (fun _ => k))
  (at level 61, right associativity).

(** [try { body } catch (e) { handler e }]. *)
Definition try_catch {A} (body : M A) (handler : JsError -> M A) : M A :=
  fun w =>
    match body w with
    | (Normal a, w') => (Normal a, w')
    | (Throw e, w') => handler e w'
    end.

(** [console.warn(msg, ...)]. *)
Definition console_warn (msg : jsstring) : M unit :=
  fun w =>
    (Normal tt, mkWorld (clock w) (clock_ok w) (localTZA w) (console w ++ [msg])).

(** The time value of [new Date()]. *)
Definition Date_now : M Z := fun w => (Normal (clock w), w).

Definition get_localTZA : M (Z -> Z) := fun w => (Normal (localTZA w), w).

(* ================================================================== *)
(** ** Uint8Array *)

Definition ToUint8 (v : Z) : Z := v mod 256.

Definition ToUint16 (v : Z) : Z := v mod 65536.

Definition Uint8Array := list Z.

(** [new Uint8Array(n)]: [n] zero bytes. *)
Definition new_Uint8Array (n : nat) : Uint8Array := repeat 0 n.

(** [a[i] = v]: the value is converted with ToUint8; a store outside the
    array is ignored. *)
Definition store (a : Uint8Array) (i : nat) (v : Z) : Uint8Array :=
  if (i <? length a)%nat
  then firstn i a ++ ToUint8 v :: skipn (S i) a
  else a.

(** [dst.set(src, offset)]: RangeError when the source does not fit. *)
Definition Uint8Array_set (dst src : Uint8Array) (offset : nat)
  : M Uint8Array :=
  if (offset + length src <=? length dst)%nat
  then ret (firstn offset dst ++ src ++ skipn (offset + length src) dst)
  else throw RangeError.

(* ================================================================== *)
(** ** TextEncoder *)

Definition is_high_surrogate (c : Z) : bool := (0xD800 <=? c) && (c <=? 0xDBFF).
Definition is_low_surrogate (c : Z) : bool := (0xDC00 <=? c) && (c <=? 0xDFFF).

(** Code units to scalar values: a surrogate pair is one code point, a lone
    surrogate becomes U+FFFD. *)
Fixpoint to_scalar_values (s : jsstring) : list Z :=
  match s with
  | [] => []
  | c :: r =>
      if is_high_surrogate c then
        match r with
        | d :: r' =>
            if is_low_surrogate d
            then (0x10000 + (c - 0xD800) * 0x400 + (d - 0xDC00))
                   :: to_scalar_values r'
            else 0xFFFD :: to_scalar_values r
        | [] => [0xFFFD]
        end
      else if is_low_surrogate c then 0xFFFD :: to_scalar_values r
      else c :: to_scalar_values r
  end.

(** The UTF-8 bytes of one scalar value. *)
Definition utf8_of_scalar (cp : Z) : list Z :=
  if cp <? 0x80 then [cp]
  else if cp <? 0x800 then [0xC0 + cp / 64; 0x80 + cp mod 64]
  else if cp <? 0x10000 then
    [0xE0 + cp / 4096; 0x80 + (cp / 64) mod 64; 0x80 + cp mod 64]
  else
    [0xF0 + cp / 262144; 0x80 + (cp / 4096) mod 64;
     0x80 + (cp / 64) mod 64; 0x80 + cp mod 64].

(** [new TextEncoder().encode(s)]: the UTF-8 bytes, held in a Uint8Array. *)
Definition TextEncoder_encode (s : jsstring) : Uint8Array :=
  map ToUint8 (flat_map utf8_of_scalar (to_scalar_values s)).

(* ================================================================== *)
(** ** encodeTLV *)

Definition encodeTLV (tag : Z) (value : jsstring) : M Uint8Array :=
  let valueBytes := TextEncoder_encode value in
  let length := length valueBytes in
  let tlvArray := new_Uint8Array (2 + length) in
  let tlvArray := store tlvArray 0 tag in
  let tlvArray := store tlvArray 1 (Z.of_nat length) in
  tlvArray <- Uint8Array_set tlvArray valueBytes 2 ;;
  ret tlvArray.

(** The number of UTF-8 bytes of a string. *)
Definition utf8_length (s : jsstring) : Z :=
  Z.of_nat (length (TextEncoder_encode s)).

(* ================================================================== *)
(** ** Numbers and Number.prototype.toFixed *)

Definition number := spec_float.

Definition prec : Z := 53.
Definition emax : Z := 1024.

(** The Number value of an integer (exact below 2^53, rounded to nearest,
    ties to even, above). *)
Definition number_of_Z (z : Z) : number := binary_normalize prec emax z 0 false.

(** The Number value of the decimal literal [n / 10^scale]: both operands
    are exact and IEEE division rounds correctly, so this is the binary64
    value nearest to the literal. *)
Definition number_of_decimal (n : Z) (scale : nat) : number :=
  SFdiv prec emax (number_of_Z n) (number_of_Z (10 ^ Z.of_nat scale)).

(** [v || 0] for a possibly absent number: undefined, null, NaN, +0 and -0
    are falsy. *)
Definition or_zero (v : option number) : number :=
  match v with
  | Some (S754_finite s m e) => S754_finite s m e
  | Some (S754_infinity s) => S754_infinity s
  | _ => S754_zero false
  end.

Fixpoint uint_codes (u : Decimal.uint) : jsstring :=
  match u with
  | Decimal.Nil => []
  | Decimal.D0 r => 48 :: uint_codes r
  | Decimal.D1 r => 49 :: uint_codes r
  | Decimal.D2 r => 50 :: uint_codes r
  | Decimal.D3 r => 51 :: uint_codes r
  | Decimal.D4 r => 52 :: uint_codes r
  | Decimal.D5 r => 53 :: uint_codes r
  | Decimal.D6 r => 54 :: uint_codes r
  | Decimal.D7 r => 55 :: uint_codes r
  | Decimal.D8 r => 56 :: uint_codes r
  | Decimal.D9 r => 57 :: uint_codes r
  end.

(** The digits of the decimal representation of [n >= 0], most significant
    first, without leading zeros ("0" for zero). *)
Definition decimal_digits (n : Z) : jsstring :=
  uint_codes (N.to_uint (Z.to_N n)).

(** The integer [n] for which [n / 100 - x] is as close to zero as possible,
    the larger one when there are two, for [x = m * 2^e >= 0]. *)
Definition nearest_hundredths (m : positive) (e : Z) : Z :=
  if 0 <=? e then Z.pos m * 2 ^ e * 100
  else (200 * Z.pos m + 2 ^ (- e)) / 2 ^ (1 - e).

(** [m * 2^e >= 10^21]. *)
Definition ge_1e21 (m : positive) (e : Z) : bool :=
  if 0 <=? e then 10 ^ 21 <=? Z.pos m * 2 ^ e
  else 10 ^ 21 * 2 ^ (- e) <=? Z.pos m.

Fixpoint strip_trailing_zeros (s : jsstring) : jsstring :=
  match s with
  | [] => []
  | c :: r =>
      match strip_trailing_zeros r with
      | [] => if c =? 48 then [] else [c]
      | r' => c :: r'
      end
  end.

(** The shortest run of leading digits of the integer [X] that still
    identifies the Number [x]: the search of Number::toString for the
    smallest [k], keeping [k] digits of [X] rounded down or up, the nearer
    first. The result is the integer those digits denote. *)
Fixpoint shortest_digits (x : number) (X : Z) (n : nat) (k : nat) (fuel : nat)
  : Z :=
  match fuel with
  | O => X
  | S fuel' =>
      let p := 10 ^ Z.of_nat (n - k) in
      let lo := (X / p) * p in
      let hi := lo + p in
      let ok V := SFeqb (number_of_Z V) x in
      let near := if X - lo <=? hi - X then lo else hi in
      let far := if X - lo <=? hi - X then hi else lo in
      if ok near then near
      else if ok far then far
      else shortest_digits x X n (S k) fuel'
  end.

(** Number::toString for a finite integral [x = X >= 10^21]: always the
    exponent notation, since the decimal point would come after more than
    21 digits. *)
Definition Number_toString_big (x : number) (X : Z) : jsstring :=
  let n := length (decimal_digits X) in
  let V := shortest_digits x X n 1 n in
  let d := decimal_digits V in
  let ex := decimal_digits (Z.of_nat (length d) - 1) in
  match strip_trailing_zeros d with
  | [] => d
  | [c] => c :: lit "e+" ++ ex
  | c :: r => c :: lit "." ++ r ++ lit "e+" ++ ex
  end.

(** The fixed-point rendering with two fraction digits of [m * 2^e], below
    10^21. *)
Definition fixed2 (m : positive) (e : Z) : jsstring :=
  let n := nearest_hundredths m e in
  let ms := decimal_digits n in
  let k := length ms in
  let ms := if (k <=? 2)%nat then repeat 48 (3 - k) ++ ms else ms in
  let k := length ms in
  firstn (k - 2) ms ++ lit "." ++ skipn (k - 2) ms.

(** [x.toFixed(2)]. *)
Definition toFixed2 (x : number) : jsstring :=
  match x with
  | S754_nan => lit "NaN"
  | S754_infinity false => lit "Infinity"
  | S754_infinity true => lit "-Infinity"
  | S754_zero _ => lit "0.00"
  | S754_finite s m e =>
      let sign := if s then lit "-" else [] in
      if ge_1e21 m e
      then sign ++ Number_toString_big (S754_finite false m e) (Z.pos m * 2 ^ e)
      else sign ++ fixed2 m e
  end.

(* ================================================================== *)
(** ** Time values (ECMAScript, Date objects) *)

Definition msPerDay : Z := 86400000.
Definition msPerHour : Z := 3600000.
Definition msPerMinute : Z := 60000.
Definition msPerSecond : Z := 1000.

Definition Day (t : Z) : Z := t / msPerDay.
Definition TimeWithinDay (t : Z) : Z := t mod msPerDay.

Definition DaysInYear (y : Z) : Z :=
  if negb (y mod 4 =? 0) then 365
  else if negb (y mod 100 =? 0) then 366
  else if negb (y mod 400 =? 0) then 365
  else 366.

Definition DayFromYear (y : Z) : Z :=
  365 * (y - 1970) + (y - 1969) / 4 - (y - 1901) / 100 + (y - 1601) / 400.

Definition TimeFromYear (y : Z) : Z := msPerDay * DayFromYear y.

(** The year whose first day is the last one not after day [d]: an estimate
    from the mean length of a year, corrected by at most one. *)
Definition YearFromDay (d : Z) : Z :=
  let y := 1970 + (400 * d) / 146097 in
  if d <? DayFromYear y then y - 1
  else if DayFromYear (y + 1) <=? d then y + 1
  else y.

(** The largest [y] with [TimeFromYear y <= t]. *)
Definition YearFromTime (t : Z) : Z := YearFromDay (Day t).

Definition InLeapYear (t : Z) : Z :=
  if DaysInYear (YearFromTime t) =? 366 then 1 else 0.

Definition DayWithinYear (t : Z) : Z := Day t - DayFromYear (YearFromTime t).

(** The number of days of the year before month [mn] (0 = January). *)
Definition month_start (leap mn : Z) : Z :=
  match mn with
  | 0 => 0
  | 1 => 31
  | 2 => 59 + leap
  | 3 => 90 + leap
  | 4 => 120 + leap
  | 5 => 151 + leap
  | 6 => 181 + leap
  | 7 => 212 + leap
  | 8 => 243 + leap
  | 9 => 273 + leap
  | 10 => 304 + leap
  | 11 => 334 + leap
  | _ => 365 + leap
  end.

Definition MonthFromTime (t : Z) : Z :=
  let d := DayWithinYear t in
  let l := InLeapYear t in
  if d <? 31 then 0
  else if d <? 59 + l then 1
  else if d <? 90 + l then 2
  else if d <? 120 + l then 3
  else if d <? 151 + l then 4
  else if d <? 181 + l then 5
  else if d <? 212 + l then 6
  else if d <? 243 + l then 7
  else if d <? 273 + l then 8
  else if d <? 304 + l then 9
  else if d <? 334 + l then 10
  else 11.

Definition DateFromTime (t : Z) : Z :=
  DayWithinYear t - month_start (InLeapYear t) (MonthFromTime t) + 1.

Definition HourFromTime (t : Z) : Z := (t / msPerHour) mod 24.
Definition MinFromTime (t : Z) : Z := (t / msPerMinute) mod 60.
Definition SecFromTime (t : Z) : Z := (t / msPerSecond) mod 60.
Definition msFromTime (t : Z) : Z := t mod msPerSecond.

Definition MakeTime (hour min sec ms : Z) : Z :=
  hour * msPerHour + min * msPerMinute + sec * msPerSecond + ms.

(** The day number of day [date] of month [month] (0 = January) of [year];
    months and days outside their ranges carry over. *)
Definition MakeDay (year month date : Z) : Z :=
  let ym := year + month / 12 in
  let mn := month mod 12 in
  let leap := if DaysInYear ym =? 366 then 1 else 0 in
  DayFromYear ym + month_start leap mn + date - 1.

Definition MakeDate (day time : Z) : Z := day * msPerDay + time.

(** A time value is a number of milliseconds or NaN ([None]). *)
Definition TimeClip (t : Z) : option Z :=
  if maxTime <? Z.abs t then None else Some t.

(* ------------------------------------------------------------------ *)
(** *** Date.parse on the date-time string format

    [YYYY-MM-DDTHH:mm:ss.sssZ], with the shorter date forms [YYYY] and
    [YYYY-MM], the expanded years [+YYYYYY] and [-YYYYYY], the shorter time
    forms [HH:mm] and [HH:mm:ss], and the offsets [Z] and [+HH:mm], [-HH:mm].
    Elements are checked against the ranges the format gives them (MM 01-12,
    DD 01-31, HH 00-24, mm and ss 00-59); a day the month does not have
    carries over into the next month, as [MakeDay] has it. A string outside
    the format is NaN: the heuristics an engine may fall back on for such
    strings are not part of the model. *)

Definition digit_val (c : Z) : option Z :=
  if (48 <=? c) && (c <=? 57) then Some (c - 48) else None.

Fixpoint read_digits (n : nat) (acc : Z) (s : jsstring)
  : option (Z * jsstring) :=
  match n with
  | O => Some (acc, s)
  | S n' =>
      match s with
      | c :: r =>
          match digit_val c with
          | Some d => read_digits n' (10 * acc + d) r
          | None => None
          end
      | [] => None
      end
  end.

Definition parse_year (s : jsstring) : option (Z * jsstring) :=
  match s with
  | c :: r =>
      if c =? 43 then read_digits 6 0 r
      else if c =? 45 then
        match read_digits 6 0 r with
        | Some (y, r') => if y =? 0 then None else Some (- y, r')
        | None => None
        end
      else read_digits 4 0 s
  | [] => None
  end.

Definition parse_month_day (s : jsstring) : option (Z * Z * jsstring) :=
  match s with
  | c :: r =>
      if c =? 45 then
        match read_digits 2 0 r with
        | Some (mo, r') =>
            if (1 <=? mo) && (mo <=? 12) then
              match r' with
              | c' :: r2 =>
                  if c' =? 45 then
                    match read_digits 2 0 r2 with
                    | Some (d, r3) =>
                        if (1 <=? d) && (d <=? 31) then Some (mo, d, r3)
                        else None
                    | None => None
                    end
                  else Some (mo, 1, r')
              | [] => Some (mo, 1, r')
              end
            else None
        | None => None
        end
      else Some (1, 1, s)
  | [] => Some (1, 1, s)
  end.

Definition parse_sec_ms (s : jsstring) : option (Z * Z * jsstring) :=
  match s with
  | c :: r =>
      if c =? 58 then
        match read_digits 2 0 r with
        | Some (sec, r') =>
            match r' with
            | c' :: r2 =>
                if c' =? 46 then
                  match read_digits 3 0 r2 with
                  | Some (ms, r3) => Some (sec, ms, r3)
                  | None => None
                  end
                else Some (sec, 0, r')
            | [] => Some (sec, 0, r')
            end
        | None => None
        end
      else Some (0, 0, s)
  | [] => Some (0, 0, s)
  end.

Definition parse_time (s : jsstring) : option (Z * jsstring) :=
  match read_digits 2 0 s with
  | Some (h, c :: r) =>
      if c =? 58 then
        match read_digits 2 0 r with
        | Some (mi, r') =>
            match parse_sec_ms r' with
            | Some (sec, ms, r2) =>
                if (h <=? 24) && (mi <=? 59) && (sec <=? 59)
                   && ((h <? 24) || ((mi =? 0) && (sec =? 0) && (ms =? 0)))
                then Some (MakeTime h mi sec ms, r2)
                else None
            | None => None
            end
        | None => None
        end
      else None
  | _ => None
  end.

Inductive zone : Type :=
| LocalTime
| Offset (ms : Z).

Definition parse_hhmm (s : jsstring) : option Z :=
  match read_digits 2 0 s with
  | Some (h, c :: r) =>
      if c =? 58 then
        match read_digits 2 0 r with
        | Some (mi, []) =>
            if (h <=? 23) && (mi <=? 59)
            then Some (h * msPerHour + mi * msPerMinute)
            else None
        | _ => None
        end
      else None
  | _ => None
  end.

Definition parse_zone (s : jsstring) : option zone :=
  match s with
  | [] => Some LocalTime
  | c :: r =>
      if (c =? 90) && (length r =? 0)%nat then Some (Offset 0)
      else if c =? 43 then option_map Offset (parse_hhmm r)
      else if c =? 45 then option_map (fun o => Offset (- o)) (parse_hhmm r)
      else None
  end.

Definition Date_parse (tza : Z -> Z) (s : jsstring) : option Z :=
  match parse_year s with
  | Some (y, r) =>
      match parse_month_day r with
      | Some (mo, d, r') =>
          let day := MakeDay y (mo - 1) d in
          match r' with
          | [] => TimeClip (MakeDate day 0)
          | c :: r2 =>
              if c =? 84 then
                match parse_time r2 with
                | Some (time, r3) =>
                    let t := MakeDate day time in
                    match parse_zone r3 with
                    | Some (Offset o) => TimeClip (t - o)
                    | Some LocalTime => TimeClip (t - tza t)
                    | None => None
                    end
                | None => None
                end
              else None
          end
      | None => None
      end
  | None => None
  end.

(** A Date object: its time value. *)
Definition DateObject := option Z.

(** [new Date(s)] for a string [s]. *)
Definition new_Date_string (s : jsstring) : M DateObject :=
  tza <- get_localTZA ;;
  ret (Date_parse tza s).

(** [d.getTime()] and [isNaN] of it. *)
Definition getTime (d : DateObject) : option Z := d.
Definition isNaN (v : option Z) : bool :=
  match v with
  | Some _ => false
  | None => true
  end.

(* ------------------------------------------------------------------ *)
(** *** Date.prototype.toISOString *)

(** [n] in [w] decimal digits, zero-padded. *)
Fixpoint fixed_digits (w : nat) (n : Z) : jsstring :=
  match w with
  | O => []
  | S w' => fixed_digits w' (n / 10) ++ [48 + n mod 10]
  end.

Definition year_string (y : Z) : jsstring :=
  if (0 <=? y) && (y <=? 9999) then fixed_digits 4 y
  else (if y <? 0 then lit "-" else lit "+") ++ fixed_digits 6 (Z.abs y).

Definition iso_string (t : Z) : jsstring :=
  year_string (YearFromTime t) ++ lit "-"
  ++ fixed_digits 2 (MonthFromTime t + 1) ++ lit "-"
  ++ fixed_digits 2 (DateFromTime t) ++ lit "T"
  ++ fixed_digits 2 (HourFromTime t) ++ lit ":"
  ++ fixed_digits 2 (MinFromTime t) ++ lit ":"
  ++ fixed_digits 2 (SecFromTime t) ++ lit "."
  ++ fixed_digits 3 (msFromTime t) ++ lit "Z".

(** RangeError on an invalid date, and on a year the format cannot write. *)
Definition toISOString (d : DateObject) : M jsstring :=
  match d with
  | None => throw RangeError
  | Some t =>
      let y := YearFromTime t in
      if (y <? -271821) || (275760 <? y) then throw RangeError
      else ret (iso_string t)
  end.

(* ================================================================== *)
(** ** String.fromCharCode and btoa *)

(** [String.fromCharCode(...codes)]: one code unit per argument. *)
Definition String_fromCharCode (codes : list Z) : jsstring := map ToUint16 codes.

(** The base64 alphabet: A-Z, a-z, 0-9, + and /. *)
Definition b64_char (i : Z) : Z :=
  if i <? 26 then 65 + i
  else if i <? 52 then 97 + (i - 26)
  else if i <? 62 then 48 + (i - 52)
  else if i =? 62 then 43
  else 47.

Definition b64_pad : Z := 61.

(** Base64 of a byte sequence: each 24-bit group of three bytes as four
    6-bit characters; a final group of one or two bytes is filled with zero
    bits and padded with "=". *)
Fixpoint base64_encode (bs : list Z) : jsstring :=
  match bs with
  | [] => []
  | [a] =>
      let n := a * 16 in
      [b64_char (n / 64); b64_char (n mod 64); b64_pad; b64_pad]
  | [a; b] =>
      let n := (a * 256 + b) * 4 in
      [b64_char (n / 4096); b64_char ((n / 64) mod 64); b64_char (n mod 64);
       b64_pad]
  | a :: b :: c :: r =>
      let n := a * 65536 + b * 256 + c in
      b64_char (n / 262144) :: b64_char ((n / 4096) mod 64)
        :: b64_char ((n / 64) mod 64) :: b64_char (n mod 64)
        :: base64_encode r
  end.

(** [btoa(s)]: InvalidCharacterError when a code unit is above 0xFF. *)
Definition btoa (s : jsstring) : M jsstring :=
  if existsb (fun c => 255 <? c) s then throw InvalidCharacterError
  else ret (base64_encode s).

(* ================================================================== *)
(** ** The invoice (src/types/Invoice.ts)

    The fields that [generateZatcaQrCode] guards with [?.] or [||] are
    optional here: at run time they may be undefined or null. *)

Record InvoiceItem : Type := mkInvoiceItem {
  item_id : jsstring;
  item_description : jsstring;
  item_quantity : number;
  item_price : number;
  item_taxRate : number;
  item_total : number
}.

Record CompanyInfo : Type := mkCompanyInfo {
  name : option jsstring;
  address : jsstring;
  city : jsstring;
  email : jsstring;
  phone : jsstring;
  taxNumber : option jsstring;
  bankName : option jsstring;
  iban : option jsstring
}.

Record CustomerInfo : Type := mkCustomerInfo {
  customer_name : jsstring;
  customer_address : jsstring;
  customer_city : jsstring;
  customer_taxNumber : jsstring;
  customer_bankName : option jsstring;
  customer_iban : option jsstring
}.

Record Invoice : Type := mkInvoice {
  id : jsstring;
  number_ : jsstring;
  date : option jsstring;
  company : option CompanyInfo;
  customer : CustomerInfo;
  items : list InvoiceItem;
  subtotal : number;
  taxAmount : option number;
  total : option number;
  paid : number;
  discount : number;
  remaining : number;
  notes : jsstring
}.

(** [c?.name] and [c?.taxNumber]. *)
Definition company_name (c : option CompanyInfo) : option jsstring :=
  match c with
  | Some ci => name ci
  | None => None
  end.

Definition company_taxNumber (c : option CompanyInfo) : option jsstring :=
  match c with
  | Some ci => taxNumber ci
  | None => None
  end.

(* ================================================================== *)
(** ** generateZatcaQrCode *)

(** 1. Seller name. *)
Definition sellerName (invoice : Invoice) : jsstring :=
  or_str (company_name (company invoice)) (lit "Unknown Seller").

(** 2. Seller VAT registration number. *)
Definition vatRegistrationNumber (invoice : Invoice) : jsstring :=
  or_str (company_taxNumber (company invoice)) (lit "000000000000000").

(** 3. Invoice date and time: the current instant, replaced by the invoice
    date at midnight UTC when that parses. *)
Definition invoiceDateTime (invoice : Invoice) : M jsstring :=
  now <- Date_now ;;
  invoiceDateTime <- toISOString (Some now) ;;
  try_catch
    (match date invoice with
     | Some (c :: r) =>
         date <- new_Date_string (concat_str (c :: r) (lit "T00:00:00.000Z")) ;;
         if negb (isNaN (getTime date))
         then toISOString date
         else ret invoiceDateTime
     | _ => ret invoiceDateTime
     end)
    (fun e =>
       console_warn (lit "Invalid invoice date, using current time") ;;;
       ret invoiceDateTime).

(** 4. Total VAT amount. *)
Definition totalVatAmount (invoice : Invoice) : jsstring :=
  toFixed2 (or_zero (taxAmount invoice)).

(** 5. Total invoice amount with VAT. *)
Definition totalInvoiceAmount (invoice : Invoice) : jsstring :=
  toFixed2 (or_zero (total invoice)).

Definition generateZatcaQrCode (invoice : Invoice) : M jsstring :=
  let sellerName := sellerName invoice in
  let vatRegistrationNumber := vatRegistrationNumber invoice in
  invoiceDateTime <- invoiceDateTime invoice ;;
  let totalVatAmount := totalVatAmount invoice in
  let totalInvoiceAmount := totalInvoiceAmount invoice in
  tlv1 <- encodeTLV 0x01 sellerName ;;
  tlv2 <- encodeTLV 0x02 vatRegistrationNumber ;;
  tlv3 <- encodeTLV 0x03 invoiceDateTime ;;
  tlv4 <- encodeTLV 0x04 totalVatAmount ;;
  tlv5 <- encodeTLV 0x05 totalInvoiceAmount ;;
  let totalLength :=
    (length tlv1 + length tlv2 + length tlv3 + length tlv4 + length tlv5)%nat in
  let combinedTlvData := new_Uint8Array totalLength in
  let offset := 0%nat in
  combinedTlvData <- Uint8Array_set combinedTlvData tlv1 offset ;;
  let offset := (offset + length tlv1)%nat in
  combinedTlvData <- Uint8Array_set combinedTlvData tlv2 offset ;;
  let offset := (offset + length tlv2)%nat in
  combinedTlvData <- Uint8Array_set combinedTlvData tlv3 offset ;;
  let offset := (offset + length tlv3)%nat in
  combinedTlvData <- Uint8Array_set combinedTlvData tlv4 offset ;;
  let offset := (offset + length tlv4)%nat in
  combinedTlvData <- Uint8Array_set combinedTlvData tlv5 offset ;;
  base64String <- btoa (String_fromCharCode combinedTlvData) ;;
  ret base64String.

(* ================================================================== *)
(** ** Reading a payload back

    The reader's side of the contract: base64 decoding, and the parse of a
    byte buffer as a stream of tag-length-value records. *)

Definition b64_val (c : Z) : option Z :=
  if (65 <=? c) && (c <=? 90) then Some (c - 65)
  else if (97 <=? c) && (c <=? 122) then Some (c - 97 + 26)
  else if (48 <=? c) && (c <=? 57) then Some (c - 48 + 52)
  else if c =? 43 then Some 62
  else if c =? 47 then Some 63
  else None.

(** Standard base64 decoding, padding required. *)
Fixpoint base64_decode (s : jsstring) : option (list Z) :=
  match s with
  | [] => Some []
  | c0 :: c1 :: c2 :: c3 :: r =>
      match b64_val c0, b64_val c1 with
      | Some v0, Some v1 =>
          if (c2 =? b64_pad) && (c3 =? b64_pad) then
            match r with
            | [] => Some [(v0 * 64 + v1) / 16]
            | _ => None
            end
          else
            match b64_val c2 with
            | Some v2 =>
                if c3 =? b64_pad then
                  match r with
                  | [] =>
                      let n := (v0 * 4096 + v1 * 64 + v2) / 4 in
                      Some [n / 256; n mod 256]
                  | _ => None
                  end
                else
                  match b64_val c3, base64_decode r with
                  | Some v3, Some bs =>
                      let n := v0 * 262144 + v1 * 4096 + v2 * 64 + v3 in
                      Some (n / 65536 :: (n / 256) mod 256 :: n mod 256 :: bs)
                  | _, _ => None
                  end
            | None => None
            end
      | _, _ => None
      end
  | _ => None
  end.

(** One record of a payload as a reader sees it. *)
Record TLV : Type := mkTLV {
  tlv_tag : Z;
  tlv_length : Z;
  tlv_value : list Z
}.

(** The first record of a buffer and what follows it: a tag byte, a length
    byte, and as many value bytes as the length byte declares. *)
Definition parse_record (bs : list Z) : option (TLV * list Z) :=
  match bs with
  | t :: l :: r =>
      if (Z.to_nat l <=? length r)%nat
      then Some (mkTLV t l (firstn (Z.to_nat l) r), skipn (Z.to_nat l) r)
      else None
  | _ => None
  end.

(** The whole buffer as records, [None] when bytes are left over that do
    not make a record. *)
Fixpoint parse_tlv (fuel : nat) (bs : list Z) : option (list TLV) :=
  match bs with
  | [] => Some []
  | _ =>
      match fuel with
      | O => None
      | S fuel' =>
          match parse_record bs with
          | Some (rec, r) =>
              match parse_tlv fuel' r with
              | Some recs => Some (rec :: recs)
              | None => None
              end
          | None => None
          end
      end
  end.

Definition parseTLV (bs : list Z) : option (list TLV) :=
  parse_tlv (length bs) bs.

(** The [k]-th record (from 1) a reader finds in a buffer, walking over the
    records before it by their declared lengths. *)
Fixpoint nth_record (k : nat) (bs : list Z) : option TLV :=
  match k with
  | O => None
  | S O => option_map fst (parse_record bs)
  | S k' =>
      match parse_record bs with
      | Some (_, r) => nth_record k' r
      | None => None
      end
  end.

(* ================================================================== *)
(** ** Vocabulary of the properties *)

Definition is_byte (b : Z) : Prop := 0 <= b < 256.

(** The record of [encodeTLV] in closed form: tag byte, length byte, value
    bytes. *)
Definition tlv_bytes (tag : Z) (value : jsstring) : list Z :=
  ToUint8 tag :: ToUint8 (utf8_length value) :: TextEncoder_encode value.

(** Five records in tag order, one after the other. *)
Definition payload_bytes (v1 v2 v3 v4 v5 : jsstring) : list Z :=
  tlv_bytes 1 v1 ++ tlv_bytes 2 v2 ++ tlv_bytes 3 v3 ++ tlv_bytes 4 v4
  ++ tlv_bytes 5 v5.

(** The string [invoiceDateTime] settles on, as a function of the clock,
    the time zone and the date field. *)
Definition resolved_dateTime (now : Z) (tza : Z -> Z) (d : option jsstring)
  : jsstring :=
  match d with
  | Some (c :: r) =>
      match Date_parse tza (concat_str (c :: r) (lit "T00:00:00.000Z")) with
      | Some t => iso_string t
      | None => iso_string now
      end
  | _ => iso_string now
  end.

Definition midnight_suffix : jsstring := lit "T00:00:00.000Z".


Definition is_digit (c : Z) : bool := (48 <=? c) && (c <=? 57).

Definition is_leap (y : Z) : bool :=
  ((y mod 4 =? 0) && negb (y mod 100 =? 0)) || (y mod 400 =? 0).

(** The length of month [mo] (1 = January) of year [y] in the Gregorian
    calendar. *)
Definition days_in_month (y mo : Z) : Z :=
  match mo with
  | 2 => if is_leap y then 29 else 28
  | 4 | 6 | 9 | 11 => 30
  | _ => 31
  end.

(** A calendar date written [YYYY-MM-DD]: ten characters, digits around two
    hyphens, a month from 01 to 12 and a day that this month of this year
    has. *)
Definition is_calendar_date (s : jsstring) : bool :=
  match s with
  | [y3; y2; y1; y0; h1; m1; m0; h2; d1; d0] =>
      forallb is_digit [y3; y2; y1; y0; m1; m0; d1; d0]
      && (h1 =? 45) && (h2 =? 45)
      && (let y := 1000 * (y3 - 48) + 100 * (y2 - 48) + 10 * (y1 - 48)
                   + (y0 - 48) in
          let mo := 10 * (m1 - 48) + (m0 - 48) in
          let d := 10 * (d1 - 48) + (d0 - 48) in
          (1 <=? mo) && (mo <=? 12) && (1 <=? d) && (d <=? days_in_month y mo))
  | _ => false
  end.

(** The shape [YYYY-MM-DDTHH:mm:ss.sssZ]: twenty-four characters, digits
    between the separators, the UTC designator last. *)
Definition is_iso_instant (s : jsstring) : bool :=
  match s with
  | [y3; y2; y1; y0; h1; m1; m0; h2; d1; d0; t; hh1; hh0; c1; mi1; mi0; c2;
     s1; s0; p; f2; f1; f0; z] =>
      forallb is_digit
        [y3; y2; y1; y0; m1; m0; d1; d0; hh1; hh0; mi1; mi0; s1; s0; f2; f1; f0]
      && (h1 =? 45) && (h2 =? 45) && (t =? 84) && (c1 =? 58) && (c2 =? 58)
      && (p =? 46) && (z =? 90)
  | _ => false
  end.

Definition all_digits (s : jsstring) : Prop :=
  Forall (fun c => is_digit c = true) s.

Definition is_ascii (s : jsstring) : Prop := Forall (fun c => 0 <= c < 128) s.

(** A decimal string with exactly two digits after the point: an optional
    minus sign, one or more digits, a point, two digits, nothing else. *)
Definition is_fixed2 (s : jsstring) : bool :=
  let body := match s with
              | c :: r => if c =? 45 then r else s
              | [] => s
              end in
  match rev body with
  | f0 :: f1 :: p :: i0 :: ir =>
      is_digit f0 && is_digit f1 && (p =? 46) && forallb is_digit (i0 :: ir)
  | _ => false
  end.

(** An amount the fixed notation covers: absent, zero, or finite and below
    10^21 in magnitude. *)
Definition fixed_range (v : option number) : bool :=
  match or_zero v with
  | S754_finite _ m e => negb (ge_1e21 m e)
  | S754_zero _ => true
  | _ => false
  end.

(** The record a reader should find for tag [tag] and value [v]. *)
Definition tlv_of (tag : Z) (v : jsstring) : TLV :=
  mkTLV tag (utf8_length v) (TextEncoder_encode v).

(* ------------------------------------------------------------------ *)
(** *** Sample worlds and invoices *)

(** 2026-11-01T12:00:00.123Z, three hours east of Greenwich. *)
Definition world0 : World :=
  mkWorld 1793534400123 eq_refl (fun _ => 10800000) [].

(** Another clock, another zone, a console already written to. *)
Definition world1 : World :=
  mkWorld 86400000 eq_refl (fun _ => 0) [lit "earlier message"].

Definition company_of (n t : option jsstring) : CompanyInfo :=
  mkCompanyInfo n [] [] [] [] t None None.

Definition no_customer : CustomerInfo := mkCustomerInfo [] [] [] [] None None.

Definition invoice_of (d : option jsstring) (c : option CompanyInfo)
  (tax tot : option number) : Invoice :=
  mkInvoice [] [] d c no_customer [] (S754_zero false) tax tot
    (S754_zero false) (S754_zero false) (S754_zero false) [].

Definition test_company : CompanyInfo :=
  company_of (Some (lit "Test Co")) (Some (lit "123456789012345")).

(** The example of the specification, with the date as the form stores it. *)
Definition test_invoice : Invoice :=
  invoice_of (Some (lit "2024-01-15")) (Some test_company)
    (Some (number_of_Z 15)) (Some (number_of_Z 115)).

(** The same, with the date field carrying a time of day. *)
Definition timestamp_invoice : Invoice :=
  invoice_of (Some (lit "2024-01-15T10:30:00Z")) (Some test_company)
    (Some (number_of_Z 15)) (Some (number_of_Z 115)).

(** Nothing filled in. *)
Definition bare_invoice : Invoice := invoice_of None None None None.

(** Seller name and tax number present but empty. *)
Definition blank_invoice : Invoice :=
  invoice_of (Some (lit "2024-01-15")) (Some (company_of (Some []) (Some [])))
    (Some (number_of_Z 15)) (Some (number_of_Z 115)).

(** A total of 10^21. *)
Definition huge_invoice : Invoice :=
  invoice_of (Some (lit "2024-01-15")) (Some test_company)
    (Some (number_of_Z 15)) (Some (number_of_Z (10 ^ 21))).

(* ================================================================== *)
(** ** The invoice form (src/components/InvoiceForm.tsx)

    The component keeps an invoice, the item being entered and a preview
    flag in its state; each handler below is a function from the state
    before to the state after. [Math.random().toString(36).substr(2, 9)],
    the id of a new item or invoice, is an argument of the functions that
    draw it. *)

(** WhiteSpace and LineTerminator code units, what [trim] removes. *)
Definition is_white_space (c : Z) : bool :=
  ((9 <=? c) && (c <=? 13)) || (c =? 32) || (c =? 160) || (c =? 5760)
  || ((8192 <=? c) && (c <=? 8202)) || (c =? 8232) || (c =? 8233)
  || (c =? 8239) || (c =? 8287) || (c =? 12288) || (c =? 65279).

Fixpoint trim_start (s : jsstring) : jsstring :=
  match s with
  | [] => []
  | c :: r => if is_white_space c then trim_start r else s
  end.

Definition trim_end (s : jsstring) : jsstring := rev (trim_start (rev s)).

(** [s.trim()]. *)
Definition String_trim (s : jsstring) : jsstring := trim_end (trim_start s).

(** [a === b] on strings. *)
Fixpoint string_eqb (a b : jsstring) : bool :=
  match a, b with
  | [], [] => true
  | x :: a', y :: b' => (x =? y) && string_eqb a' b'
  | _, _ => false
  end.

(** [s.split(sep)[0]] for a separator of one code unit: what comes before
    its first occurrence, the whole string when there is none. *)
Fixpoint split_first (sep : Z) (s : jsstring) : jsstring :=
  match s with
  | [] => []
  | c :: r => if c =? sep then [] else c :: split_first sep r
  end.

(** Arithmetic on Number values. *)
Definition num_add (x y : number) : number := SFadd prec emax x y.
Definition num_sub (x y : number) : number := SFsub prec emax x y.
Definition num_mul (x y : number) : number := SFmul prec emax x y.

(** ToNumber of a possibly undefined number. *)
Definition to_number (v : option number) : number :=
  match v with
  | Some x => x
  | None => S754_nan
  end.

(** The literals of the initial state, as UTF-16 code units. *)
Definition company_name_literal : jsstring :=
    [1605; 1572; 1587; 1587; 1577; 32; 1575; 1604; 1605; 1575; 1587; 1577;
     32; 1575; 1604; 1594; 1585; 1576; 1610; 1577; 32; 1604; 1604; 1582;
     1583; 1605; 1575; 1578; 32; 1575; 1604; 1604; 1608; 1580; 1587; 1578;
     1610; 1577].

Definition company_address_literal : jsstring :=
    [1581; 1610; 32; 1575; 1604; 1575; 1580; 1575; 1608; 1610; 1583; 32; 45;
     32; 1588; 1575; 1585; 1593; 32; 1576; 1583; 1610; 1577; 45; 32; 1605;
     1576; 1606; 1609; 32; 53; 49; 48; 48].

Definition company_city_literal : jsstring :=
    [32; 32; 32; 32; 32; 32; 32; 32; 32; 32; 32; 32; 32; 32; 32; 32; 32; 32;
     32; 32; 32; 1580; 1583; 1577; 32; 45; 32; 1575; 1604; 1587; 1593; 1608;
     1583; 1610; 1577].

Definition customer0_name : jsstring :=
    [1588; 1585; 1603; 1577; 32; 1607; 1606; 1602; 1585; 1587; 1578; 1610;
     1588; 1606; 32; 1575; 1604; 1605; 1581; 1583; 1608; 1583; 1577].

Definition customer0_address : jsstring :=
    [1581; 1610; 32; 1575; 1604; 1610; 1575; 1587; 1605; 1610; 1606; 32; 45;
     32; 1591; 1585; 1610; 1602; 32; 1575; 1604; 1605; 1604; 1603; 32; 1593;
     1576; 1583; 1575; 1604; 1593; 1586; 1610; 1586].

Definition customer0_city : jsstring :=
    [1575; 1604; 1585; 1610; 1575; 1590; 32; 45; 32; 1575; 1604; 1587; 1593;
     1608; 1583; 1610; 1577].

Definition customer1_name : jsstring :=
    [1588; 1585; 1603; 1577; 32; 1603; 1610; 1578; 1575; 32; 1578; 1603;
     1606; 1608; 1604; 1608; 1580; 1610; 1586; 32; 1575; 1604; 1593; 1585;
     1576; 1610; 1577; 32; 1575; 1604; 1605; 1581; 1583; 1608; 1583; 1577].

Definition customer1_address : jsstring :=
    [55; 55; 56; 50; 32; 1591; 1585; 1610; 1602; 32; 1575; 1604; 1605; 1604;
     1603; 32; 1593; 1576; 1583; 1575; 1604; 1593; 1586; 1610; 1586; 32; 46;
     32; 53; 54; 53; 52; 32; 1581; 1610; 32; 1575; 1604; 1585; 1576; 1610;
     1593].

Definition customer1_city : jsstring :=
    [1575; 1604; 1585; 1610; 1575; 1590; 32; 45; 32; 1575; 1604; 1605; 1605;
     1604; 1603; 1577; 32; 1575; 1604; 1593; 1585; 1576; 1610; 1577; 32;
     1575; 1604; 1587; 1593; 1608; 1583; 1610; 1577; 32; 49; 51; 51; 49; 53].

(** [Omit<InvoiceItem, 'id' | 'total'>]; the reset after [addItem] leaves
    the tax rate out. *)
Record NewItem : Type := mkNewItem {
  new_description : jsstring;
  new_quantity : number;
  new_price : number;
  new_taxRate : option number
}.

Record FormState : Type := mkFormState {
  st_invoice : Invoice;
  st_newItem : NewItem;
  st_showPreview : bool
}.

Definition PREDEFINED_CUSTOMER_0 : CustomerInfo :=
  mkCustomerInfo customer0_name customer0_address customer0_city
    (lit "310069655100003") None None.

Definition PREDEFINED_CUSTOMER_1 : CustomerInfo :=
  mkCustomerInfo customer1_name customer1_address customer1_city
    (lit "312187366900003") None None.

(** The values of the options of the customer select: the indices of
    [PREDEFINED_CUSTOMERS]. *)
Inductive CustomerIndex : Type := Customer_0 | Customer_1.

Definition PREDEFINED_CUSTOMERS (i : CustomerIndex) : CustomerInfo :=
  match i with
  | Customer_0 => PREDEFINED_CUSTOMER_0
  | Customer_1 => PREDEFINED_CUSTOMER_1
  end.

Definition initial_company : CompanyInfo :=
  mkCompanyInfo (Some company_name_literal) company_address_literal
    company_city_literal [] [] (Some (lit "311684171400003")) None None.

(** The initial state: [useState] evaluates its argument at the first
    render, reading the clock for the date. *)
Definition initialState (rnd : jsstring) : M FormState :=
  now <- Date_now ;;
  iso <- toISOString (Some now) ;;
  ret (mkFormState
         (mkInvoice rnd (lit "0002453") (Some (split_first 84 iso))
            (Some initial_company) PREDEFINED_CUSTOMER_0 [] (number_of_Z 0) (Some (number_of_Z 0))
            (Some (number_of_Z 0)) (number_of_Z 0) (number_of_Z 0)
            (number_of_Z 0) [])
         (mkNewItem [] (number_of_Z 1) (number_of_Z 0)
            (Some (number_of_Z 15)))
         false).

(** [items.reduce((sum, item) => sum + (item.quantity * item.price), 0)]. *)
Definition items_subtotal (items : list InvoiceItem) : number :=
  fold_left
    (fun sum item => num_add sum (num_mul (item_quantity item) (item_price item)))
    items (number_of_Z 0).

(** [{...invoice, items, subtotal, taxAmount, total, remaining}]. *)
Definition with_totals (invoice : Invoice) (updatedItems : list InvoiceItem)
  (subtotal taxAmount total remaining : number) : Invoice :=
  mkInvoice (id invoice) (number_ invoice) (date invoice) (company invoice)
    (customer invoice) updatedItems subtotal (Some taxAmount) (Some total)
    (paid invoice) (discount invoice) remaining (notes invoice).

Definition addItem (rnd : jsstring) (st : FormState) : FormState :=
  let invoice := st_invoice st in
  let newItem := st_newItem st in
  if string_eqb (String_trim (new_description newItem)) [] then st
  else
    let item :=
      mkInvoiceItem rnd (new_description newItem) (new_quantity newItem)
        (new_price newItem) (number_of_Z 15)
        (num_mul (new_quantity newItem) (new_price newItem)) in
    let updatedItems := items invoice ++ [item] in
    let subtotal := items_subtotal updatedItems in
    let taxAmount := num_mul subtotal (number_of_decimal 15 2) in
    let total := num_add subtotal taxAmount in
    let remaining :=
      num_sub (num_sub total (paid invoice)) (discount invoice) in
    mkFormState
      (with_totals invoice updatedItems subtotal taxAmount total remaining)
      (mkNewItem [] (number_of_Z 1) (number_of_Z 0) None)
      (st_showPreview st).

Definition removeItem (id : jsstring) (st : FormState) : FormState :=
  let invoice := st_invoice st in
  let updatedItems :=
    filter (fun item => negb (string_eqb (item_id item) id)) (items invoice) in
  let subtotal := items_subtotal updatedItems in
  let taxAmount := num_mul subtotal (number_of_decimal 15 2) in
  let total := num_add subtotal taxAmount in
  let remaining := num_add (num_sub total (paid invoice)) (discount invoice) in
  mkFormState
    (with_totals invoice updatedItems subtotal taxAmount total remaining)
    (st_newItem st) (st_showPreview st).

Definition updatePaidAmount (paid : number) (st : FormState) : FormState :=
  let invoice := st_invoice st in
  let remaining :=
    num_add (num_sub (to_number (total invoice)) paid) (discount invoice) in
  mkFormState
    (mkInvoice (id invoice) (number_ invoice) (date invoice) (company invoice)
       (customer invoice) (items invoice) (subtotal invoice)
       (taxAmount invoice) (total invoice) paid (discount invoice) remaining
       (notes invoice))
    (st_newItem st) (st_showPreview st).

Definition updateDiscountAmount (discount : number) (st : FormState)
  : FormState :=
  let invoice := st_invoice st in
  let remaining :=
    num_sub (num_sub (to_number (total invoice)) (paid invoice)) discount in
  mkFormState
    (mkInvoice (id invoice) (number_ invoice) (date invoice) (company invoice)
       (customer invoice) (items invoice) (subtotal invoice)
       (taxAmount invoice) (total invoice) (paid invoice) discount remaining
       (notes invoice))
    (st_newItem st) (st_showPreview st).

(** [handleCustomerChange(customerIndex)], called by the select with the
    value of the option chosen. *)
Definition handleCustomerChange (customerIndex : CustomerIndex)
  (st : FormState) : FormState :=
  let invoice := st_invoice st in
  mkFormState
    (mkInvoice (id invoice) (number_ invoice) (date invoice) (company invoice)
       (PREDEFINED_CUSTOMERS customerIndex) (items invoice) (subtotal invoice)
       (taxAmount invoice) (total invoice) (paid invoice) (discount invoice)
       (remaining invoice) (notes invoice))
    (st_newItem st) (st_showPreview st).

(** The [onChange] handlers of the number, date and notes inputs:
    [setInvoice({ ...invoice, number: e.target.value })] and the like. *)
Definition setNumber (v : jsstring) (st : FormState) : FormState :=
  let invoice := st_invoice st in
  mkFormState
    (mkInvoice (id invoice) v (date invoice) (company invoice)
       (customer invoice) (items invoice) (subtotal invoice)
       (taxAmount invoice) (total invoice) (paid invoice) (discount invoice)
       (remaining invoice) (notes invoice))
    (st_newItem st) (st_showPreview st).

Definition setDate (v : jsstring) (st : FormState) : FormState :=
  let invoice := st_invoice st in
  mkFormState
    (mkInvoice (id invoice) (number_ invoice) (Some v) (company invoice)
       (customer invoice) (items invoice) (subtotal invoice)
       (taxAmount invoice) (total invoice) (paid invoice) (discount invoice)
       (remaining invoice) (notes invoice))
    (st_newItem st) (st_showPreview st).

Definition setNotes (v : jsstring) (st : FormState) : FormState :=
  let invoice := st_invoice st in
  mkFormState
    (mkInvoice (id invoice) (number_ invoice) (date invoice) (company invoice)
       (customer invoice) (items invoice) (subtotal invoice)
       (taxAmount invoice) (total invoice) (paid invoice) (discount invoice)
       (remaining invoice) v)
    (st_newItem st) (st_showPreview st).

(** The [onChange] handlers of the item inputs; [x] is what [parseFloat]
    made of the text typed, and [x || 0] is stored. *)
Definition setDescription (v : jsstring) (st : FormState) : FormState :=
  let n := st_newItem st in
  mkFormState (st_invoice st)
    (mkNewItem v (new_quantity n) (new_price n) (new_taxRate n))
    (st_showPreview st).

Definition setQuantity (x : number) (st : FormState) : FormState :=
  let n := st_newItem st in
  mkFormState (st_invoice st)
    (mkNewItem (new_description n) (or_zero (Some x)) (new_price n)
       (new_taxRate n))
    (st_showPreview st).

Definition setPrice (x : number) (st : FormState) : FormState :=
  let n := st_newItem st in
  mkFormState (st_invoice st)
    (mkNewItem (new_description n) (new_quantity n) (or_zero (Some x))
       (new_taxRate n))
    (st_showPreview st).

(** One user action on the form, and a session of them. *)
Inductive Action : Type :=
| DoAddItem (rnd : jsstring)
| DoRemoveItem (id : jsstring)
| DoUpdatePaid (x : number)
| DoUpdateDiscount (x : number)
| DoSetNumber (v : jsstring)
| DoSetDate (v : jsstring)
| DoSetNotes (v : jsstring)
| DoSetDescription (v : jsstring)
| DoSetQuantity (x : number)
| DoSetPrice (x : number)
| DoSetShowPreview (b : bool)
| DoChooseCustomer (i : CustomerIndex).

Definition step (st : FormState) (a : Action) : FormState :=
  match a with
  | DoAddItem rnd => addItem rnd st
  | DoRemoveItem id => removeItem id st
  | DoUpdatePaid x => updatePaidAmount (or_zero (Some x)) st
  | DoUpdateDiscount x => updateDiscountAmount (or_zero (Some x)) st
  | DoSetNumber v => setNumber v st
  | DoSetDate v => setDate v st
  | DoSetNotes v => setNotes v st
  | DoSetDescription v => setDescription v st
  | DoSetQuantity x => setQuantity x st
  | DoSetPrice x => setPrice x st
  | DoSetShowPreview b => mkFormState (st_invoice st) (st_newItem st) b
  | DoChooseCustomer i => handleCustomerChange i st
  end.

Definition run_actions (st : FormState) (l : list Action) : FormState :=
  fold_left step l st.

(** What the preview hands to the QR component:
    [generateZatcaQrCode(invoice)]. *)
Definition previewQrValue (st : FormState) : M jsstring :=
  generateZatcaQrCode (st_invoice st).

(* ------------------------------------------------------------------ *)
(** *** Vocabulary of the further properties *)

(** The amounts of an invoice are those computed from its items: the
    subtotal their sum, the tax 0.15 times the subtotal, the total both. *)
Definition amounts_follow_items (invoice : Invoice) : Prop :=
  subtotal invoice = items_subtotal (items invoice)
  /\ taxAmount invoice
     = Some (num_mul (subtotal invoice) (number_of_decimal 15 2))
  /\ total invoice
     = Some (num_add (subtotal invoice)
               (num_mul (subtotal invoice) (number_of_decimal 15 2))).

(** The remaining amount is what is due, total less paid, with the discount
    taken off or put on. *)
Definition remaining_follows (invoice : Invoice) : Prop :=
  let due := num_sub (to_number (total invoice)) (paid invoice) in
  remaining invoice = num_sub due (discount invoice)
  \/ remaining invoice = num_add due (discount invoice).

(** The number a string of decimal digits denotes. *)
Definition digits_value (s : jsstring) : Z :=
  fold_left (fun acc c => 10 * acc + (c - 48)) s 0.

(** The records a reader gets from a returned string: base64 decoding, then
    the parse of the whole buffer. *)
Definition decode_records (s : jsstring) : option (list TLV) :=
  match base64_decode s with
  | Some bs => parseTLV bs
  | None => None
  end.


(* ================================================================== *)
(** ** The next invoice number (invoiceService.getNextInvoiceNumber)

    The service asks the database for the invoice with the greatest number
    and derives the next number from it with [parseInt], [+ 1],
    [Number.prototype.toString] and [padStart]. The listing itself is the
    database's; the function is modelled from what the [await] comes to. *)

(** The value of a code unit as a digit: 0-9, then a-z or A-Z for 10-35. *)
Definition digit_of (c : Z) : option Z :=
  if (48 <=? c) && (c <=? 57) then Some (c - 48)
  else if (97 <=? c) && (c <=? 122) then Some (c - 87)
  else if (65 <=? c) && (c <=? 90) then Some (c - 55)
  else None.

(** The digits of radix [R] that [s] starts with, as their values. *)
Fixpoint radix_digits (R : Z) (s : jsstring) : list Z :=
  match s with
  | [] => []
  | c :: r =>
      match digit_of c with
      | Some d => if d <? R then d :: radix_digits R r else []
      | None => []
      end
  end.

(** [parseInt(s)] without a radix: leading white space is skipped, a sign
    is read, "0x" or "0X" selects radix 16, and the digits that follow are
    read up to the first character that is none; NaN when there is no digit.
    The integer read is rounded to the nearest Number (the latitude the
    standard gives beyond 20 significant digits is not used). *)
Definition parseInt (s : jsstring) : number :=
  let S := trim_start s in
  let negative := match S with c :: _ => c =? 45 | [] => false end in
  let S := match S with
           | c :: r => if (c =? 43) || (c =? 45) then r else S
           | [] => S
           end in
  let hex := match S with
             | c0 :: c1 :: _ => (c0 =? 48) && ((c1 =? 120) || (c1 =? 88))
             | _ => false
             end in
  let R := if hex then 16 else 10 in
  let S := if hex then skipn 2 S else S in
  match radix_digits R S with
  | [] => S754_nan
  | ds =>
      let mathInt := fold_left (fun a d => a * R + d) ds 0 in
      if mathInt =? 0 then S754_zero negative
      else number_of_Z (if negative then - mathInt else mathInt)
  end.

(** Whether the Number nearest to [s * 10^q] is [m * 2^e]: the value lies
    between the midpoints to the neighbouring Numbers, a midpoint counting
    when [m] is even. The Number below a power of two is half as far. *)
Definition rounds_to (m : positive) (e : Z) (s q : Z) : bool :=
  let A := 2 ^ Z.max e 0 in
  let num := Z.pos m * A in
  let den := 2 ^ Z.max (- e) 0 in
  let cn := s * 10 ^ Z.max q 0 in
  let cd := 10 ^ Z.max (- q) 0 in
  let g := if (Z.pos m =? 2 ^ 52) && (-1074 <? e) then 1 else 2 in
  let lo := (4 * num - g * A) * cd in
  let hi := (4 * num + 2 * A) * cd in
  let v := 4 * den * cn in
  if Z.even (Z.pos m) then (lo <=? v) && (v <=? hi) else (lo <? v) && (v <? hi).

Fixpoint first_scale (num den : Z) (j : Z) (fuel : nat) : Z :=
  match fuel with
  | O => j
  | S fuel' =>
      if den <=? num * 10 ^ j then j else first_scale num den (j + 1) fuel'
  end.

(** The [n] with [10^(n-1) <= num / den < 10^n]. *)
Definition decimal_exponent (num den : Z) : Z :=
  if den <=? num then Z.of_nat (length (decimal_digits (num / den)))
  else 1 - first_scale num den 1 400.

(** The two decimals [s * 10^q] next to [m * 2^e], below and above, the
    nearer first (the even [s] first when they are as near). *)
Definition decimals_around (m : positive) (e q : Z) : Z * Z :=
  let num := Z.pos m * 2 ^ Z.max e 0 in
  let den := 2 ^ Z.max (- e) 0 in
  let lo := if 0 <=? q then num / (den * 10 ^ q) else num * 10 ^ (- q) / den in
  let hi := lo + 1 in
  let two_x := 2 * num * 10 ^ Z.max (- q) 0 in
  let mid := (lo + hi) * 10 ^ Z.max q 0 * den in
  if (two_x <? mid) || ((two_x =? mid) && Z.even lo) then (lo, hi)
  else (hi, lo).

(** The search of Number::toString for the fewest digits: for [k] = 1, 2,
    ... the [k]-digit decimals around [m * 2^e], of which [n] digits come
    before the point, until one of them rounds to it. The result [(s, q)]
    stands for [s * 10^q]. *)
Fixpoint shortest_decimal (m : positive) (e : Z) (n k : Z) (fuel : nat)
  : Z * Z :=
  let q := n - k in
  let near := fst (decimals_around m e q) in
  let far := snd (decimals_around m e q) in
  match fuel with
  | O => (near, q)
  | S fuel' =>
      if rounds_to m e near q then (near, q)
      else if rounds_to m e far q then (far, q)
      else shortest_decimal m e n (k + 1) fuel'
  end.

(** Number::toString, radix 10, of [m * 2^e]. *)
Definition Number_toString_finite (m : positive) (e : Z) : jsstring :=
  let num := Z.pos m * 2 ^ Z.max e 0 in
  let den := 2 ^ Z.max (- e) 0 in
  let sq := shortest_decimal m e (decimal_exponent num den) 1 17 in
  let all := decimal_digits (fst sq) in
  let n := Z.of_nat (length all) + snd sq in
  let d := strip_trailing_zeros all in
  let k := Z.of_nat (length d) in
  if (k <=? n) && (n <=? 21) then d ++ repeat 48 (Z.to_nat (n - k))
  else if (0 <? n) && (n <=? 21)
  then firstn (Z.to_nat n) d ++ lit "." ++ skipn (Z.to_nat n) d
  else if (-6 <? n) && (n <=? 0)
  then lit "0." ++ repeat 48 (Z.to_nat (- n)) ++ d
  else
    let ex := (if 0 <=? n - 1 then lit "+" else lit "-")
              ++ decimal_digits (Z.abs (n - 1)) in
    match d with
    | [] => []
    | [c] => c :: lit "e" ++ ex
    | c :: r => c :: lit "." ++ r ++ lit "e" ++ ex
    end.

(** [x.toString()]. *)
Definition Number_toString (x : number) : jsstring :=
  match x with
  | S754_nan => lit "NaN"
  | S754_zero _ => lit "0"
  | S754_infinity s => (if s then lit "-" else []) ++ lit "Infinity"
  | S754_finite s m e =>
      (if s then lit "-" else []) ++ Number_toString_finite m e
  end.

(** [s.padStart(maxLength, fill)]. *)
Definition padStart (s : jsstring) (maxLength : nat) (fill : jsstring)
  : jsstring :=
  let fillLen := (maxLength - length s)%nat in
  firstn fillLen (concat (repeat fill fillLen)) ++ s.

(** What [await databases.listDocuments(...)] comes to: the documents of
    the response, or the rejection, thrown into the [catch], with the text
    the console shows for it. *)
Inductive Awaited (A : Type) : Type :=
| Fulfilled (a : A)
| Rejected (reason : jsstring).

Arguments Fulfilled {A} a.
Arguments Rejected {A} reason.

(** [console.error(msg, error)]. *)
Definition console_error (msg reason : jsstring) : M unit :=
  fun w =>
    (Normal tt,
     mkWorld (clock w) (clock_ok w) (localTZA w)
       (console w ++ [msg ++ lit " " ++ reason])).

(** Of the stored invoice the function reads the number alone. *)
Record AppwriteInvoice : Type := mkAppwriteInvoice {
  invoiceNumber : jsstring
}.

Definition getNextInvoiceNumber (response : Awaited (list AppwriteInvoice))
  : M jsstring :=
  match response with
  | Rejected error =>
      console_error (lit "Error getting next invoice number:") error ;;;
      ret (lit "0000001")
  | Fulfilled documents =>
      match documents with
      | [] => ret (lit "0000001")
      | lastInvoice :: _ =>
          let lastNumber := parseInt (invoiceNumber lastInvoice) in
          let nextNumber := num_add lastNumber (number_of_Z 1) in
          ret (padStart (Number_toString nextNumber) 7 (lit "0"))
      end
  end.

(* ================================================================== *)
(** * Properties *)

Ltac split_conds :=
  repeat match goal with
         | H : andb _ _ = true |- _ => apply andb_prop in H; destruct H
         | H : (_ =? _) = true |- _ => apply Z.eqb_eq in H
         | H : (_ <=? _) = true |- _ => apply Z.leb_le in H
         end.

Ltac divmod := Z.div_mod_to_equations; lia.

Ltac split_ltb :=
  repeat match goal with
         | |- context [?a <? ?b] => destruct (Z.ltb_spec a b); try lia
         end.

(* ------------------------------------------------------------------ *)
(** ** Bytes and records *)

Lemma ToUint8_byte v : is_byte (ToUint8 v).
Proof. unfold is_byte, ToUint8. apply Z.mod_pos_bound. lia. Qed.

Lemma ToUint8_id v : is_byte v -> ToUint8 v = v.
Proof. unfold is_byte, ToUint8. intros H. apply Z.mod_small. exact H. Qed.

Lemma ToUint16_byte b : is_byte b -> ToUint16 b = b.
Proof. unfold is_byte, ToUint16. intros H. apply Z.mod_small. lia. Qed.

Lemma TextEncoder_bytes s : Forall is_byte (TextEncoder_encode s).
Proof.
  unfold TextEncoder_encode. apply Forall_forall. intros b Hb.
  apply in_map_iff in Hb. destruct Hb as [x [<- _]]. apply ToUint8_byte.
Qed.

Lemma tlv_bytes_bytes tag v : Forall is_byte (tlv_bytes tag v).
Proof.
  unfold tlv_bytes. repeat constructor; try apply ToUint8_byte.
  apply TextEncoder_bytes.
Qed.

Create HintDb bytes.
#[local] Hint Resolve ToUint8_byte TextEncoder_bytes tlv_bytes_bytes : bytes.

Lemma tlv_bytes_length tag v :
  Z.of_nat (length (tlv_bytes tag v)) = 2 + utf8_length v.
Proof. unfold tlv_bytes, utf8_length. cbn [length]. lia. Qed.

(** On code units that are scalar values already (no surrogates, 16 bits),
    the bytes are those of UTF-8 as they stand: the conversion to a byte
    changes nothing. *)
Lemma utf8_of_scalar_bytes cp :
  0 <= cp < 1114112 -> Forall is_byte (utf8_of_scalar cp).
Proof.
  intros H. unfold utf8_of_scalar, is_byte.
  split_ltb; repeat constructor; divmod.
Qed.

Lemma to_scalar_values_range s :
  Forall (fun c => 0 <= c < 65536) s ->
  Forall (fun cp => 0 <= cp < 1114112) (to_scalar_values s).
Proof.
  assert (Hgen : forall n s, (length s <= n)%nat ->
            Forall (fun c => 0 <= c < 65536) s ->
            Forall (fun cp => 0 <= cp < 1114112) (to_scalar_values s)).
  { induction n as [| n IH]; intros [| c r] Hlen Hs; cbn [length] in Hlen;
      try (constructor; fail); try lia.
    inversion Hs as [| ? ? Hc Hr]; subst. cbn [to_scalar_values].
    unfold is_high_surrogate, is_low_surrogate.
    destruct ((55296 <=? c) && (c <=? 56319)) eqn:Hh.
    - destruct r as [| d r'].
      + repeat constructor; lia.
      + inversion Hr as [| ? ? Hd Hr']; subst.
        destruct ((56320 <=? d) && (d <=? 57343)) eqn:Hl.
        * split_conds. constructor; [lia |].
          apply IH; [cbn [length] in Hlen; lia | exact Hr'].
        * constructor; [lia |]. apply IH; [lia | exact Hr].
    - destruct ((56320 <=? c) && (c <=? 57343)).
      + constructor; [lia |]. apply IH; [lia | exact Hr].
      + constructor; [lia |]. apply IH; [lia | exact Hr]. }
  intros H. apply (Hgen (length s)); [lia | exact H].
Qed.

Lemma TextEncoder_encode_utf8 s :
  Forall (fun c => 0 <= c < 65536) s ->
  TextEncoder_encode s = flat_map utf8_of_scalar (to_scalar_values s).
Proof.
  intros H. apply to_scalar_values_range in H. unfold TextEncoder_encode.
  induction H as [| cp r Hcp _ IH]; cbn [flat_map]; [reflexivity |].
  rewrite map_app, IH. f_equal.
  pose proof (utf8_of_scalar_bytes cp Hcp) as Hb.
  induction Hb as [| b bs Hb _ IHb]; cbn [map]; [reflexivity |].
  rewrite ToUint8_id, IHb by exact Hb. reflexivity.
Qed.

(** ASCII text is its own encoding. *)
Lemma TextEncoder_encode_ascii s :
  Forall (fun c => 0 <= c < 128) s -> TextEncoder_encode s = s.
Proof.
  intros H. unfold TextEncoder_encode.
  induction H as [| c r Hc _ IH]; [reflexivity |].
  cbn [to_scalar_values]. unfold is_high_surrogate, is_low_surrogate.
  destruct (Z.leb_spec 55296 c); [lia |]. cbn [andb].
  destruct (Z.leb_spec 56320 c); [lia |]. cbn [andb flat_map].
  unfold utf8_of_scalar at 1. destruct (Z.ltb_spec c 128); [| lia].
  cbn [app map]. rewrite IH. f_equal. apply ToUint8_id. unfold is_byte. lia.
Qed.

(** [encodeTLV] never throws and touches nothing; its result is the record
    in closed form. *)
Lemma encodeTLV_run tag value w :
  encodeTLV tag value w = (Normal (tlv_bytes tag value), w).
Proof.
  unfold encodeTLV, tlv_bytes, utf8_length.
  set (vb := TextEncoder_encode value).
  unfold new_Uint8Array. cbn [Nat.add repeat].
  unfold store at 2. cbn [length Nat.ltb Nat.leb firstn skipn app].
  unfold store. cbn [length Nat.ltb Nat.leb firstn skipn app].
  unfold bind, Uint8Array_set. cbn [length Nat.add].
  rewrite repeat_length, Nat.leb_refl. unfold ret.
  cbn [firstn skipn app]. rewrite skipn_all2 by (rewrite repeat_length; lia).
  rewrite app_nil_r. reflexivity.
Qed.

(* ------------------------------------------------------------------ *)
(** ** Reading records back *)

Lemma parse_record_tlv tag v rest :
  is_byte tag -> utf8_length v <= 255 ->
  parse_record (tlv_bytes tag v ++ rest)
  = Some (mkTLV tag (utf8_length v) (TextEncoder_encode v), rest).
Proof.
  intros Ht Hv. unfold tlv_bytes. cbn [app]. unfold parse_record.
  assert (Hl : is_byte (utf8_length v)) by (unfold is_byte, utf8_length in *; lia).
  rewrite (ToUint8_id _ Ht), (ToUint8_id _ Hl).
  unfold utf8_length. rewrite Nat2Z.id.
  replace (length (TextEncoder_encode v)
           <=? length (TextEncoder_encode v ++ rest))%nat with true
    by (symmetry; apply Nat.leb_le; rewrite length_app; lia).
  rewrite firstn_app, firstn_all, Nat.sub_diag, firstn_O, app_nil_r.
  rewrite skipn_app, skipn_all, Nat.sub_diag, skipn_O. reflexivity.
Qed.

Lemma parse_tlv_nil fuel : parse_tlv fuel [] = Some [].
Proof. destruct fuel; reflexivity. Qed.

Lemma parse_tlv_cons fuel tag v rest :
  is_byte tag -> utf8_length v <= 255 ->
  parse_tlv (S fuel) (tlv_bytes tag v ++ rest)
  = match parse_tlv fuel rest with
    | Some recs =>
        Some (mkTLV tag (utf8_length v) (TextEncoder_encode v) :: recs)
    | None => None
    end.
Proof.
  intros Ht Hv. pose proof (parse_record_tlv tag v rest Ht Hv) as Hp.
  unfold tlv_bytes in *. cbn [app] in *. cbn [parse_tlv]. rewrite Hp.
  reflexivity.
Qed.

Lemma parseTLV_payload v1 v2 v3 v4 v5 :
  utf8_length v1 <= 255 -> utf8_length v2 <= 255 -> utf8_length v3 <= 255 ->
  utf8_length v4 <= 255 -> utf8_length v5 <= 255 ->
  parseTLV (payload_bytes v1 v2 v3 v4 v5)
  = Some [mkTLV 1 (utf8_length v1) (TextEncoder_encode v1);
          mkTLV 2 (utf8_length v2) (TextEncoder_encode v2);
          mkTLV 3 (utf8_length v3) (TextEncoder_encode v3);
          mkTLV 4 (utf8_length v4) (TextEncoder_encode v4);
          mkTLV 5 (utf8_length v5) (TextEncoder_encode v5)].
Proof.
  intros H1 H2 H3 H4 H5. unfold parseTLV, payload_bytes.
  rewrite !length_app.
  set (n := (length (tlv_bytes 1 v1) + _)%nat).
  assert (Hn : exists k, n = (5 + k)%nat).
  { exists (n - 5)%nat. unfold n, tlv_bytes. cbn [length]. lia. }
  destruct Hn as [k ->]. cbn [Nat.add].
  assert (Hb : forall t, 1 <= t <= 5 -> is_byte t) by (unfold is_byte; lia).
  rewrite !parse_tlv_cons by (try apply Hb; lia).
  rewrite <- (app_nil_r (tlv_bytes 5 v5)).
  rewrite parse_tlv_cons by (try apply Hb; lia).
  rewrite parse_tlv_nil. reflexivity.
Qed.

Lemma payload_length v1 v2 v3 v4 v5 :
  Z.of_nat (length (payload_bytes v1 v2 v3 v4 v5))
  = (2 + utf8_length v1) + (2 + utf8_length v2) + (2 + utf8_length v3)
    + (2 + utf8_length v4) + (2 + utf8_length v5).
Proof.
  unfold payload_bytes. rewrite !length_app, !Nat2Z.inj_add, !tlv_bytes_length.
  lia.
Qed.

(* ------------------------------------------------------------------ *)
(** ** Base64 *)

Lemma b64_val_char i : 0 <= i < 64 -> b64_val (b64_char i) = Some i.
Proof.
  intros Hi. unfold b64_char, b64_val.
  repeat match goal with
         | |- context [?a <? ?b] => destruct (Z.ltb_spec a b)
         | |- context [?a <=? ?b] => destruct (Z.leb_spec a b)
         | |- context [?a =? ?b] => destruct (Z.eqb_spec a b)
         | _ => progress cbn [andb]
         end; try lia; f_equal; lia.
Qed.

Lemma b64_char_not_pad i : 0 <= i < 64 -> (b64_char i =? b64_pad) = false.
Proof.
  intros Hi. apply Z.eqb_neq. unfold b64_char, b64_pad.
  repeat match goal with
         | |- context [?a <? ?b] => destruct (Z.ltb_spec a b)
         | |- context [?a =? ?b] => destruct (Z.eqb_spec a b)
         end; lia.
Qed.

Lemma base64_group3 a b c r bs :
  is_byte a -> is_byte b -> is_byte c ->
  base64_decode (base64_encode r) = Some bs ->
  base64_decode (base64_encode (a :: b :: c :: r)) = Some (a :: b :: c :: bs).
Proof.
  unfold is_byte. intros Ha Hb Hc IH.
  cbn [base64_encode]. cbv zeta.
  set (n := a * 65536 + b * 256 + c).
  assert (Hn : 0 <= n < 16777216) by (unfold n; lia).
  cbn [base64_decode].
  rewrite !b64_val_char by divmod.
  rewrite !b64_char_not_pad by divmod. cbn [andb].
  rewrite IH. cbv zeta.
  f_equal. f_equal; [| f_equal; [| f_equal]]; unfold n; divmod.
Qed.

Lemma base64_roundtrip_le k : forall bs,
  (length bs <= k)%nat -> Forall is_byte bs ->
  base64_decode (base64_encode bs) = Some bs.
Proof.
  induction k as [k IH] using lt_wf_ind. intros bs Hlen Hb.
  destruct bs as [| a [| b [| c r]]].
  - reflexivity.
  - inversion Hb as [| ? ? Ha _]; subst. unfold is_byte in Ha.
    cbn [base64_encode base64_decode]. cbv zeta.
    rewrite !b64_val_char by divmod.
    rewrite Z.eqb_refl. cbn [andb]. f_equal. f_equal. divmod.
  - inversion Hb as [| ? ? Ha Hb']; subst.
    inversion Hb' as [| ? ? Hb2 _]; subst. unfold is_byte in *.
    cbn [base64_encode base64_decode]. cbv zeta.
    rewrite !b64_val_char by divmod.
    rewrite !b64_char_not_pad by divmod. rewrite Z.eqb_refl. cbn [andb].
    f_equal. f_equal; [| f_equal]; divmod.
  - inversion Hb as [| ? ? Ha Hb1]; subst.
    inversion Hb1 as [| ? ? Hb2 Hb3]; subst.
    inversion Hb3 as [| ? ? Hc Hr]; subst.
    apply base64_group3; trivial.
    cbn [length] in Hlen. apply (IH (length r)); [lia | lia | exact Hr].
Qed.

(** Decoding undoes encoding, on any byte sequence. *)
Lemma base64_roundtrip bs :
  Forall is_byte bs -> base64_decode (base64_encode bs) = Some bs.
Proof. apply (base64_roundtrip_le (length bs)). lia. Qed.

Lemma String_fromCharCode_bytes bs :
  Forall is_byte bs -> String_fromCharCode bs = bs.
Proof.
  unfold String_fromCharCode. induction 1 as [| b r Hb _ IH]; cbn [map].
  - reflexivity.
  - rewrite ToUint16_byte, IH by exact Hb. reflexivity.
Qed.

Lemma btoa_run bs w :
  Forall is_byte bs -> btoa bs w = (Normal (base64_encode bs), w).
Proof.
  intros H. unfold btoa.
  replace (existsb (fun c => 255 <? c) bs) with false; [reflexivity |].
  symmetry. induction H as [| b r Hb _ IH]; cbn [existsb]; [reflexivity |].
  rewrite IH. unfold is_byte in Hb.
  destruct (Z.ltb_spec 255 b); [lia | reflexivity].
Qed.

(* ------------------------------------------------------------------ *)
(** ** The calendar *)

Lemma DayFromYear_step y : DayFromYear (y + 1) = DayFromYear y + DaysInYear y.
Proof.
  unfold DayFromYear, DaysInYear.
  replace (y + 1 - 1969) with (y - 1968) by lia.
  replace (y + 1 - 1901) with (y - 1900) by lia.
  replace (y + 1 - 1601) with (y - 1600) by lia.
  assert (H4 : (y - 1968) / 4
               = (y - 1969) / 4 + (if y mod 4 =? 0 then 1 else 0)).
  { destruct (Z.eqb_spec (y mod 4) 0); divmod. }
  assert (H100 : (y - 1900) / 100
                 = (y - 1901) / 100 + (if y mod 100 =? 0 then 1 else 0)).
  { destruct (Z.eqb_spec (y mod 100) 0); divmod. }
  assert (H400 : (y - 1600) / 400
                 = (y - 1601) / 400 + (if y mod 400 =? 0 then 1 else 0)).
  { destruct (Z.eqb_spec (y mod 400) 0); divmod. }
  rewrite H4, H100, H400.
  destruct (Z.eqb_spec (y mod 4) 0), (Z.eqb_spec (y mod 100) 0),
    (Z.eqb_spec (y mod 400) 0); cbn [negb]; try lia.
  all: divmod.
Qed.

Lemma DayFromYear_mono a b : a <= b -> DayFromYear a <= DayFromYear b.
Proof. intros H. unfold DayFromYear. divmod. Qed.

(** [YearFromDay] meets its specification: the year found starts on or
    before the day, and the next one after it. *)
Lemma YearFromDay_bounds d :
  DayFromYear (YearFromDay d) <= d < DayFromYear (YearFromDay d + 1).
Proof.
  unfold YearFromDay.
  set (y := 1970 + 400 * d / 146097).
  assert (Hlo : DayFromYear (y - 1) <= d) by (unfold DayFromYear, y; divmod).
  assert (Hhi : d < DayFromYear (y + 2)) by (unfold DayFromYear, y; divmod).
  destruct (Z.ltb_spec d (DayFromYear y)).
  - replace (y - 1 + 1) with y by lia. lia.
  - destruct (Z.leb_spec (DayFromYear (y + 1)) d).
    + replace (y + 1 + 1) with (y + 2) by lia. lia.
    + lia.
Qed.

Lemma YearFromDay_unique y d :
  DayFromYear y <= d < DayFromYear (y + 1) -> YearFromDay d = y.
Proof.
  intros H. pose proof (YearFromDay_bounds d) as Hb.
  destruct (Z.lt_trichotomy (YearFromDay d) y) as [Hlt | [Heq | Hgt]].
  - pose proof (DayFromYear_mono (YearFromDay d + 1) y ltac:(lia)). lia.
  - exact Heq.
  - pose proof (DayFromYear_mono (y + 1) (YearFromDay d) ltac:(lia)). lia.
Qed.

Lemma DaysInYear_leap y : DaysInYear y = if is_leap y then 366 else 365.
Proof.
  unfold DaysInYear, is_leap.
  destruct (Z.eqb_spec (y mod 4) 0), (Z.eqb_spec (y mod 100) 0),
    (Z.eqb_spec (y mod 400) 0); cbn [negb andb orb]; try reflexivity.
  all: exfalso; divmod.
Qed.

(** [YearFromTime t] is the largest [y] with [TimeFromYear y <= t]. *)
Lemma YearFromTime_spec t :
  TimeFromYear (YearFromTime t) <= t < TimeFromYear (YearFromTime t + 1).
Proof.
  unfold TimeFromYear, YearFromTime.
  pose proof (YearFromDay_bounds (Day t)) as Hb. revert Hb.
  generalize (DayFromYear (YearFromDay (Day t))) as a.
  generalize (DayFromYear (YearFromDay (Day t) + 1)) as b.
  unfold Day, msPerDay. intros b a Hb. divmod.
Qed.

(** Every time value has a year the date-time format can write. *)
Lemma year_in_range t :
  Z.abs t <= maxTime -> -271821 <= YearFromTime t <= 275760.
Proof.
  intros Ht. unfold YearFromTime.
  assert (Hd : -100000000 <= Day t <= 100000000).
  { unfold Day, msPerDay. unfold maxTime in Ht. divmod. }
  pose proof (YearFromDay_bounds (Day t)) as Hb.
  revert Hb. generalize (YearFromDay (Day t)) as y. generalize dependent (Day t).
  intros d Hd y. unfold DayFromYear. intros Hb. divmod.
Qed.

Lemma Day_MakeDate day : Day (MakeDate day 0) = day.
Proof. unfold Day, MakeDate, msPerDay. divmod. Qed.

Ltac norm_month :=
  repeat match goal with
         | |- context [Z.sub (Zpos ?p) 1] =>
             let v := eval vm_compute in (Z.sub (Zpos p) 1) in
             change (Z.sub (Zpos p) 1) with v
         | H : context [Z.sub (Zpos ?p) 1] |- _ =>
             let v := eval vm_compute in (Z.sub (Zpos p) 1) in
             change (Z.sub (Zpos p) 1) with v in H
         end;
  cbn [month_start days_in_month] in *.

Ltac month_cases mo :=
  let H := fresh "Hcases" in
  assert (H : mo = 1 \/ mo = 2 \/ mo = 3 \/ mo = 4 \/ mo = 5 \/ mo = 6 \/
              mo = 7 \/ mo = 8 \/ mo = 9 \/ mo = 10 \/ mo = 11 \/ mo = 12)
    by lia;
  decompose [or] H; subst mo; norm_month.

(** A calendar date goes to a time value and back unchanged. *)
Lemma civil_roundtrip y mo d :
  1 <= mo <= 12 -> 1 <= d <= days_in_month y mo ->
  let t := MakeDate (MakeDay y (mo - 1) d) 0 in
  YearFromTime t = y /\ MonthFromTime t = mo - 1 /\ DateFromTime t = d.
Proof.
  intros Hmo Hd t.
  assert (Hday : Day t = MakeDay y (mo - 1) d) by apply Day_MakeDate.
  assert (Hym : y + (mo - 1) / 12 = y) by divmod.
  assert (Hmn : (mo - 1) mod 12 = mo - 1) by (apply Z.mod_small; lia).
  assert (Hdwy : MakeDay y (mo - 1) d
                 = DayFromYear y
                   + (month_start (if is_leap y then 1 else 0) (mo - 1) + d - 1)).
  { unfold MakeDay. rewrite Hym, Hmn, DaysInYear_leap.
    destruct (is_leap y); cbn [Z.eqb Pos.eqb]; lia. }
  clear Hym Hmn. subst t.
  unfold DateFromTime, MonthFromTime, DayWithinYear, InLeapYear, YearFromTime.
  rewrite Hday, Hdwy. clear Hday Hdwy.
  assert (Hyear : YearFromDay
                    (DayFromYear y
                     + (month_start (if is_leap y then 1 else 0) (mo - 1) + d - 1))
                  = y).
  { apply YearFromDay_unique. rewrite DayFromYear_step, DaysInYear_leap.
    destruct (is_leap y) eqn:Hl; month_cases mo; rewrite ?Hl in Hd; lia. }
  rewrite Hyear, DaysInYear_leap. split; [reflexivity |].
  destruct (is_leap y) eqn:Hl; cbn [Z.eqb Pos.eqb];
    month_cases mo; rewrite ?Hl in Hd; split_ltb; cbn [month_start]; lia.
Qed.

Lemma midnight_fields day :
  let t := MakeDate day 0 in
  HourFromTime t = 0 /\ MinFromTime t = 0 /\ SecFromTime t = 0
  /\ msFromTime t = 0 /\ TimeWithinDay t = 0.
Proof.
  unfold HourFromTime, MinFromTime, SecFromTime, msFromTime, TimeWithinDay,
    MakeDate, msPerDay, msPerHour, msPerMinute, msPerSecond.
  repeat split; divmod.
Qed.

Lemma days_in_month_le y mo : days_in_month y mo <= 31.
Proof.
  unfold days_in_month.
  destruct (is_leap y); destruct mo as [| p | p]; try lia;
    do 4 (try (destruct p as [p | p |]; try lia)).
Qed.

Lemma MakeDay_bound y mo d :
  0 <= y <= 9999 -> 1 <= mo <= 12 -> 1 <= d <= 31 ->
  Z.abs (MakeDate (MakeDay y (mo - 1) d) 0) <= maxTime.
Proof.
  intros Hy Hmo Hd. unfold MakeDate, MakeDay, maxTime, msPerDay.
  assert (Hym : y + (mo - 1) / 12 = y) by divmod.
  rewrite Hym.
  assert (Hms : 0 <= month_start (if DaysInYear y =? 366 then 1 else 0)
                       ((mo - 1) mod 12) <= 366).
  { assert (Hmn : (mo - 1) mod 12 = mo - 1) by (apply Z.mod_small; lia).
    rewrite Hmn. destruct (DaysInYear y =? 366); month_cases mo; lia. }
  revert Hms. generalize (month_start (if DaysInYear y =? 366 then 1 else 0)
                            ((mo - 1) mod 12)) as ms.
  intros ms Hms. unfold DayFromYear. divmod.
Qed.

(* ------------------------------------------------------------------ *)
(** ** Parsing and rendering dates *)

Lemma is_digit_range c : is_digit c = true -> 48 <= c <= 57.
Proof. unfold is_digit. intros H. apply andb_prop in H. lia. Qed.

Lemma digit_val_digit c : is_digit c = true -> digit_val c = Some (c - 48).
Proof. unfold is_digit, digit_val. intros ->. reflexivity. Qed.

Lemma read_digits_2 a b r :
  is_digit a = true -> is_digit b = true ->
  read_digits 2 0 (a :: b :: r) = Some (10 * (a - 48) + (b - 48), r).
Proof.
  intros Ha Hb. cbn [read_digits].
  rewrite (digit_val_digit _ Ha), (digit_val_digit _ Hb).
  f_equal; f_equal; lia.
Qed.

Lemma read_digits_4 a b c d r :
  is_digit a = true -> is_digit b = true -> is_digit c = true ->
  is_digit d = true ->
  read_digits 4 0 (a :: b :: c :: d :: r)
  = Some (1000 * (a - 48) + 100 * (b - 48) + 10 * (c - 48) + (d - 48), r).
Proof.
  intros Ha Hb Hc Hd. cbn [read_digits].
  rewrite (digit_val_digit _ Ha), (digit_val_digit _ Hb),
    (digit_val_digit _ Hc), (digit_val_digit _ Hd).
  f_equal; f_equal; lia.
Qed.

Lemma parse_year_digit c r :
  is_digit c = true -> parse_year (c :: r) = read_digits 4 0 (c :: r).
Proof.
  intros H. apply is_digit_range in H. unfold parse_year.
  destruct (Z.eqb_spec c 43); [lia |].
  destruct (Z.eqb_spec c 45); [lia | reflexivity].
Qed.

Lemma fixed_digits_2 a b :
  is_digit a = true -> is_digit b = true ->
  fixed_digits 2 (10 * (a - 48) + (b - 48)) = [a; b].
Proof.
  intros Ha Hb. apply is_digit_range in Ha, Hb.
  cbn [fixed_digits app]. f_equal; [| f_equal]; divmod.
Qed.

Lemma fixed_digits_4 a b c d :
  is_digit a = true -> is_digit b = true -> is_digit c = true ->
  is_digit d = true ->
  fixed_digits 4 (1000 * (a - 48) + 100 * (b - 48) + 10 * (c - 48) + (d - 48))
  = [a; b; c; d].
Proof.
  intros Ha Hb Hc Hd. apply is_digit_range in Ha, Hb, Hc, Hd.
  cbn [fixed_digits app].
  f_equal; [| f_equal; [| f_equal; [| f_equal]]]; divmod.
Qed.

(** A calendar date followed by the midnight suffix parses, to midnight UTC
    of that date, and the rendering of that instant is the string parsed. *)
Lemma calendar_date_parse s tza :
  is_calendar_date s = true ->
  exists t,
    Date_parse tza (concat_str s midnight_suffix) = Some t
    /\ iso_string t = concat_str s midnight_suffix
    /\ TimeWithinDay t = 0
    /\ Z.abs t <= maxTime.
Proof.
  unfold is_calendar_date.
  destruct s as [| y3 [| y2 [| y1 [| y0 [| h1 [| m1 [| m0 [| h2 [| d1 [| d0
                   [| ? ?]]]]]]]]]]]; try discriminate.
  cbn [forallb]. intros H. split_conds. subst h1 h2.
  set (y := 1000 * (y3 - 48) + 100 * (y2 - 48) + 10 * (y1 - 48) + (y0 - 48))
    in *.
  set (mo := 10 * (m1 - 48) + (m0 - 48)) in *.
  set (d := 10 * (d1 - 48) + (d0 - 48)) in *.
  pose proof (days_in_month_le y mo) as Hdim.
  assert (Hy : 0 <= y <= 9999).
  { repeat match goal with
           | H : is_digit _ = true |- _ => apply is_digit_range in H
           end. unfold y. lia. }
  exists (MakeDate (MakeDay y (mo - 1) d) 0).
  pose proof (MakeDay_bound y mo d Hy ltac:(lia) ltac:(lia)) as Hb.
  split; [| split; [| split; [apply midnight_fields | exact Hb]]].
  - unfold Date_parse, concat_str. cbn [app].
    rewrite parse_year_digit, read_digits_4 by assumption. fold y.
    unfold parse_month_day. rewrite Z.eqb_refl.
    rewrite read_digits_2 by assumption. fold mo.
    replace ((1 <=? mo) && (mo <=? 12)) with true
      by (symmetry; apply andb_true_intro; split; apply Z.leb_le; lia).
    rewrite Z.eqb_refl, read_digits_2 by assumption. fold d.
    replace ((1 <=? d) && (d <=? 31)) with true
      by (symmetry; apply andb_true_intro; split; apply Z.leb_le; lia).
    change midnight_suffix with (84 :: lit "00:00:00.000Z").
    cbv beta iota. rewrite Z.eqb_refl.
    replace (parse_time (lit "00:00:00.000Z")) with (Some (0, [90]))
      by reflexivity.
    replace (parse_zone [90]) with (Some (Offset 0)) by reflexivity.
    cbv beta iota zeta. rewrite Z.sub_0_r.
    unfold TimeClip.
    destruct (Z.ltb_spec maxTime (Z.abs (MakeDate (MakeDay y (mo - 1) d) 0)));
      [lia | reflexivity].
  - unfold iso_string.
    destruct (civil_roundtrip y mo d ltac:(lia) ltac:(lia)) as (-> & -> & ->).
    destruct (midnight_fields (MakeDay y (mo - 1) d)) as (-> & -> & -> & -> & _).
    unfold year_string.
    replace ((0 <=? y) && (y <=? 9999)) with true
      by (symmetry; apply andb_true_intro; split; apply Z.leb_le; lia).
    replace (mo - 1 + 1) with mo by lia.
    unfold y, mo, d. rewrite fixed_digits_4, !fixed_digits_2 by assumption.
    reflexivity.
Qed.

Lemma TimeClip_range t v : TimeClip t = Some v -> Z.abs v <= maxTime.
Proof.
  unfold TimeClip. destruct (Z.ltb_spec maxTime (Z.abs t)); [discriminate |].
  intros [= <-]. lia.
Qed.

Lemma Date_parse_range tza s v :
  Date_parse tza s = Some v -> Z.abs v <= maxTime.
Proof.
  unfold Date_parse.
  repeat match goal with
         | |- context [match ?x with _ => _ end] => destruct x; try discriminate
         end;
    intros H; apply TimeClip_range in H; exact H.
Qed.









(* ------------------------------------------------------------------ *)
(** ** Running the builder *)

Lemma toISOString_run t w :
  Z.abs t <= maxTime -> toISOString (Some t) w = (Normal (iso_string t), w).
Proof.
  intros Ht. apply year_in_range in Ht. unfold toISOString.
  destruct (Z.ltb_spec (YearFromTime t) (-271821)); [lia |].
  destruct (Z.ltb_spec 275760 (YearFromTime t)); [lia |].
  reflexivity.
Qed.

(** The date step never throws, never reaches its handler, and leaves the
    world as it was. *)
Lemma invoiceDateTime_run invoice w :
  invoiceDateTime invoice w
  = (Normal (resolved_dateTime (clock w) (localTZA w) (date invoice)), w).
Proof.
  unfold invoiceDateTime, bind, Date_now.
  rewrite toISOString_run by (apply Z.leb_le, clock_ok).
  unfold try_catch, resolved_dateTime.
  destruct (date invoice) as [[| c r] |]; try reflexivity.
  unfold new_Date_string, bind, get_localTZA, ret.
  destruct (Date_parse (localTZA w) (concat_str (c :: r) (lit "T00:00:00.000Z")))
    as [t |] eqn:Hp; cbn [getTime isNaN negb].
  - rewrite toISOString_run by (eapply Date_parse_range; exact Hp). reflexivity.
  - reflexivity.
Qed.

Lemma Uint8Array_set_run (pre src : list Z) (k : nat) w :
  Uint8Array_set (pre ++ repeat 0 (length src + k)) src (length pre) w
  = (Normal ((pre ++ src) ++ repeat 0 k), w).
Proof.
  unfold Uint8Array_set.
  rewrite length_app, repeat_length.
  replace (length pre + length src <=? length pre + (length src + k))%nat
    with true by (symmetry; apply Nat.leb_le; lia).
  unfold ret. f_equal. f_equal.
  rewrite firstn_app, firstn_all, Nat.sub_diag, firstn_O, app_nil_r.
  rewrite skipn_app, skipn_all2 by lia.
  replace (length pre + length src - length pre)%nat with (length src) by lia.
  rewrite <- (repeat_length 0 (length src)) at 1.
  rewrite repeat_app, skipn_app, skipn_all, Nat.sub_diag, skipn_O.
  cbn [app]. rewrite <- app_assoc. reflexivity.
Qed.

Lemma Uint8Array_set_at (pre src : list Z) (k off n : nat) w :
  off = length pre -> n = (length src + k)%nat ->
  Uint8Array_set (pre ++ repeat 0 n) src off w
  = (Normal ((pre ++ src) ++ repeat 0 k), w).
Proof. intros -> ->. apply Uint8Array_set_run. Qed.

Lemma Uint8Array_set_first (src : list Z) (k n : nat) w :
  n = (length src + k)%nat ->
  Uint8Array_set (repeat 0 n) src 0 w = (Normal (src ++ repeat 0 k), w).
Proof. intros ->. apply (Uint8Array_set_run [] src k w). Qed.

(** The assembly of five byte arrays and its base64 form: each [set] fits,
    the arrays end up one after the other, and [btoa] accepts the result. *)
Lemma combine_run (t1 t2 t3 t4 t5 : list Z) w :
  Forall is_byte t1 -> Forall is_byte t2 -> Forall is_byte t3 ->
  Forall is_byte t4 -> Forall is_byte t5 ->
  (let totalLength :=
     (length t1 + length t2 + length t3 + length t4 + length t5)%nat in
   let combinedTlvData := new_Uint8Array totalLength in
   let offset := 0%nat in
   combinedTlvData <- Uint8Array_set combinedTlvData t1 offset ;;
   let offset := (offset + length t1)%nat in
   combinedTlvData <- Uint8Array_set combinedTlvData t2 offset ;;
   let offset := (offset + length t2)%nat in
   combinedTlvData <- Uint8Array_set combinedTlvData t3 offset ;;
   let offset := (offset + length t3)%nat in
   combinedTlvData <- Uint8Array_set combinedTlvData t4 offset ;;
   let offset := (offset + length t4)%nat in
   combinedTlvData <- Uint8Array_set combinedTlvData t5 offset ;;
   base64String <- btoa (String_fromCharCode combinedTlvData) ;;
   ret base64String) w
  = (Normal (base64_encode (t1 ++ t2 ++ t3 ++ t4 ++ t5)), w).
Proof.
  intros H1 H2 H3 H4 H5. cbv zeta. unfold new_Uint8Array.
  unfold bind at 1.
  rewrite (Uint8Array_set_first t1
             (length t2 + (length t3 + (length t4 + (length t5 + 0))))) by lia.
  unfold bind at 1.
  rewrite (Uint8Array_set_at t1 t2
             (length t3 + (length t4 + (length t5 + 0)))) by lia.
  unfold bind at 1.
  rewrite (Uint8Array_set_at (t1 ++ t2) t3 (length t4 + (length t5 + 0)))
    by (rewrite ?length_app; lia).
  unfold bind at 1.
  rewrite (Uint8Array_set_at ((t1 ++ t2) ++ t3) t4 (length t5 + 0))
    by (rewrite ?length_app; lia).
  unfold bind at 1.
  rewrite (Uint8Array_set_at (((t1 ++ t2) ++ t3) ++ t4) t5 0)
    by (rewrite ?length_app; lia).
  rewrite app_nil_r.
  assert (Hb : Forall is_byte ((((t1 ++ t2) ++ t3) ++ t4) ++ t5)).
  { rewrite !Forall_app. tauto. }
  unfold bind. rewrite String_fromCharCode_bytes by exact Hb.
  rewrite btoa_run by exact Hb. unfold ret.
  rewrite <- !app_assoc. reflexivity.
Qed.

(** The whole function in closed form: it returns the base64 text of the
    five records, and the world it leaves is the world it found. *)
Lemma generate_run invoice w :
  generateZatcaQrCode invoice w
  = (Normal (base64_encode
               (payload_bytes (sellerName invoice)
                  (vatRegistrationNumber invoice)
                  (resolved_dateTime (clock w) (localTZA w) (date invoice))
                  (totalVatAmount invoice) (totalInvoiceAmount invoice))), w).
Proof.
  unfold generateZatcaQrCode, payload_bytes. cbv zeta.
  unfold bind at 1. rewrite invoiceDateTime_run.
  repeat (unfold bind at 1; rewrite encodeTLV_run).
  apply combine_run; auto with bytes.
Qed.

Lemma payload_bytes_bytes v1 v2 v3 v4 v5 :
  Forall is_byte (payload_bytes v1 v2 v3 v4 v5).
Proof.
  unfold payload_bytes. rewrite !Forall_app.
  repeat split; auto with bytes.
Qed.

(** What a reader decodes from the returned text is the five records. *)
Lemma generate_decode invoice w :
  exists s,
    generateZatcaQrCode invoice w = (Normal s, w)
    /\ base64_decode s
       = Some (payload_bytes (sellerName invoice)
                 (vatRegistrationNumber invoice)
                 (resolved_dateTime (clock w) (localTZA w) (date invoice))
                 (totalVatAmount invoice) (totalInvoiceAmount invoice)).
Proof.
  eexists. split; [apply generate_run |].
  apply base64_roundtrip, payload_bytes_bytes.
Qed.

(* ------------------------------------------------------------------ *)
(** ** The record encoder *)

(** C2. For a tag in [0,255] and a value of at most 255 UTF-8 bytes,
    [encodeTLV] returns exactly 2 + length bytes: the tag byte, then the
    length byte, equal to the number of UTF-8 bytes of the value, then the
    UTF-8 bytes of the value in order, and nothing more. *)
Theorem encodeTLV_layout tag value w :
  0 <= tag <= 255 -> utf8_length value <= 255 ->
  exists bytes,
    encodeTLV tag value w = (Normal bytes, w)
    /\ Z.of_nat (length bytes) = 2 + utf8_length value
    /\ bytes = tag :: utf8_length value :: TextEncoder_encode value.
Proof.
  intros Ht Hv. exists (tlv_bytes tag value).
  split; [apply encodeTLV_run |]. split; [apply tlv_bytes_length |].
  unfold tlv_bytes. rewrite !ToUint8_id; [reflexivity | |].
  - unfold is_byte, utf8_length in *. lia.
  - unfold is_byte. lia.
Qed.

(** Two Arabic letters: two code units, four bytes; the length byte is 4. *)
Lemma encodeTLV_layout_witness :
  0 <= 1 <= 255 /\ utf8_length [0x645; 0x62A] <= 255
  /\ exists bytes,
       encodeTLV 1 [0x645; 0x62A] world0 = (Normal bytes, world0)
       /\ Z.of_nat (length bytes) = 2 + utf8_length [0x645; 0x62A]
       /\ bytes = 1 :: utf8_length [0x645; 0x62A]
                    :: TextEncoder_encode [0x645; 0x62A].
Proof.
  split; [lia |]. split; [apply Z.leb_le; reflexivity |].
  apply encodeTLV_layout; [lia | apply Z.leb_le; reflexivity].
Defined.

(** C10. For a value of more than 255 UTF-8 bytes, [encodeTLV] still returns
    2 + L bytes; the length byte is L mod 256, which is not L; the value
    bytes are all there. *)
Theorem encodeTLV_length_wraps tag value w :
  255 < utf8_length value ->
  exists bytes,
    encodeTLV tag value w = (Normal bytes, w)
    /\ Z.of_nat (length bytes) = 2 + utf8_length value
    /\ nth 1 bytes 0 = utf8_length value mod 256
    /\ nth 1 bytes 0 <> utf8_length value
    /\ skipn 2 bytes = TextEncoder_encode value.
Proof.
  intros Hv. exists (tlv_bytes tag value).
  split; [apply encodeTLV_run |]. split; [apply tlv_bytes_length |].
  unfold tlv_bytes. cbn [nth skipn]. unfold ToUint8.
  repeat split. pose proof (Z.mod_pos_bound (utf8_length value) 256). lia.
Qed.

(** 256 letters "a": the length byte is 0. *)
Lemma encodeTLV_length_wraps_witness :
  255 < utf8_length (repeat 97 256)
  /\ exists bytes,
       encodeTLV 1 (repeat 97 256) world0 = (Normal bytes, world0)
       /\ Z.of_nat (length bytes) = 2 + utf8_length (repeat 97 256)
       /\ nth 1 bytes 0 = utf8_length (repeat 97 256) mod 256
       /\ nth 1 bytes 0 <> utf8_length (repeat 97 256)
       /\ skipn 2 bytes = TextEncoder_encode (repeat 97 256).
Proof.
  split; [apply Z.ltb_lt; vm_compute; reflexivity |].
  apply encodeTLV_length_wraps. apply Z.ltb_lt. vm_compute. reflexivity.
Defined.

(* ------------------------------------------------------------------ *)
(** ** The payload builder *)




(** C1. When each of the five resolved values has at most 255 UTF-8 bytes,
    the string returned decodes from base64 to a buffer that parses as
    exactly five records, tags 1 to 5 in order, each length byte the number
    of UTF-8 bytes of its value; the five chunks of 2 + length bytes make up
    the whole buffer. *)
Theorem payload_roundtrip invoice w dt w' :
  invoiceDateTime invoice w = (Normal dt, w') ->
  utf8_length (sellerName invoice) <= 255 ->
  utf8_length (vatRegistrationNumber invoice) <= 255 ->
  utf8_length dt <= 255 ->
  utf8_length (totalVatAmount invoice) <= 255 ->
  utf8_length (totalInvoiceAmount invoice) <= 255 ->
  exists s bytes,
    generateZatcaQrCode invoice w = (Normal s, w')
    /\ base64_decode s = Some bytes
    /\ parseTLV bytes
       = Some [mkTLV 1 (utf8_length (sellerName invoice))
                 (TextEncoder_encode (sellerName invoice));
               mkTLV 2 (utf8_length (vatRegistrationNumber invoice))
                 (TextEncoder_encode (vatRegistrationNumber invoice));
               mkTLV 3 (utf8_length dt) (TextEncoder_encode dt);
               mkTLV 4 (utf8_length (totalVatAmount invoice))
                 (TextEncoder_encode (totalVatAmount invoice));
               mkTLV 5 (utf8_length (totalInvoiceAmount invoice))
                 (TextEncoder_encode (totalInvoiceAmount invoice))]
    /\ Z.of_nat (length bytes)
       = (2 + utf8_length (sellerName invoice))
         + (2 + utf8_length (vatRegistrationNumber invoice))
         + (2 + utf8_length dt)
         + (2 + utf8_length (totalVatAmount invoice))
         + (2 + utf8_length (totalInvoiceAmount invoice)).
Proof.
  rewrite invoiceDateTime_run. intros [= <- <-] H1 H2 H3 H4 H5.
  eexists. eexists. split; [apply generate_run |].
  split; [apply base64_roundtrip, payload_bytes_bytes |].
  split; [apply parseTLV_payload; assumption | apply payload_length].
Qed.

(** The example of the specification, on the date as the form stores it. *)
Lemma payload_roundtrip_witness :
  invoiceDateTime test_invoice world0
  = (Normal (lit "2024-01-15T00:00:00.000Z"), world0)
  /\ utf8_length (sellerName test_invoice) <= 255
  /\ utf8_length (vatRegistrationNumber test_invoice) <= 255
  /\ utf8_length (lit "2024-01-15T00:00:00.000Z") <= 255
  /\ utf8_length (totalVatAmount test_invoice) <= 255
  /\ utf8_length (totalInvoiceAmount test_invoice) <= 255
  /\ exists s bytes,
       generateZatcaQrCode test_invoice world0 = (Normal s, world0)
       /\ base64_decode s = Some bytes
       /\ parseTLV bytes
          = Some [mkTLV 1 7 (lit "Test Co"); mkTLV 2 15 (lit "123456789012345");
                  mkTLV 3 24 (lit "2024-01-15T00:00:00.000Z");
                  mkTLV 4 5 (lit "15.00"); mkTLV 5 6 (lit "115.00")]
       /\ Z.of_nat (length bytes) = 67.
Proof.
  split; [vm_compute; reflexivity |].
  do 5 (split; [apply Z.leb_le; vm_compute; reflexivity |]).
  apply (payload_roundtrip test_invoice world0
           (lit "2024-01-15T00:00:00.000Z") world0);
    try (vm_compute; reflexivity); apply Z.leb_le; vm_compute; reflexivity.
Defined.

(* ------------------------------------------------------------------ *)
(** ** The records a reader finds *)

Ltac read_records :=
  unfold payload_bytes, tlv_of; cbn [nth_record];
  repeat (rewrite parse_record_tlv by (unfold is_byte; lia));
  try reflexivity.

Lemma nth_record_1 v1 v2 v3 v4 v5 :
  utf8_length v1 <= 255 ->
  nth_record 1 (payload_bytes v1 v2 v3 v4 v5) = Some (tlv_of 1 v1).
Proof. intros. read_records. Qed.

Lemma nth_record_2 v1 v2 v3 v4 v5 :
  utf8_length v1 <= 255 -> utf8_length v2 <= 255 ->
  nth_record 2 (payload_bytes v1 v2 v3 v4 v5) = Some (tlv_of 2 v2).
Proof. intros. read_records. Qed.

Lemma nth_record_3 v1 v2 v3 v4 v5 :
  utf8_length v1 <= 255 -> utf8_length v2 <= 255 -> utf8_length v3 <= 255 ->
  nth_record 3 (payload_bytes v1 v2 v3 v4 v5) = Some (tlv_of 3 v3).
Proof. intros. read_records. Qed.

Lemma nth_record_4 v1 v2 v3 v4 v5 :
  utf8_length v1 <= 255 -> utf8_length v2 <= 255 -> utf8_length v3 <= 255 ->
  utf8_length v4 <= 255 ->
  nth_record 4 (payload_bytes v1 v2 v3 v4 v5) = Some (tlv_of 4 v4).
Proof. intros. read_records. Qed.

Lemma nth_record_5 v1 v2 v3 v4 v5 :
  utf8_length v1 <= 255 -> utf8_length v2 <= 255 -> utf8_length v3 <= 255 ->
  utf8_length v4 <= 255 -> utf8_length v5 <= 255 ->
  nth_record 5 (payload_bytes v1 v2 v3 v4 v5) = Some (tlv_of 5 v5).
Proof.
  intros. unfold payload_bytes. rewrite <- (app_nil_r (tlv_bytes 5 v5)).
  unfold tlv_of. cbn [nth_record].
  repeat (rewrite parse_record_tlv by (unfold is_byte; lia)). reflexivity.
Qed.

Lemma tlv_of_ascii tag s :
  is_ascii s -> tlv_of tag s = mkTLV tag (Z.of_nat (length s)) s.
Proof.
  intros H. unfold tlv_of, utf8_length.
  rewrite (TextEncoder_encode_ascii s H). reflexivity.
Qed.

(* ------------------------------------------------------------------ *)
(** ** Placeholders *)

Lemma seller_placeholder_record :
  tlv_bytes 1 (lit "Unknown Seller") = 1 :: 14 :: lit "Unknown Seller".
Proof. reflexivity. Qed.

Lemma vat_placeholder_record :
  tlv_bytes 2 (lit "000000000000000") = 2 :: 15 :: lit "000000000000000".
Proof. reflexivity. Qed.

(** When the seller name resolves to the placeholder, the buffer opens with
    the record 1, 14, "Unknown Seller", and a reader finds it first. *)
Lemma seller_placeholder_payload invoice w :
  sellerName invoice = lit "Unknown Seller" ->
  exists s rest,
    generateZatcaQrCode invoice w = (Normal s, w)
    /\ base64_decode s = Some (1 :: 14 :: lit "Unknown Seller" ++ rest)
    /\ nth_record 1 (1 :: 14 :: lit "Unknown Seller" ++ rest)
       = Some (mkTLV 1 14 (lit "Unknown Seller")).
Proof.
  intros Hn. destruct (generate_decode invoice w) as (s & Hrun & Hdec).
  rewrite Hn in Hdec. exists s. eexists. split; [exact Hrun |].
  unfold payload_bytes in Hdec. rewrite seller_placeholder_record in Hdec.
  split; [exact Hdec |].
  apply (nth_record_1 (lit "Unknown Seller")
           (vatRegistrationNumber invoice)
           (resolved_dateTime (clock w) (localTZA w) (date invoice))
           (totalVatAmount invoice) (totalInvoiceAmount invoice)).
  apply Z.leb_le. reflexivity.
Qed.

(** When the tax number resolves to the placeholder, the record of the
    seller name is followed by 2, 15 and fifteen zeros; a reader finds that
    second whenever the seller name fits its length byte. *)
Lemma vat_placeholder_payload invoice w :
  vatRegistrationNumber invoice = lit "000000000000000" ->
  exists s r1 rest,
    generateZatcaQrCode invoice w = (Normal s, w)
    /\ encodeTLV 1 (sellerName invoice) w = (Normal r1, w)
    /\ base64_decode s = Some (r1 ++ 2 :: 15 :: lit "000000000000000" ++ rest)
    /\ (utf8_length (sellerName invoice) <= 255 ->
        nth_record 2 (r1 ++ 2 :: 15 :: lit "000000000000000" ++ rest)
        = Some (mkTLV 2 15 (lit "000000000000000"))).
Proof.
  intros Hv. destruct (generate_decode invoice w) as (s & Hrun & Hdec).
  rewrite Hv in Hdec. exists s, (tlv_bytes 1 (sellerName invoice)). eexists.
  split; [exact Hrun |]. split; [apply encodeTLV_run |].
  unfold payload_bytes in Hdec. rewrite vat_placeholder_record in Hdec.
  split; [exact Hdec |].
  intros Hfit.
  apply (nth_record_2 (sellerName invoice) (lit "000000000000000")
           (resolved_dateTime (clock w) (localTZA w) (date invoice))
           (totalVatAmount invoice) (totalInvoiceAmount invoice));
    [exact Hfit | apply Z.leb_le; reflexivity].
Qed.

(** C5. With the seller name absent, record 1 of the decoded payload is the
    placeholder "Unknown Seller"; with the seller tax number absent, record
    2 is fifteen zeros; in both cases the call returns normally. *)
Theorem placeholders_when_absent invoice w :
  (company_name (company invoice) = None ->
   exists s rest,
     generateZatcaQrCode invoice w = (Normal s, w)
     /\ base64_decode s = Some (1 :: 14 :: lit "Unknown Seller" ++ rest)
     /\ nth_record 1 (1 :: 14 :: lit "Unknown Seller" ++ rest)
        = Some (mkTLV 1 14 (lit "Unknown Seller")))
  /\ (company_taxNumber (company invoice) = None ->
      exists s r1 rest,
        generateZatcaQrCode invoice w = (Normal s, w)
        /\ encodeTLV 1 (sellerName invoice) w = (Normal r1, w)
        /\ base64_decode s
           = Some (r1 ++ 2 :: 15 :: lit "000000000000000" ++ rest)
        /\ (utf8_length (sellerName invoice) <= 255 ->
            nth_record 2 (r1 ++ 2 :: 15 :: lit "000000000000000" ++ rest)
            = Some (mkTLV 2 15 (lit "000000000000000")))).
Proof.
  split; intros H.
  - apply seller_placeholder_payload. unfold sellerName. rewrite H. reflexivity.
  - apply vat_placeholder_payload. unfold vatRegistrationNumber. rewrite H.
    reflexivity.
Qed.

(** An invoice with nothing filled in: both placeholders, read back. *)
Lemma placeholders_when_absent_witness :
  company_name (company bare_invoice) = None
  /\ company_taxNumber (company bare_invoice) = None
  /\ (exists s rest,
        generateZatcaQrCode bare_invoice world0 = (Normal s, world0)
        /\ base64_decode s = Some (1 :: 14 :: lit "Unknown Seller" ++ rest)
        /\ nth_record 1 (1 :: 14 :: lit "Unknown Seller" ++ rest)
           = Some (mkTLV 1 14 (lit "Unknown Seller")))
  /\ (exists s r1 rest,
        generateZatcaQrCode bare_invoice world0 = (Normal s, world0)
        /\ encodeTLV 1 (sellerName bare_invoice) world0 = (Normal r1, world0)
        /\ base64_decode s
           = Some (r1 ++ 2 :: 15 :: lit "000000000000000" ++ rest)
        /\ nth_record 2 (r1 ++ 2 :: 15 :: lit "000000000000000" ++ rest)
           = Some (mkTLV 2 15 (lit "000000000000000"))).
Proof.
  split; [reflexivity |]. split; [reflexivity |].
  destruct (placeholders_when_absent bare_invoice world0) as [H1 H2].
  split; [apply H1; reflexivity |].
  destruct (H2 eq_refl) as (s & r1 & rest & Ha & Hb & Hc & Hd).
  exists s, r1, rest. repeat split; try assumption.
  apply Hd. apply Z.leb_le. reflexivity.
Defined.

(** C8. An empty seller name or an empty tax number is replaced like an
    absent one: record 1 is "Unknown Seller", record 2 is fifteen zeros. *)
Theorem placeholders_when_empty invoice w :
  (company_name (company invoice) = Some [] ->
   exists s rest,
     generateZatcaQrCode invoice w = (Normal s, w)
     /\ base64_decode s = Some (1 :: 14 :: lit "Unknown Seller" ++ rest)
     /\ nth_record 1 (1 :: 14 :: lit "Unknown Seller" ++ rest)
        = Some (mkTLV 1 14 (lit "Unknown Seller")))
  /\ (company_taxNumber (company invoice) = Some [] ->
      exists s r1 rest,
        generateZatcaQrCode invoice w = (Normal s, w)
        /\ encodeTLV 1 (sellerName invoice) w = (Normal r1, w)
        /\ base64_decode s
           = Some (r1 ++ 2 :: 15 :: lit "000000000000000" ++ rest)
        /\ (utf8_length (sellerName invoice) <= 255 ->
            nth_record 2 (r1 ++ 2 :: 15 :: lit "000000000000000" ++ rest)
            = Some (mkTLV 2 15 (lit "000000000000000")))).
Proof.
  split; intros H.
  - apply seller_placeholder_payload. unfold sellerName. rewrite H. reflexivity.
  - apply vat_placeholder_payload. unfold vatRegistrationNumber. rewrite H.
    reflexivity.
Qed.

Lemma placeholders_when_empty_witness :
  company_name (company blank_invoice) = Some []
  /\ company_taxNumber (company blank_invoice) = Some []
  /\ (exists s rest,
        generateZatcaQrCode blank_invoice world0 = (Normal s, world0)
        /\ base64_decode s = Some (1 :: 14 :: lit "Unknown Seller" ++ rest)
        /\ nth_record 1 (1 :: 14 :: lit "Unknown Seller" ++ rest)
           = Some (mkTLV 1 14 (lit "Unknown Seller")))
  /\ (exists s r1 rest,
        generateZatcaQrCode blank_invoice world0 = (Normal s, world0)
        /\ encodeTLV 1 (sellerName blank_invoice) world0 = (Normal r1, world0)
        /\ base64_decode s
           = Some (r1 ++ 2 :: 15 :: lit "000000000000000" ++ rest)
        /\ nth_record 2 (r1 ++ 2 :: 15 :: lit "000000000000000" ++ rest)
           = Some (mkTLV 2 15 (lit "000000000000000"))).
Proof.
  split; [reflexivity |]. split; [reflexivity |].
  destruct (placeholders_when_empty blank_invoice world0) as [H1 H2].
  split; [apply H1; reflexivity |].
  destruct (H2 eq_refl) as (s & r1 & rest & Ha & Hb & Hc & Hd).
  exists s, r1, rest. repeat split; try assumption.
  apply Hd. apply Z.leb_le. reflexivity.
Defined.

(* ------------------------------------------------------------------ *)
(** ** The date record *)

Lemma calendar_date_cons d :
  is_calendar_date d = true -> exists c r, d = c :: r.
Proof. destruct d as [| c r]; [discriminate | eauto]. Qed.

Lemma calendar_date_ascii d :
  is_calendar_date d = true ->
  is_ascii (concat_str d midnight_suffix)
  /\ length (concat_str d midnight_suffix) = 24%nat.
Proof.
  unfold is_calendar_date.
  destruct d as [| y3 [| y2 [| y1 [| y0 [| h1 [| m1 [| m0 [| h2 [| d1 [| d0
                   [| ? ?]]]]]]]]]]]; try discriminate.
  cbn [forallb]. intros H. split_conds. subst h1 h2.
  repeat match goal with
         | H : is_digit _ = true |- _ => apply is_digit_range in H
         end.
  split; [| reflexivity].
  unfold is_ascii, concat_str. cbn [app].
  repeat (apply Forall_cons; [lia |]).
  apply Forall_forall. intros c Hc. cbn in Hc.
  repeat (destruct Hc as [<- | Hc]; [lia |]). contradiction.
Qed.

Lemma calendar_date_record d :
  is_calendar_date d = true ->
  tlv_bytes 3 (concat_str d midnight_suffix)
  = 3 :: 24 :: concat_str d midnight_suffix.
Proof.
  intros H. destruct (calendar_date_ascii d H) as [Ha Hl].
  unfold tlv_bytes, utf8_length. rewrite (TextEncoder_encode_ascii _ Ha), Hl.
  reflexivity.
Qed.

Lemma calendar_date_shape d :
  is_calendar_date d = true ->
  is_iso_instant (concat_str d midnight_suffix) = true.
Proof.
  unfold is_calendar_date.
  destruct d as [| y3 [| y2 [| y1 [| y0 [| h1 [| m1 [| m0 [| h2 [| d1 [| d0
                   [| ? ?]]]]]]]]]]]; try discriminate.
  cbn [forallb]. intros H. split_conds. subst h1 h2.
  unfold concat_str, is_iso_instant.
  change midnight_suffix
    with [84; 48; 48; 58; 48; 48; 58; 48; 48; 46; 48; 48; 48; 90].
  cbn [app forallb].
  repeat match goal with
         | H : is_digit _ = true |- _ => rewrite H; clear H
         end.
  reflexivity.
Qed.

(** The date step on a calendar date: the date at midnight UTC, rendered. *)
Lemma resolved_calendar_date now tza d :
  is_calendar_date d = true ->
  exists t,
    Date_parse tza (concat_str d midnight_suffix) = Some t
    /\ TimeWithinDay t = 0
    /\ Z.abs t <= maxTime
    /\ iso_string t = concat_str d midnight_suffix
    /\ resolved_dateTime now tza (Some d) = iso_string t.
Proof.
  intros H. destruct (calendar_date_parse d tza H) as (t & Hp & Hi & Hm & Hb).
  exists t. repeat split; try assumption.
  destruct (calendar_date_cons d H) as (c & r & ->).
  unfold resolved_dateTime. fold midnight_suffix. rewrite Hp. reflexivity.
Qed.

(** C9. When the date field is a calendar date YYYY-MM-DD, record 3 of the
    decoded payload is that string followed by "T00:00:00.000Z", whatever
    the clock reads. *)
Theorem calendar_date_at_midnight invoice w d :
  date invoice = Some d -> is_calendar_date d = true ->
  exists s r1 r2 rest,
    generateZatcaQrCode invoice w = (Normal s, w)
    /\ encodeTLV 1 (sellerName invoice) w = (Normal r1, w)
    /\ encodeTLV 2 (vatRegistrationNumber invoice) w = (Normal r2, w)
    /\ base64_decode s
       = Some (r1 ++ r2
               ++ 3 :: 24 :: concat_str d (lit "T00:00:00.000Z") ++ rest)
    /\ (utf8_length (sellerName invoice) <= 255 ->
        utf8_length (vatRegistrationNumber invoice) <= 255 ->
        nth_record 3
          (r1 ++ r2 ++ 3 :: 24 :: concat_str d (lit "T00:00:00.000Z") ++ rest)
        = Some (mkTLV 3 24 (concat_str d (lit "T00:00:00.000Z")))).
Proof.
  intros Hd Hc. fold midnight_suffix.
  destruct (generate_decode invoice w) as (s & Hrun & Hdec).
  destruct (resolved_calendar_date (clock w) (localTZA w) d Hc)
    as (t & _ & _ & _ & Hi & Hr).
  rewrite Hd, Hr, Hi in Hdec.
  exists s, (tlv_bytes 1 (sellerName invoice)),
    (tlv_bytes 2 (vatRegistrationNumber invoice)). eexists.
  split; [exact Hrun |]. split; [apply encodeTLV_run |].
  split; [apply encodeTLV_run |].
  unfold payload_bytes in Hdec. rewrite (calendar_date_record d Hc) in Hdec.
  split; [exact Hdec |].
  intros H1 H2.
  destruct (calendar_date_ascii d Hc) as [Ha Hl].
  pose proof (nth_record_3 (sellerName invoice) (vatRegistrationNumber invoice)
                (concat_str d midnight_suffix) (totalVatAmount invoice)
                (totalInvoiceAmount invoice) H1 H2) as Hn.
  rewrite (tlv_of_ascii 3 _ Ha), Hl in Hn. unfold payload_bytes in Hn.
  rewrite (calendar_date_record d Hc) in Hn. apply Hn.
  unfold utf8_length. rewrite (TextEncoder_encode_ascii _ Ha), Hl. lia.
Qed.

Lemma calendar_date_at_midnight_witness :
  date test_invoice = Some (lit "2024-01-15")
  /\ is_calendar_date (lit "2024-01-15") = true
  /\ exists s r1 r2 rest,
       generateZatcaQrCode test_invoice world0 = (Normal s, world0)
       /\ encodeTLV 1 (sellerName test_invoice) world0 = (Normal r1, world0)
       /\ encodeTLV 2 (vatRegistrationNumber test_invoice) world0
          = (Normal r2, world0)
       /\ base64_decode s
          = Some (r1 ++ r2 ++ 3 :: 24 :: lit "2024-01-15T00:00:00.000Z" ++ rest)
       /\ nth_record 3
            (r1 ++ r2 ++ 3 :: 24 :: lit "2024-01-15T00:00:00.000Z" ++ rest)
          = Some (mkTLV 3 24 (lit "2024-01-15T00:00:00.000Z")).
Proof.
  split; [reflexivity |]. split; [reflexivity |].
  destruct (calendar_date_at_midnight test_invoice world0 (lit "2024-01-15")
              eq_refl eq_refl) as (s & r1 & r2 & rest & Ha & Hb & Hc & Hd & He).
  exists s, r1, r2, rest. repeat split; try assumption.
  apply He; apply Z.leb_le; reflexivity.
Defined.

(** A date field that carries a time of day, "2024-01-15T10:30:00Z", does
    not parse once the midnight suffix is appended: record 3 is the clock's
    instant, here 2026-11-01T12:00:00.123Z, not the time in the field. *)
Lemma timestamp_not_rendered :
  exists s bytes,
    generateZatcaQrCode timestamp_invoice world0 = (Normal s, world0)
    /\ base64_decode s = Some bytes
    /\ nth_record 3 bytes = Some (mkTLV 3 24 (lit "2026-11-01T12:00:00.123Z"))
    /\ nth_record 3 bytes <> Some (mkTLV 3 24 (lit "2024-01-15T10:30:00.000Z")).
Proof.
  destruct (generate_decode timestamp_invoice world0) as (s & Hrun & Hdec).
  exists s. eexists. split; [exact Hrun |]. split; [exact Hdec |].
  assert (Hrec : nth_record 3
                   (payload_bytes (sellerName timestamp_invoice)
                      (vatRegistrationNumber timestamp_invoice)
                      (resolved_dateTime (clock world0) (localTZA world0)
                         (date timestamp_invoice))
                      (totalVatAmount timestamp_invoice)
                      (totalInvoiceAmount timestamp_invoice))
                 = Some (mkTLV 3 24 (lit "2026-11-01T12:00:00.123Z")))
    by (vm_compute; reflexivity).
  split; [exact Hrec |]. rewrite Hrec. discriminate.
Qed.

(** C3, amended. When the date field is a calendar date YYYY-MM-DD, record 3
    of the decoded payload is the instant that date parses to, midnight UTC
    of that day, as [toISOString] renders it: twenty-four characters
    YYYY-MM-DDTHH:mm:ss.sssZ ending in the UTC designator; for the date
    2024-01-15 it is "2024-01-15T00:00:00.000Z". *)
Theorem date_rendered_as_utc_instant invoice w d :
  date invoice = Some d -> is_calendar_date d = true ->
  exists s r1 r2 rest t,
    generateZatcaQrCode invoice w = (Normal s, w)
    /\ encodeTLV 1 (sellerName invoice) w = (Normal r1, w)
    /\ encodeTLV 2 (vatRegistrationNumber invoice) w = (Normal r2, w)
    /\ Date_parse (localTZA w) (concat_str d (lit "T00:00:00.000Z")) = Some t
    /\ TimeWithinDay t = 0
    /\ toISOString (Some t) w = (Normal (iso_string t), w)
    /\ is_iso_instant (iso_string t) = true
    /\ base64_decode s = Some (r1 ++ r2 ++ 3 :: 24 :: iso_string t ++ rest)
    /\ (d = lit "2024-01-15" -> iso_string t = lit "2024-01-15T00:00:00.000Z").
Proof.
  intros Hd Hc. fold midnight_suffix.
  destruct (generate_decode invoice w) as (s & Hrun & Hdec).
  destruct (resolved_calendar_date (clock w) (localTZA w) d Hc)
    as (t & Hp & Hm & Hb & Hi & Hr).
  rewrite Hd, Hr in Hdec.
  exists s, (tlv_bytes 1 (sellerName invoice)),
    (tlv_bytes 2 (vatRegistrationNumber invoice)). eexists. exists t.
  split; [exact Hrun |]. split; [apply encodeTLV_run |].
  split; [apply encodeTLV_run |]. split; [exact Hp |]. split; [exact Hm |].
  split; [apply toISOString_run; exact Hb |].
  split; [rewrite Hi; apply calendar_date_shape; exact Hc |].
  split.
  - unfold payload_bytes in Hdec. rewrite Hi in Hdec |- *.
    rewrite (calendar_date_record d Hc) in Hdec. exact Hdec.
  - intros ->. rewrite Hi. reflexivity.
Qed.

Lemma date_rendered_as_utc_instant_witness :
  date test_invoice = Some (lit "2024-01-15")
  /\ is_calendar_date (lit "2024-01-15") = true
  /\ exists s r1 r2 rest t,
       generateZatcaQrCode test_invoice world0 = (Normal s, world0)
       /\ encodeTLV 1 (sellerName test_invoice) world0 = (Normal r1, world0)
       /\ encodeTLV 2 (vatRegistrationNumber test_invoice) world0
          = (Normal r2, world0)
       /\ Date_parse (localTZA world0)
            (concat_str (lit "2024-01-15") (lit "T00:00:00.000Z")) = Some t
       /\ TimeWithinDay t = 0
       /\ is_iso_instant (iso_string t) = true
       /\ base64_decode s = Some (r1 ++ r2 ++ 3 :: 24 :: iso_string t ++ rest)
       /\ iso_string t = lit "2024-01-15T00:00:00.000Z".
Proof.
  split; [reflexivity |]. split; [reflexivity |].
  destruct (date_rendered_as_utc_instant test_invoice world0 (lit "2024-01-15")
              eq_refl eq_refl)
    as (s & r1 & r2 & rest & t & Ha & Hb & Hc & Hd & He & _ & Hf & Hg & Hh).
  exists s, r1, r2, rest, t. repeat split; try assumption.
  apply Hh. reflexivity.
Defined.

(* ------------------------------------------------------------------ *)
(** ** The amount records *)

Lemma uint_codes_digits u : all_digits (uint_codes u).
Proof. induction u; cbn [uint_codes]; constructor; trivial. Qed.

Lemma uint_codes_nonempty u : u <> Decimal.Nil -> uint_codes u <> [].
Proof. destruct u; cbn [uint_codes]; congruence. Qed.

Lemma decimal_digits_digits n : all_digits (decimal_digits n).
Proof. apply uint_codes_digits. Qed.

Lemma decimal_digits_nonempty n : decimal_digits n <> [].
Proof.
  unfold decimal_digits. apply uint_codes_nonempty.
  destruct (Z.to_N n) as [| p]; cbn [N.to_uint].
  - discriminate.
  - apply Unsigned.to_uint_nonnil.
Qed.

Lemma all_digits_forallb s : all_digits s -> forallb is_digit s = true.
Proof.
  induction 1 as [| c r Hc _ IH]; cbn [forallb]; [reflexivity |].
  now rewrite Hc, IH.
Qed.

(** The fixed notation: one digit or more, a point, two digits. *)
Lemma fixed2_shape m e :
  exists a b1 b0,
    fixed2 m e = a ++ [46; b1; b0]
    /\ a <> [] /\ all_digits a /\ is_digit b1 = true /\ is_digit b0 = true.
Proof.
  unfold fixed2. cbv zeta.
  set (ms0 := decimal_digits (nearest_hundredths m e)).
  set (ms := if (length ms0 <=? 2)%nat
             then repeat 48 (3 - length ms0) ++ ms0 else ms0).
  assert (Hd : all_digits ms).
  { unfold ms. destruct (length ms0 <=? 2)%nat; [| apply decimal_digits_digits].
    apply Forall_app. split; [| apply decimal_digits_digits].
    apply Forall_forall. intros c Hc. apply repeat_spec in Hc. subst c.
    reflexivity. }
  assert (Hl : (3 <= length ms)%nat).
  { unfold ms. destruct (Nat.leb_spec (length ms0) 2).
    - rewrite length_app, repeat_length.
      pose proof (decimal_digits_nonempty (nearest_hundredths m e)) as Hne.
      fold ms0 in Hne. destruct ms0; [congruence | cbn [length] in *; lia].
    - lia. }
  clearbody ms. clear ms0.
  pose proof (firstn_skipn (length ms - 2) ms) as Hsplit.
  assert (Hf : length (firstn (length ms - 2) ms) = (length ms - 2)%nat)
    by (apply firstn_length_le; lia).
  assert (Hs : length (skipn (length ms - 2) ms) = 2%nat)
    by (rewrite length_skipn; lia).
  rewrite <- Hsplit in Hd. apply Forall_app in Hd. destruct Hd as [Hda Hdb].
  destruct (skipn (length ms - 2) ms) as [| b1 [| b0 [| ? ?]]];
    try discriminate.
  exists (firstn (length ms - 2) ms), b1, b0.
  inversion Hdb as [| ? ? Hb1 Hdb']; subst.
  inversion Hdb' as [| ? ? Hb0 _]; subst.
  repeat split; trivial.
  intros Hnil. rewrite Hnil in Hf. cbn [length] in Hf. lia.
Qed.

Lemma is_fixed2_body a b1 b0 :
  a <> [] -> all_digits a -> is_digit b1 = true -> is_digit b0 = true ->
  match rev (a ++ [46; b1; b0]) with
  | f0 :: f1 :: p :: i0 :: ir =>
      is_digit f0 && is_digit f1 && (p =? 46) && forallb is_digit (i0 :: ir)
  | _ => false
  end = true.
Proof.
  intros Ha Hd Hb1 Hb0. rewrite rev_app_distr. cbn [rev app].
  destruct (rev a) as [| i0 ir] eqn:Hr.
  - apply (f_equal (@rev Z)) in Hr. rewrite rev_involutive in Hr.
    cbn in Hr. congruence.
  - rewrite Hb0, Hb1, Z.eqb_refl. cbn [andb].
    rewrite <- Hr. apply all_digits_forallb. apply Forall_rev. exact Hd.
Qed.

Lemma is_fixed2_shape (neg : bool) a b1 b0 :
  a <> [] -> all_digits a -> is_digit b1 = true -> is_digit b0 = true ->
  is_fixed2 ((if neg then lit "-" else []) ++ a ++ [46; b1; b0]) = true.
Proof.
  intros Ha Hd Hb1 Hb0. unfold is_fixed2. destruct neg.
  - change (lit "-" ++ a ++ [46; b1; b0]) with (45 :: a ++ [46; b1; b0]).
    cbv beta iota zeta. rewrite Z.eqb_refl. apply is_fixed2_body; assumption.
  - cbn [app]. destruct a as [| c r]; [congruence |]. cbn [app].
    inversion Hd as [| ? ? Hc _]; subst. apply is_digit_range in Hc.
    cbv beta iota zeta. destruct (Z.eqb_spec c 45); [lia |].
    apply (is_fixed2_body (c :: r)); assumption.
Qed.

(** In the range of the fixed notation, [toFixed(2)] writes two fraction
    digits. *)
Lemma toFixed2_fixed v :
  fixed_range v = true -> is_fixed2 (toFixed2 (or_zero v)) = true.
Proof.
  unfold fixed_range. destruct (or_zero v) as [s | s | | s m e];
    try discriminate.
  - intros _. reflexivity.
  - intros H. apply negb_true_iff in H. cbn [toFixed2]. rewrite H.
    destruct (fixed2_shape m e) as (a & b1 & b0 & -> & Ha & Hd & Hb1 & Hb0).
    apply is_fixed2_shape; assumption.
Qed.

(** The Number values of the literals 0.1, 1234.5 and 1000000.456, and of
    10^21, which is exact. *)
Lemma decimal_literals :
  number_of_decimal 1 1 = S754_finite false 7205759403792794 (-56)
  /\ number_of_decimal 12345 1 = S754_finite false 5429388417957888 (-42)
  /\ number_of_decimal 1000000456 3 = S754_finite false 8589938509010174 (-33)
  /\ number_of_Z (10 ^ 21) = S754_finite false 7629394531250000 17
  /\ 7629394531250000 * 2 ^ 17 = 10 ^ 21.
Proof. repeat split; vm_compute; reflexivity. Qed.

(** A total of 10^21 is written "1e+21": record 5 has no decimal point and
    no fraction digits. *)
Lemma huge_total_not_fixed :
  exists s bytes,
    generateZatcaQrCode huge_invoice world0 = (Normal s, world0)
    /\ base64_decode s = Some bytes
    /\ nth_record 5 bytes = Some (mkTLV 5 5 (lit "1e+21"))
    /\ is_fixed2 (lit "1e+21") = false.
Proof.
  destruct (generate_decode huge_invoice world0) as (s & Hrun & Hdec).
  exists s. eexists. split; [exact Hrun |]. split; [exact Hdec |].
  split; vm_compute; reflexivity.
Qed.

(** C4, amended. When each amount is absent, zero, or finite and below 10^21
    in magnitude, records 4 and 5 of the decoded payload are taxAmount and
    total as decimal strings with exactly two digits after the point and no
    grouping separators; an absent amount is "0.00"; the amounts 0, 0.1,
    1234.5 and 1000000.456 are "0.00", "0.10", "1234.50" and "1000000.46". *)
Theorem amounts_two_fraction_digits invoice w :
  fixed_range (taxAmount invoice) = true ->
  fixed_range (total invoice) = true ->
  exists s r1 r2 r3 v4 v5,
    generateZatcaQrCode invoice w = (Normal s, w)
    /\ encodeTLV 1 (sellerName invoice) w = (Normal r1, w)
    /\ encodeTLV 2 (vatRegistrationNumber invoice) w = (Normal r2, w)
    /\ (exists dt, invoiceDateTime invoice w = (Normal dt, w)
                   /\ encodeTLV 3 dt w = (Normal r3, w))
    /\ v4 = toFixed2 (or_zero (taxAmount invoice))
    /\ v5 = toFixed2 (or_zero (total invoice))
    /\ base64_decode s
       = Some (r1 ++ r2 ++ r3 ++ tlv_bytes 4 v4 ++ tlv_bytes 5 v5)
    /\ is_fixed2 v4 = true /\ is_fixed2 v5 = true
    /\ (taxAmount invoice = None -> v4 = lit "0.00")
    /\ (total invoice = None -> v5 = lit "0.00")
    /\ toFixed2 (or_zero (Some (number_of_Z 0))) = lit "0.00"
    /\ toFixed2 (or_zero (Some (number_of_decimal 1 1))) = lit "0.10"
    /\ toFixed2 (or_zero (Some (number_of_decimal 12345 1))) = lit "1234.50"
    /\ toFixed2 (or_zero (Some (number_of_decimal 1000000456 3)))
       = lit "1000000.46".
Proof.
  intros H4 H5.
  destruct (generate_decode invoice w) as (s & Hrun & Hdec).
  exists s, (tlv_bytes 1 (sellerName invoice)),
    (tlv_bytes 2 (vatRegistrationNumber invoice)),
    (tlv_bytes 3 (resolved_dateTime (clock w) (localTZA w) (date invoice))),
    (toFixed2 (or_zero (taxAmount invoice))),
    (toFixed2 (or_zero (total invoice))).
  split; [exact Hrun |]. split; [apply encodeTLV_run |].
  split; [apply encodeTLV_run |].
  split; [eexists; split; [apply invoiceDateTime_run | apply encodeTLV_run] |].
  split; [reflexivity |]. split; [reflexivity |].
  split; [exact Hdec |].
  split; [apply toFixed2_fixed; exact H4 |].
  split; [apply toFixed2_fixed; exact H5 |].
  split; [intros ->; reflexivity |]. split; [intros ->; reflexivity |].
  repeat split; vm_compute; reflexivity.
Qed.

(** The example of the specification: 15.00 and 115.00. *)
Lemma amounts_two_fraction_digits_witness :
  fixed_range (taxAmount test_invoice) = true
  /\ fixed_range (total test_invoice) = true
  /\ exists s r1 r2 r3,
       generateZatcaQrCode test_invoice world0 = (Normal s, world0)
       /\ base64_decode s
          = Some (r1 ++ r2 ++ r3 ++ tlv_bytes 4 (lit "15.00")
                  ++ tlv_bytes 5 (lit "115.00"))
       /\ is_fixed2 (lit "15.00") = true /\ is_fixed2 (lit "115.00") = true.
Proof.
  split; [reflexivity |]. split; [reflexivity |].
  destruct (amounts_two_fraction_digits test_invoice world0 eq_refl eq_refl)
    as (s & r1 & r2 & r3 & v4 & v5 & Ha & _ & _ & _ & E4 & E5 & Hd & F4 & F5 & _).
  exists s, r1, r2, r3. subst v4 v5. repeat split; assumption.
Defined.

(* ================================================================== *)
(** * Further properties of the payload builder *)

(* ------------------------------------------------------------------ *)
(** ** Digits *)

Lemma is_digit_mod10 n : is_digit (48 + n mod 10) = true.
Proof.
  unfold is_digit. pose proof (Z.mod_pos_bound n 10 ltac:(lia)).
  apply andb_true_intro. split; apply Z.leb_le; lia.
Qed.

Lemma fixed_digits_digits w : forall n, all_digits (fixed_digits w n).
Proof.
  induction w as [| w IH]; intros n; cbn [fixed_digits]; [constructor |].
  apply Forall_app. split; [apply IH |].
  constructor; [apply is_digit_mod10 | constructor].
Qed.

Lemma fixed_digits_length w : forall n, length (fixed_digits w n) = w.
Proof.
  induction w as [| w IH]; intros n; cbn [fixed_digits]; [reflexivity |].
  rewrite length_app, IH. cbn [length]. lia.
Qed.

Lemma all_digits_ascii s : all_digits s -> is_ascii s.
Proof.
  unfold all_digits, is_ascii. apply Forall_impl. intros c Hc.
  apply is_digit_range in Hc. lia.
Qed.

Lemma of_uint_acc_codes d : forall acc,
  Z.pos (Pos.of_uint_acc d acc)
  = fold_left (fun a c => 10 * a + (c - 48)) (uint_codes d) (Z.pos acc).
Proof.
  induction d; intros acc; cbn [Pos.of_uint_acc uint_codes fold_left];
    try reflexivity; rewrite IHd; f_equal; lia.
Qed.

Lemma of_uint_codes d : Z.of_N (Pos.of_uint d) = digits_value (uint_codes d).
Proof.
  unfold digits_value.
  induction d; cbn [Pos.of_uint uint_codes fold_left]; try reflexivity;
    try exact IHd; cbn [Z.of_N]; rewrite of_uint_acc_codes; f_equal.
Qed.

(** The digits written for [n] denote [n]. *)
Lemma digits_value_decimal n : 0 <= n -> digits_value (decimal_digits n) = n.
Proof.
  intros Hn. unfold decimal_digits. rewrite <- of_uint_codes.
  change (Pos.of_uint (N.to_uint (Z.to_N n)))
    with (N.of_uint (N.to_uint (Z.to_N n))).
  rewrite DecimalN.Unsigned.of_to. lia.
Qed.

Lemma fold_digits_lower s : all_digits s -> forall acc, 0 <= acc ->
  acc * 10 ^ Z.of_nat (length s)
  <= fold_left (fun a c => 10 * a + (c - 48)) s acc.
Proof.
  induction 1 as [| c r Hc _ IH]; intros acc Ha; cbn [fold_left length].
  - cbn. lia.
  - apply is_digit_range in Hc. rewrite Nat2Z.inj_succ, Z.pow_succ_r by lia.
    specialize (IH (10 * acc + (c - 48)) ltac:(lia)).
    assert (0 <= 10 ^ Z.of_nat (length r)) by (apply Z.pow_nonneg; lia).
    nia.
Qed.

Lemma nzhead_head d :
  Decimal.nzhead d = Decimal.Nil
  \/ exists c r, uint_codes (Decimal.nzhead d) = c :: r /\ 49 <= c <= 57.
Proof.
  induction d; cbn [Decimal.nzhead uint_codes]; try (left; reflexivity);
    try exact IHd; right; eexists; eexists; (split; [reflexivity | lia]).
Qed.

(** No leading zero, except in "0". *)
Lemma decimal_digits_head n :
  decimal_digits n = [48]
  \/ exists c r, decimal_digits n = c :: r /\ 49 <= c <= 57.
Proof.
  unfold decimal_digits.
  assert (Hnorm : N.to_uint (Z.to_N n)
                  = Decimal.unorm (N.to_uint (Z.to_N n))).
  { rewrite <- (DecimalN.Unsigned.to_of (N.to_uint (Z.to_N n))).
    rewrite DecimalN.Unsigned.of_to. reflexivity. }
  rewrite Hnorm. unfold Decimal.unorm.
  destruct (nzhead_head (N.to_uint (Z.to_N n))) as [-> | (c & r & Hc & Hr)].
  - left. reflexivity.
  - right. exists c, r. split; [| exact Hr].
    destruct (Decimal.nzhead (N.to_uint (Z.to_N n))); try exact Hc.
    discriminate.
Qed.

(** A number below 10^k is written in at most k digits. *)
Lemma decimal_digits_length n k :
  0 <= n < 10 ^ Z.of_nat k -> (1 <= k)%nat ->
  (length (decimal_digits n) <= k)%nat.
Proof.
  intros Hn Hk.
  destruct (decimal_digits_head n) as [-> | (c & r & He & Hc)]; [cbn; lia |].
  pose proof (digits_value_decimal n ltac:(lia)) as Hv.
  pose proof (decimal_digits_digits n) as Hd.
  rewrite He in Hv, Hd |- *. pose proof (Forall_inv_tail Hd) as Hr.
  unfold digits_value in Hv. cbn [fold_left] in Hv.
  pose proof (fold_digits_lower r Hr (10 * 0 + (c - 48)) ltac:(lia)) as Hlow.
  rewrite Hv in Hlow. cbn [length].
  destruct (Nat.le_gt_cases (S (length r)) k) as [| Hgt]; [assumption |].
  exfalso.
  assert (10 ^ Z.of_nat k <= 10 ^ Z.of_nat (length r))
    by (apply Z.pow_le_mono_r; lia).
  nia.
Qed.

(* ------------------------------------------------------------------ *)
(** ** The date record, whatever the date field *)


Lemma iso_string_ascii t :
  is_ascii (iso_string t)
  /\ (24 <= length (iso_string t) <= 27)%nat
  /\ (0 <= YearFromTime t <= 9999 -> length (iso_string t) = 24%nat).
Proof.
  unfold iso_string, year_string.
  destruct (Z.leb_spec 0 (YearFromTime t)); cbn [andb];
    [destruct (Z.leb_spec (YearFromTime t) 9999) |];
    try destruct (YearFromTime t <? 0).
  all: split; [| rewrite !length_app, !fixed_digits_length; cbn; lia].
  all: unfold is_ascii; rewrite !Forall_app; repeat split;
    try (apply all_digits_ascii, fixed_digits_digits);
    repeat constructor; cbn; lia.
Qed.

Lemma utf8_length_ascii s : is_ascii s -> utf8_length s = Z.of_nat (length s).
Proof.
  intros H. unfold utf8_length. rewrite (TextEncoder_encode_ascii s H).
  reflexivity.
Qed.


Lemma resolved_dateTime_ascii now tza d :
  is_ascii (resolved_dateTime now tza d)
  /\ (24 <= length (resolved_dateTime now tza d) <= 27)%nat.
Proof.
  unfold resolved_dateTime.
  destruct d as [[| c r] |]; try (split; apply iso_string_ascii).
  destruct (Date_parse tza _); split; apply iso_string_ascii.
Qed.



(* ------------------------------------------------------------------ *)
(** ** The size of the amount records *)

Lemma nearest_hundredths_bound m e :
  ge_1e21 m e = false -> 0 <= nearest_hundredths m e < 10 ^ 24.
Proof.
  unfold ge_1e21, nearest_hundredths. destruct (Z.leb_spec 0 e) as [He | He].
  - intros H. apply Z.leb_gt in H.
    assert (0 < 2 ^ e) by (apply Z.pow_pos_nonneg; lia).
    change (10 ^ 21) with 1000000000000000000000 in H.
    change (10 ^ 24) with 1000000000000000000000000. nia.
  - intros H. apply Z.leb_gt in H.
    assert (Hp : 0 < 2 ^ (- e)) by (apply Z.pow_pos_nonneg; lia).
    replace (1 - e) with (Z.succ (- e)) by lia.
    rewrite Z.pow_succ_r by lia.
    change (10 ^ 21) with 1000000000000000000000 in H.
    change (10 ^ 24) with 1000000000000000000000000.
    split.
    + apply Z.div_pos; lia.
    + apply Z.div_lt_upper_bound; [lia |]. nia.
Qed.

Lemma fixed2_ascii m e :
  ge_1e21 m e = false ->
  is_ascii (fixed2 m e) /\ (length (fixed2 m e) <= 25)%nat.
Proof.
  intros H. destruct (fixed2_shape m e) as (a & b1 & b0 & He & _ & Ha & Hb1 & Hb0).
  split.
  - rewrite He. unfold is_ascii. apply Forall_app. split.
    + apply all_digits_ascii. exact Ha.
    + apply is_digit_range in Hb1, Hb0. repeat constructor; lia.
  - unfold fixed2. cbv zeta.
    pose proof (decimal_digits_length (nearest_hundredths m e) 24
                  (nearest_hundredths_bound m e H) ltac:(lia)) as Hl.
    set (ms0 := decimal_digits (nearest_hundredths m e)) in *.
    set (ms := if (length ms0 <=? 2)%nat
               then repeat 48 (3 - length ms0) ++ ms0 else ms0).
    assert (Hms : (length ms <= 24)%nat).
    { unfold ms. destruct (Nat.leb_spec (length ms0) 2).
      - rewrite length_app, repeat_length. lia.
      - lia. }
    rewrite !length_app, length_firstn, length_skipn. cbn [lit length]. lia.
Qed.

(** In the range of the fixed notation an amount is written in ASCII, in at
    most 26 characters. *)
Lemma toFixed2_ascii v :
  fixed_range v = true ->
  is_ascii (toFixed2 (or_zero v)) /\ (length (toFixed2 (or_zero v)) <= 26)%nat.
Proof.
  unfold fixed_range. destruct (or_zero v) as [s | s | | s m e];
    try discriminate.
  - intros _. cbn [toFixed2]. split; [| cbn; lia].
    unfold is_ascii. repeat constructor; cbn; lia.
  - intros H. apply negb_true_iff in H. cbn [toFixed2]. rewrite H.
    destruct (fixed2_ascii m e H) as [Ha Hl]. split.
    + unfold is_ascii. apply Forall_app. split; [| exact Ha].
      destruct s; repeat constructor; cbn; lia.
    + rewrite length_app. destruct s; cbn [lit length]; lia.
Qed.

(** The parse of the payload of an ordinary invoice. *)
Lemma roundtrip_for_ordinary_invoices_aux invoice w :
  utf8_length (sellerName invoice) <= 255 ->
  utf8_length (vatRegistrationNumber invoice) <= 255 ->
  fixed_range (taxAmount invoice) = true ->
  fixed_range (total invoice) = true ->
  exists s dt,
    generateZatcaQrCode invoice w = (Normal s, w)
    /\ invoiceDateTime invoice w = (Normal dt, w)
    /\ decode_records s
       = Some [mkTLV 1 (utf8_length (sellerName invoice))
                 (TextEncoder_encode (sellerName invoice));
               mkTLV 2 (utf8_length (vatRegistrationNumber invoice))
                 (TextEncoder_encode (vatRegistrationNumber invoice));
               mkTLV 3 (Z.of_nat (length dt)) dt;
               mkTLV 4 (Z.of_nat (length (totalVatAmount invoice)))
                 (totalVatAmount invoice);
               mkTLV 5 (Z.of_nat (length (totalInvoiceAmount invoice)))
                 (totalInvoiceAmount invoice)].
Proof.
  intros H1 H2 H4 H5.
  destruct (generate_decode invoice w) as (s & Hrun & Hdec).
  set (dt := resolved_dateTime (clock w) (localTZA w) (date invoice)) in *.
  destruct (resolved_dateTime_ascii (clock w) (localTZA w) (date invoice))
    as [Ha3 Hl3]. fold dt in Ha3, Hl3.
  destruct (toFixed2_ascii _ H4) as [Ha4 Hl4].
  destruct (toFixed2_ascii _ H5) as [Ha5 Hl5].
  fold (totalVatAmount invoice) in Ha4, Hl4.
  fold (totalInvoiceAmount invoice) in Ha5, Hl5.
  exists s, dt.
  split; [exact Hrun |]. split; [apply invoiceDateTime_run |].
  unfold decode_records. rewrite Hdec.
  rewrite parseTLV_payload;
    try assumption; try (rewrite utf8_length_ascii by assumption; lia).
  rewrite (utf8_length_ascii dt Ha3), (TextEncoder_encode_ascii dt Ha3).
  rewrite (utf8_length_ascii _ Ha4), (TextEncoder_encode_ascii _ Ha4).
  rewrite (utf8_length_ascii _ Ha5), (TextEncoder_encode_ascii _ Ha5).
  reflexivity.
Qed.

(** X2 (qrCodeUtils.ts, generateZatcaQrCode with encodeTLV). For an invoice
    whose seller name and tax number have at most 255 UTF-8 bytes each and
    whose amounts are in the range of the fixed notation, whatever the date
    field and the clock, the string returned decodes to exactly five
    records, tags 1 to 5, which hold the UTF-8 bytes of the seller name and
    the tax number and, as they stand, the date string and the two amount
    strings. *)
Theorem roundtrip_for_ordinary_invoices invoice w :
  utf8_length (sellerName invoice) <= 255 ->
  utf8_length (vatRegistrationNumber invoice) <= 255 ->
  fixed_range (taxAmount invoice) = true ->
  fixed_range (total invoice) = true ->
  exists s bytes dt,
    generateZatcaQrCode invoice w = (Normal s, w)
    /\ invoiceDateTime invoice w = (Normal dt, w)
    /\ base64_decode s = Some bytes
    /\ parseTLV bytes
       = Some [mkTLV 1 (utf8_length (sellerName invoice))
                 (TextEncoder_encode (sellerName invoice));
               mkTLV 2 (utf8_length (vatRegistrationNumber invoice))
                 (TextEncoder_encode (vatRegistrationNumber invoice));
               mkTLV 3 (Z.of_nat (length dt)) dt;
               mkTLV 4 (Z.of_nat (length (totalVatAmount invoice)))
                 (totalVatAmount invoice);
               mkTLV 5 (Z.of_nat (length (totalInvoiceAmount invoice)))
                 (totalInvoiceAmount invoice)].
Proof.
  intros H1 H2 H4 H5.
  destruct (roundtrip_for_ordinary_invoices_aux invoice w H1 H2 H4 H5)
    as (s & dt & Hrun & Hdt & Hp).
  unfold decode_records in Hp.
  destruct (base64_decode s) as [bytes |] eqn:Hb; [| discriminate].
  exists s, bytes, dt. repeat split; assumption.
Qed.

(** An invoice whose date does not parse and whose amounts are absent. *)
Lemma roundtrip_for_ordinary_invoices_witness :
  utf8_length (sellerName bare_invoice) <= 255
  /\ utf8_length (vatRegistrationNumber bare_invoice) <= 255
  /\ fixed_range (taxAmount bare_invoice) = true
  /\ fixed_range (total bare_invoice) = true
  /\ exists s bytes,
       generateZatcaQrCode bare_invoice world0 = (Normal s, world0)
       /\ base64_decode s = Some bytes
       /\ parseTLV bytes
          = Some [mkTLV 1 14 (lit "Unknown Seller");
                  mkTLV 2 15 (lit "000000000000000");
                  mkTLV 3 24 (lit "2026-11-01T12:00:00.123Z");
                  mkTLV 4 4 (lit "0.00"); mkTLV 5 4 (lit "0.00")].
Proof.
  split; [apply Z.leb_le; reflexivity |].
  split; [apply Z.leb_le; reflexivity |].
  split; [reflexivity |]. split; [reflexivity |].
  destruct (roundtrip_for_ordinary_invoices bare_invoice world0)
    as (s & bytes & dt & Ha & Hb & Hc & Hd);
    try reflexivity; try (apply Z.leb_le; reflexivity).
  exists s, bytes. split; [exact Ha |]. split; [exact Hc |].
  rewrite Hd. rewrite invoiceDateTime_run in Hb. injection Hb as <-.
  vm_compute. reflexivity.
Defined.

(* ------------------------------------------------------------------ *)
(** ** The text returned *)




(* ------------------------------------------------------------------ *)
(** ** Values that do not fit the length byte *)



(* ------------------------------------------------------------------ *)
(** ** What the text determines *)

Lemma base64_encode_inj a b :
  Forall is_byte a -> Forall is_byte b ->
  base64_encode a = base64_encode b -> a = b.
Proof.
  intros Ha Hb H. apply (f_equal base64_decode) in H.
  rewrite !base64_roundtrip in H by assumption. congruence.
Qed.

(** X5 (qrCodeUtils.ts, generateZatcaQrCode). The string returned
    determines the five values: when two invoices, each with a seller name
    and a tax number of at most 255 UTF-8 bytes and amounts in the range of
    the fixed notation, give the same string, they have the same UTF-8
    bytes of seller name and of tax number, the same date string and the
    same two amount strings. *)
Theorem equal_text_equal_fields i1 w1 i2 w2 s :
  utf8_length (sellerName i1) <= 255 ->
  utf8_length (vatRegistrationNumber i1) <= 255 ->
  fixed_range (taxAmount i1) = true -> fixed_range (total i1) = true ->
  utf8_length (sellerName i2) <= 255 ->
  utf8_length (vatRegistrationNumber i2) <= 255 ->
  fixed_range (taxAmount i2) = true -> fixed_range (total i2) = true ->
  generateZatcaQrCode i1 w1 = (Normal s, w1) ->
  generateZatcaQrCode i2 w2 = (Normal s, w2) ->
  TextEncoder_encode (sellerName i1) = TextEncoder_encode (sellerName i2)
  /\ TextEncoder_encode (vatRegistrationNumber i1)
     = TextEncoder_encode (vatRegistrationNumber i2)
  /\ (exists dt, invoiceDateTime i1 w1 = (Normal dt, w1)
                 /\ invoiceDateTime i2 w2 = (Normal dt, w2))
  /\ totalVatAmount i1 = totalVatAmount i2
  /\ totalInvoiceAmount i1 = totalInvoiceAmount i2.
Proof.
  intros A1 A2 A4 A5 B1 B2 B4 B5 R1 R2.
  destruct (roundtrip_for_ordinary_invoices_aux i1 w1 A1 A2 A4 A5)
    as (s1 & dt1 & Hr1 & Hd1 & Hp1).
  destruct (roundtrip_for_ordinary_invoices_aux i2 w2 B1 B2 B4 B5)
    as (s2 & dt2 & Hr2 & Hd2 & Hp2).
  rewrite R1 in Hr1. rewrite R2 in Hr2.
  injection Hr1 as <-. injection Hr2 as <-.
  rewrite Hp1 in Hp2. injection Hp2 as _ E1 _ E2 _ E3 _ E4 _ E5.
  repeat split; try assumption.
  exists dt1. split; [exact Hd1 | rewrite <- E3 in Hd2; exact Hd2].
Qed.

(** An invoice without company or amounts and one that spells the defaults
    out give the same text, at different times and in different zones. *)
Lemma equal_text_equal_fields_witness :
  let i1 := invoice_of (Some (lit "2024-01-15")) None None None in
  let i2 := invoice_of (Some (lit "2024-01-15"))
              (Some (company_of (Some (lit "Unknown Seller"))
                                (Some (lit "000000000000000"))))
              (Some (number_of_Z 0)) (Some (number_of_decimal 4 3)) in
  TextEncoder_encode (sellerName i1) = TextEncoder_encode (sellerName i2)
  /\ TextEncoder_encode (vatRegistrationNumber i1)
     = TextEncoder_encode (vatRegistrationNumber i2)
  /\ (exists dt, invoiceDateTime i1 world0 = (Normal dt, world0)
                 /\ invoiceDateTime i2 world1 = (Normal dt, world1))
  /\ totalVatAmount i1 = totalVatAmount i2
  /\ totalInvoiceAmount i1 = totalInvoiceAmount i2.
Proof.
  cbv zeta.
  eapply equal_text_equal_fields;
    try (vm_compute; first [reflexivity | discriminate]).
Defined.

(* ================================================================== *)
(** * Properties of the invoice form *)

(* ------------------------------------------------------------------ *)
(** ** Strings *)

Lemma trim_start_nil s :
  trim_start s = [] <-> forallb is_white_space s = true.
Proof.
  induction s as [| c r IH]; cbn [trim_start forallb]; [tauto |].
  destruct (is_white_space c); cbn [andb]; [exact IH |].
  split; discriminate.
Qed.

Lemma trim_start_white s :
  forallb is_white_space (trim_start s) = true -> trim_start s = [].
Proof.
  induction s as [| c r IH]; cbn [trim_start]; [reflexivity |].
  destruct (is_white_space c) eqn:Hc; [exact IH |].
  cbn [forallb]. rewrite Hc. discriminate.
Qed.

Lemma forallb_rev {A} (f : A -> bool) l : forallb f (rev l) = forallb f l.
Proof.
  induction l as [| a l IH]; [reflexivity |].
  cbn [rev forallb]. rewrite forallb_app, IH. cbn [forallb].
  rewrite andb_true_r. apply andb_comm.
Qed.

(** [trim] leaves nothing exactly when there is only white space. *)
Lemma String_trim_nil s :
  String_trim s = [] <-> forallb is_white_space s = true.
Proof.
  unfold String_trim, trim_end. split.
  - intros H. apply (f_equal (@rev Z)) in H. rewrite rev_involutive in H.
    cbn [rev] in H. apply trim_start_nil in H. rewrite forallb_rev in H.
    apply trim_start_white in H. apply trim_start_nil. exact H.
  - intros H. apply trim_start_nil in H. rewrite H. reflexivity.
Qed.

Lemma string_eqb_eq a : forall b, string_eqb a b = true <-> a = b.
Proof.
  induction a as [| x a IH]; intros [| y b]; cbn [string_eqb];
    try (split; [discriminate | discriminate]); [tauto |].
  rewrite andb_true_iff, Z.eqb_eq, IH. split.
  - intros [-> ->]. reflexivity.
  - intros [= -> ->]. tauto.
Qed.


Lemma blank_description_test s :
  string_eqb (String_trim s) [] = forallb is_white_space s.
Proof.
  destruct (forallb is_white_space s) eqn:H.
  - apply String_trim_nil in H. rewrite H. reflexivity.
  - destruct (string_eqb (String_trim s) []) eqn:E; [| reflexivity].
    apply string_eqb_eq, String_trim_nil in E. congruence.
Qed.

(* ------------------------------------------------------------------ *)
(** ** Adding and removing items *)

(** X6 (InvoiceForm.tsx, addItem, lines 66-96). [addItem] does nothing when
    the description typed is empty or white space only; otherwise it appends
    one item, with the description as typed (not trimmed), the quantity and
    price typed, tax rate 15 and total quantity times price, resets the item
    being entered, and leaves date, company, customer, number, paid and
    discount as they were. *)
Theorem addItem_blank_or_append rnd st :
  (forallb is_white_space (new_description (st_newItem st)) = true ->
   addItem rnd st = st)
  /\ (forallb is_white_space (new_description (st_newItem st)) = false ->
      let st' := addItem rnd st in
      items (st_invoice st')
      = items (st_invoice st)
        ++ [mkInvoiceItem rnd (new_description (st_newItem st))
              (new_quantity (st_newItem st)) (new_price (st_newItem st))
              (number_of_Z 15)
              (num_mul (new_quantity (st_newItem st))
                 (new_price (st_newItem st)))]
      /\ st_newItem st' = mkNewItem [] (number_of_Z 1) (number_of_Z 0) None
      /\ date (st_invoice st') = date (st_invoice st)
      /\ company (st_invoice st') = company (st_invoice st)
      /\ customer (st_invoice st') = customer (st_invoice st)
      /\ number_ (st_invoice st') = number_ (st_invoice st)
      /\ paid (st_invoice st') = paid (st_invoice st)
      /\ discount (st_invoice st') = discount (st_invoice st)).
Proof.
  unfold addItem. cbv zeta. rewrite blank_description_test.
  split; intros ->; [reflexivity |]. cbn. repeat split.
Qed.

Lemma addItem_blank_or_append_witness :
  (exists st,
     forallb is_white_space (new_description (st_newItem st)) = true
     /\ new_description (st_newItem st) = [32; 9; 160]
     /\ addItem (lit "k3x9q2m1a") st = st)
  /\ (exists st,
        forallb is_white_space (new_description (st_newItem st)) = false
        /\ length (items (st_invoice (addItem (lit "k3x9q2m1a") st))) = 1%nat).
Proof.
  split.
  - exists (mkFormState bare_invoice
              (mkNewItem [32; 9; 160] (number_of_Z 1) (number_of_Z 0) None)
              false).
    split; [reflexivity |]. split; [reflexivity |].
    apply (proj1 (addItem_blank_or_append _ _)). reflexivity.
  - exists (mkFormState bare_invoice
              (mkNewItem (lit " delivery ") (number_of_Z 2) (number_of_Z 50)
                 None) false).
    split; [reflexivity |].
    destruct (proj2 (addItem_blank_or_append (lit "k3x9q2m1a")
                       (mkFormState bare_invoice
                          (mkNewItem (lit " delivery ") (number_of_Z 2)
                             (number_of_Z 50) None) false)) eq_refl)
      as [Hi _].
    rewrite Hi. reflexivity.
Defined.




(* ------------------------------------------------------------------ *)
(** ** A session on the form *)

Lemma initialState_run rnd w :
  exists st0,
    initialState rnd w = (Normal st0, w)
    /\ date (st_invoice st0) = Some (split_first 84 (iso_string (clock w)))
    /\ company (st_invoice st0) = Some initial_company
    /\ items (st_invoice st0) = []
    /\ amounts_follow_items (st_invoice st0)
    /\ taxAmount (st_invoice st0) = Some (number_of_Z 0)
    /\ total (st_invoice st0) = Some (number_of_Z 0).
Proof.
  unfold initialState, bind, Date_now.
  rewrite toISOString_run by (apply Z.leb_le, clock_ok).
  eexists. split; [reflexivity |]. cbn.
  repeat split; vm_compute; reflexivity.
Qed.

Lemma step_amounts st a :
  amounts_follow_items (st_invoice st) ->
  amounts_follow_items (st_invoice (step st a)).
Proof.
  intros H. destruct a; cbn [step]; try exact H.
  - unfold addItem. cbv zeta.
    destruct (string_eqb _ []); [exact H |]. repeat split.
  - repeat split.
Qed.

Lemma step_company st a :
  company (st_invoice (step st a)) = company (st_invoice st).
Proof.
  destruct a; cbn [step]; try reflexivity.
  unfold addItem. cbv zeta. destruct (string_eqb _ []); reflexivity.
Qed.

Lemma run_actions_invariant l : forall st,
  amounts_follow_items (st_invoice st) ->
  amounts_follow_items (st_invoice (run_actions st l))
  /\ company (st_invoice (run_actions st l)) = company (st_invoice st).
Proof.
  unfold run_actions. induction l as [| a l IH]; intros st H; cbn [fold_left].
  - split; [exact H | reflexivity].
  - destruct (IH (step st a) (step_amounts st a H)) as [H1 H2].
    split; [exact H1 |]. rewrite H2. apply step_company.
Qed.

(** X8 (InvoiceForm.tsx, the state and its handlers, lines 34-160 and the
    onChange handlers of the inputs). In every state a session reaches from
    the initial one, by adding and removing items, choosing the customer,
    changing paid amount, discount, number, date, notes and the item being
    entered, the subtotal is the sum of quantity times price over the
    current items, the tax is 0.15 times the subtotal, the total is their
    sum, and the company is the one the form starts with. *)
Theorem session_amounts_follow_items rnd w st0 w' l :
  initialState rnd w = (Normal st0, w') ->
  let invoice := st_invoice (run_actions st0 l) in
  subtotal invoice = items_subtotal (items invoice)
  /\ taxAmount invoice
     = Some (num_mul (items_subtotal (items invoice)) (number_of_decimal 15 2))
  /\ total invoice
     = Some (num_add (items_subtotal (items invoice))
               (num_mul (items_subtotal (items invoice))
                  (number_of_decimal 15 2)))
  /\ company invoice = Some initial_company.
Proof.
  intros H0. destruct (initialState_run rnd w) as (st & Hrun & _ & Hc & _ & Ha & _).
  rewrite Hrun in H0. injection H0 as <- <-.
  destruct (run_actions_invariant l st Ha) as [(Hs & Ht & Htot) Hcomp].
  cbv zeta. rewrite Hcomp, Hc. rewrite <- Hs. repeat split; assumption.
Qed.

(** A session: an item of 2 at 50, a second of 1 at 10, the first removed. *)
Lemma session_amounts_follow_items_witness :
  exists st0,
    initialState (lit "a1b2c3d4e") world0 = (Normal st0, world0)
    /\ let invoice :=
         st_invoice
           (run_actions st0
              [DoSetDescription (lit "delivery");
               DoSetQuantity (number_of_Z 2); DoSetPrice (number_of_Z 50);
               DoAddItem (lit "k3x9q2m1a");
               DoSetDescription (lit "packing");
               DoSetPrice (number_of_Z 10); DoAddItem (lit "z8y7x6w5v");
               DoUpdatePaid (number_of_Z 5);
               DoRemoveItem (lit "k3x9q2m1a")]) in
       length (items invoice) = 1%nat
       /\ subtotal invoice = number_of_Z 10
       /\ subtotal invoice = items_subtotal (items invoice)
       /\ taxAmount invoice = Some (number_of_decimal 15 1)
       /\ company invoice = Some initial_company.
Proof.
  destruct (initialState_run (lit "a1b2c3d4e") world0) as (st0 & Hrun & _).
  exists st0. split; [exact Hrun |].
  pose proof (session_amounts_follow_items (lit "a1b2c3d4e") world0 st0 world0
                [DoSetDescription (lit "delivery");
                 DoSetQuantity (number_of_Z 2); DoSetPrice (number_of_Z 50);
                 DoAddItem (lit "k3x9q2m1a");
                 DoSetDescription (lit "packing");
                 DoSetPrice (number_of_Z 10); DoAddItem (lit "z8y7x6w5v");
                 DoUpdatePaid (number_of_Z 5);
                 DoRemoveItem (lit "k3x9q2m1a")] Hrun) as (Hs & Ht & _ & Hc).
  cbv zeta. split; [| split; [| split; [exact Hs | split; [| exact Hc]]]].
  - vm_compute in Hrun. injection Hrun as <-. vm_compute. reflexivity.
  - vm_compute in Hrun. injection Hrun as <-. vm_compute. reflexivity.
  - vm_compute in Hrun. injection Hrun as <-. vm_compute. reflexivity.
Defined.

(* ------------------------------------------------------------------ *)
(** ** The remaining amount *)

Lemma initialState_remaining rnd w :
  exists st0,
    initialState rnd w = (Normal st0, w)
    /\ remaining_follows (st_invoice st0).
Proof.
  unfold initialState, bind, Date_now.
  rewrite toISOString_run by (apply Z.leb_le, clock_ok).
  eexists. split; [reflexivity |]. left. vm_compute. reflexivity.
Qed.

Lemma step_remaining st a :
  remaining_follows (st_invoice st) ->
  remaining_follows (st_invoice (step st a)).
Proof.
  intros H. destruct a; cbn [step]; try exact H.
  - unfold addItem. cbv zeta.
    destruct (string_eqb _ []); [exact H | left; reflexivity].
  - right. reflexivity.
  - right. reflexivity.
  - left. reflexivity.
Qed.

Lemma run_actions_remaining l : forall st,
  remaining_follows (st_invoice st) ->
  remaining_follows (st_invoice (run_actions st l)).
Proof.
  unfold run_actions. induction l as [| a l IH]; intros st H; cbn [fold_left].
  - exact H.
  - apply IH, step_remaining, H.
Qed.

(** X14 (InvoiceForm.tsx, addItem line 80, removeItem line 103,
    updatePaidAmount line 136, updateDiscountAmount line 145). In every state
    a session reaches, the remaining amount is total less paid with the
    discount either subtracted or added: subtracted after an item was added
    or the discount changed, added after an item was removed or the paid
    amount changed, and as it was after any other action. *)
Theorem session_remaining rnd w st0 w' l a :
  initialState rnd w = (Normal st0, w') ->
  let before := run_actions st0 l in
  let invoice := st_invoice (run_actions st0 (l ++ [a])) in
  let due := num_sub (to_number (total invoice)) (paid invoice) in
  remaining_follows invoice
  /\ match a with
     | DoAddItem _ =>
         forallb is_white_space (new_description (st_newItem before)) = false ->
         remaining invoice = num_sub due (discount invoice)
     | DoUpdateDiscount _ => remaining invoice = num_sub due (discount invoice)
     | DoRemoveItem _ | DoUpdatePaid _ =>
         remaining invoice = num_add due (discount invoice)
     | _ => remaining invoice = remaining (st_invoice before)
     end.
Proof.
  intros H0. destruct (initialState_remaining rnd w) as (st & Hrun & Hr).
  rewrite Hrun in H0. injection H0 as <- <-. cbv zeta.
  split; [apply run_actions_remaining, Hr |].
  unfold run_actions. rewrite fold_left_app. cbn [fold_left].
  set (before := fold_left step l st).
  destruct a; cbn [step]; try reflexivity.
  intros Hb. unfold addItem. cbv zeta.
  rewrite blank_description_test, Hb. reflexivity.
Qed.

(** With a discount of 10 on an item of 2 at 50: 105 remains after the
    discount is entered, 125 after a payment of 0 is entered next. *)
Lemma session_remaining_witness :
  exists st0,
    initialState (lit "a1b2c3d4e") world0 = (Normal st0, world0)
    /\ (let session :=
          [DoSetDescription (lit "delivery"); DoSetQuantity (number_of_Z 2);
           DoSetPrice (number_of_Z 50); DoAddItem (lit "k3x9q2m1a")] in
        remaining (st_invoice
                     (run_actions st0
                        (session ++ [DoUpdateDiscount (number_of_Z 10)])))
        = number_of_Z 105
        /\ remaining (st_invoice
                        (run_actions st0
                           ((session ++ [DoUpdateDiscount (number_of_Z 10)])
                            ++ [DoUpdatePaid (number_of_Z 0)])))
           = number_of_Z 125).
Proof.
  destruct (initialState_run (lit "a1b2c3d4e") world0) as (st0 & Hrun & _).
  exists st0. split; [exact Hrun |]. cbv zeta.
  pose proof (session_remaining (lit "a1b2c3d4e") world0 st0 world0
                [DoSetDescription (lit "delivery");
                 DoSetQuantity (number_of_Z 2); DoSetPrice (number_of_Z 50);
                 DoAddItem (lit "k3x9q2m1a")]
                (DoUpdateDiscount (number_of_Z 10)) Hrun) as [_ H1].
  pose proof (session_remaining (lit "a1b2c3d4e") world0 st0 world0
                ([DoSetDescription (lit "delivery");
                  DoSetQuantity (number_of_Z 2); DoSetPrice (number_of_Z 50);
                  DoAddItem (lit "k3x9q2m1a")]
                 ++ [DoUpdateDiscount (number_of_Z 10)])
                (DoUpdatePaid (number_of_Z 0)) Hrun) as [_ H2].
  cbv zeta in H1, H2. rewrite H1, H2.
  vm_compute in Hrun. injection Hrun as <-.
  split; vm_compute; reflexivity.
Defined.

(* ------------------------------------------------------------------ *)
(** ** The QR code of the preview *)

Lemma DayWithinYear_range t :
  0 <= DayWithinYear t < DaysInYear (YearFromTime t).
Proof.
  unfold DayWithinYear, YearFromTime.
  pose proof (YearFromDay_bounds (Day t)) as Hb.
  rewrite DayFromYear_step in Hb. lia.
Qed.

Ltac norm_succ :=
  repeat match goal with
         | |- context [Z.add Z0 1] => change (Z.add Z0 1) with 1
         | |- context [Z.add (Zpos ?p) 1] =>
             let v := eval vm_compute in (Z.add (Zpos p) 1) in
             change (Z.add (Zpos p) 1) with v
         end.

(** Every time value falls on a day of the calendar. *)
Lemma civil_fields_valid t :
  1 <= MonthFromTime t + 1 <= 12
  /\ 1 <= DateFromTime t
          <= days_in_month (YearFromTime t) (MonthFromTime t + 1).
Proof.
  pose proof (DayWithinYear_range t) as Hd.
  unfold DateFromTime, MonthFromTime, InLeapYear.
  rewrite DaysInYear_leap in Hd |- *.
  generalize dependent (DayWithinYear t). intros d Hd.
  destruct (is_leap (YearFromTime t)) eqn:Hl; cbn [Z.eqb Pos.eqb];
    split_ltb; norm_succ; cbn [month_start days_in_month]; rewrite ?Hl; lia.
Qed.

Lemma calendar_date_of_fields y mo d :
  0 <= y <= 9999 -> 1 <= mo <= 12 -> 1 <= d <= days_in_month y mo ->
  is_calendar_date
    (fixed_digits 4 y ++ lit "-" ++ fixed_digits 2 mo ++ lit "-"
     ++ fixed_digits 2 d) = true.
Proof.
  intros Hy Hmo Hd. pose proof (days_in_month_le y mo) as Hle.
  cbn [fixed_digits app lit]. unfold is_calendar_date.
  cbn [forallb]. rewrite !is_digit_mod10. cbn [andb].
  change (Z.of_nat (nat_of_ascii "-")) with 45. rewrite !Z.eqb_refl.
  cbn [andb].
  replace (1000 * (48 + y / 10 / 10 / 10 mod 10 - 48)
           + 100 * (48 + y / 10 / 10 mod 10 - 48)
           + 10 * (48 + y / 10 mod 10 - 48) + (48 + y mod 10 - 48))
    with y by divmod.
  replace (10 * (48 + mo / 10 mod 10 - 48) + (48 + mo mod 10 - 48))
    with mo by divmod.
  replace (10 * (48 + d / 10 mod 10 - 48) + (48 + d mod 10 - 48))
    with d by divmod.
  repeat (apply andb_true_intro; split); apply Z.leb_le; lia.
Qed.

Lemma split_first_prefix sep s r :
  Forall (fun c => c <> sep) s -> split_first sep (s ++ sep :: r) = s.
Proof.
  induction 1 as [| c s' Hc _ IH]; cbn [app split_first].
  - rewrite Z.eqb_refl. reflexivity.
  - destruct (Z.eqb_spec c sep); [contradiction |]. rewrite IH. reflexivity.
Qed.

(** The date part of a rendered instant is a calendar date. *)
Lemma iso_date_part t :
  0 <= YearFromTime t <= 9999 ->
  is_calendar_date (split_first 84 (iso_string t)) = true
  /\ exists rest, iso_string t = split_first 84 (iso_string t) ++ 84 :: rest.
Proof.
  intros Hy. destruct (civil_fields_valid t) as [Hm Hd].
  set (today := fixed_digits 4 (YearFromTime t) ++ lit "-"
                ++ fixed_digits 2 (MonthFromTime t + 1) ++ lit "-"
                ++ fixed_digits 2 (DateFromTime t)).
  assert (Hiso : exists rest, iso_string t = today ++ 84 :: rest).
  { unfold iso_string, year_string, today.
    replace ((0 <=? YearFromTime t) && (YearFromTime t <=? 9999)) with true
      by (symmetry; apply andb_true_intro; split; apply Z.leb_le; lia).
    eexists. rewrite <- !app_assoc. do 5 f_equal. reflexivity. }
  destruct Hiso as [rest Hiso].
  assert (Hsplit : split_first 84 (iso_string t) = today).
  { rewrite Hiso. apply split_first_prefix.
    unfold today. rewrite !Forall_app. repeat split;
      try (eapply Forall_impl; [| apply fixed_digits_digits];
           intros c Hc'; apply is_digit_range in Hc'; lia);
      repeat constructor; cbn; lia. }
  rewrite Hsplit. split.
  - apply calendar_date_of_fields; assumption.
  - exists rest. exact Hiso.
Qed.

Lemma company_name_fits :
  utf8_length company_name_literal = 72
  /\ tlv_of 2 (lit "311684171400003") = mkTLV 2 15 (lit "311684171400003").
Proof. split; vm_compute; reflexivity. Qed.

(** X9 (InvoiceForm.tsx, the preview's generateZatcaQrCode(invoice), line
    257, after any session on the form). In every state a session reaches,
    the QR value is produced without an exception; decoded, its first three
    records are the 72 UTF-8 bytes of the company name the form starts with,
    its tax number 311684171400003, and the date string, and records 4 and 5
    are built from [toFixed(2)] of 0.15 times the sum of quantity times
    price over the current items and of that sum plus the tax. *)
Theorem session_qr_code rnd w0 st0 w0' l w :
  initialState rnd w0 = (Normal st0, w0') ->
  let st := run_actions st0 l in
  let sub := items_subtotal (items (st_invoice st)) in
  let tax := num_mul sub (number_of_decimal 15 2) in
  exists s bytes dt,
    previewQrValue st w = (Normal s, w)
    /\ invoiceDateTime (st_invoice st) w = (Normal dt, w)
    /\ base64_decode s = Some bytes
    /\ bytes = payload_bytes company_name_literal (lit "311684171400003") dt
                 (toFixed2 (or_zero (Some tax)))
                 (toFixed2 (or_zero (Some (num_add sub tax))))
    /\ nth_record 1 bytes
       = Some (mkTLV 1 72 (TextEncoder_encode company_name_literal))
    /\ nth_record 2 bytes = Some (mkTLV 2 15 (lit "311684171400003"))
    /\ nth_record 3 bytes = Some (mkTLV 3 (Z.of_nat (length dt)) dt).
Proof.
  intros H0. cbv zeta.
  destruct (initialState_run rnd w0) as (st & Hrun & _ & Hc & _ & Ha & _).
  rewrite Hrun in H0. injection H0 as <- <-.
  destruct (run_actions_invariant l st Ha) as [(Hs & Ht & Htot) Hcomp].
  rewrite Hc in Hcomp. set (inv := st_invoice (run_actions st l)) in *.
  destruct (generate_decode inv w) as (s & Hgen & Hdec).
  assert (Hn : sellerName inv = company_name_literal)
    by (unfold sellerName; rewrite Hcomp; reflexivity).
  assert (Hv : vatRegistrationNumber inv = lit "311684171400003")
    by (unfold vatRegistrationNumber; rewrite Hcomp; reflexivity).
  rewrite Hn, Hv in Hdec. unfold totalVatAmount, totalInvoiceAmount in Hdec.
  rewrite Ht, Htot, Hs in Hdec.
  set (dt := resolved_dateTime (clock w) (localTZA w) (date inv)) in *.
  destruct (resolved_dateTime_ascii (clock w) (localTZA w) (date inv))
    as [Had Hld]. fold dt in Had, Hld.
  destruct company_name_fits as [Hfit Hvat].
  exists s. eexists. exists dt.
  split; [exact Hgen |]. split; [apply invoiceDateTime_run |].
  split; [exact Hdec |]. split; [reflexivity |].
  split; [| split].
  - rewrite nth_record_1 by lia. unfold tlv_of. rewrite Hfit. reflexivity.
  - rewrite nth_record_2 by (try rewrite Hfit; try lia; apply Z.leb_le; reflexivity).
    rewrite Hvat. reflexivity.
  - rewrite nth_record_3;
      [ rewrite (tlv_of_ascii 3 dt Had); reflexivity
      | lia | apply Z.leb_le; reflexivity
      | rewrite (utf8_length_ascii dt Had); lia ].
Qed.

Lemma session_qr_code_witness :
  exists st0,
    initialState (lit "a1b2c3d4e") world0 = (Normal st0, world0)
    /\ exists s bytes,
         previewQrValue
           (run_actions st0
              [DoSetDescription (lit "delivery");
               DoSetQuantity (number_of_Z 2); DoSetPrice (number_of_Z 50);
               DoAddItem (lit "k3x9q2m1a")]) world1 = (Normal s, world1)
         /\ base64_decode s = Some bytes
         /\ nth_record 2 bytes = Some (mkTLV 2 15 (lit "311684171400003"))
         /\ nth_record 4 bytes = Some (mkTLV 4 5 (lit "15.00"))
         /\ nth_record 5 bytes = Some (mkTLV 5 6 (lit "115.00")).
Proof.
  destruct (initialState_run (lit "a1b2c3d4e") world0) as (st0 & Hrun & _).
  exists st0. split; [exact Hrun |].
  destruct (session_qr_code (lit "a1b2c3d4e") world0 st0 world0
              [DoSetDescription (lit "delivery");
               DoSetQuantity (number_of_Z 2); DoSetPrice (number_of_Z 50);
               DoAddItem (lit "k3x9q2m1a")] world1 Hrun)
    as (s & bytes & dt & Ha & Hb & Hc & Hd & _ & H2 & _).
  exists s, bytes. split; [exact Ha |]. split; [exact Hc |].
  split; [exact H2 |].
  rewrite invoiceDateTime_run in Hb. injection Hb as <-.
  vm_compute in Hrun. injection Hrun as <-. rewrite Hd.
  split; vm_compute; reflexivity.
Defined.

(** X10 (InvoiceForm.tsx, initial state line 37 and the preview line 257).
    On a fresh form, opened with the clock in the years 0000 to 9999, the
    date is the date part of the current instant, a calendar date; the QR
    value made from it, at any later time, decodes to five records: the
    company name, its tax number, that date at 00:00:00.000Z, and "0.00"
    twice. *)
Theorem fresh_form_qr_code rnd w0 w :
  0 <= YearFromTime (clock w0) <= 9999 ->
  exists st0 today rest s,
    initialState rnd w0 = (Normal st0, w0)
    /\ date (st_invoice st0) = Some today
    /\ iso_string (clock w0) = today ++ 84 :: rest
    /\ is_calendar_date today = true
    /\ previewQrValue st0 w = (Normal s, w)
    /\ decode_records s
       = Some [mkTLV 1 72 (TextEncoder_encode company_name_literal);
               mkTLV 2 15 (lit "311684171400003");
               mkTLV 3 24 (today ++ lit "T00:00:00.000Z");
               mkTLV 4 4 (lit "0.00"); mkTLV 5 4 (lit "0.00")].
Proof.
  intros Hy.
  destruct (initialState_run rnd w0)
    as (st0 & Hrun & Hd & Hc & _ & _ & Ht & Htot).
  destruct (iso_date_part (clock w0) Hy) as [Hcal [rest Hiso]].
  set (today := split_first 84 (iso_string (clock w0))) in *.
  exists st0, today, rest.
  set (inv := st_invoice st0) in *.
  assert (Hn : sellerName inv = company_name_literal)
    by (unfold sellerName; rewrite Hc; reflexivity).
  assert (Hv : vatRegistrationNumber inv = lit "311684171400003")
    by (unfold vatRegistrationNumber; rewrite Hc; reflexivity).
  destruct company_name_fits as [Hfit _].
  destruct (roundtrip_for_ordinary_invoices_aux inv w)
    as (s & dt & Hgen & Hdt & Hp).
  - rewrite Hn, Hfit. lia.
  - rewrite Hv. apply Z.leb_le. reflexivity.
  - unfold fixed_range. rewrite Ht. reflexivity.
  - unfold fixed_range. rewrite Htot. reflexivity.
  - exists s. split; [exact Hrun |]. split; [exact Hd |].
    split; [exact Hiso |]. split; [exact Hcal |]. split; [exact Hgen |].
    rewrite Hp. rewrite invoiceDateTime_run in Hdt. injection Hdt as <-.
    destruct (resolved_calendar_date (clock w) (localTZA w) today Hcal)
      as (t & _ & _ & _ & Hi & Hr).
    rewrite Hd, Hr, Hi.
    destruct (calendar_date_ascii today Hcal) as [_ Hl].
    rewrite Hl, Hn, Hv, Hfit. unfold totalVatAmount, totalInvoiceAmount.
    rewrite Ht, Htot. reflexivity.
Qed.

(** A form opened on 2026-11-01 and previewed at another time. *)
Lemma fresh_form_qr_code_witness :
  0 <= YearFromTime (clock world0) <= 9999
  /\ exists st0 s,
       initialState (lit "a1b2c3d4e") world0 = (Normal st0, world0)
       /\ date (st_invoice st0) = Some (lit "2026-11-01")
       /\ previewQrValue st0 world1 = (Normal s, world1)
       /\ decode_records s
          = Some [mkTLV 1 72 (TextEncoder_encode company_name_literal);
                  mkTLV 2 15 (lit "311684171400003");
                  mkTLV 3 24 (lit "2026-11-01T00:00:00.000Z");
                  mkTLV 4 4 (lit "0.00"); mkTLV 5 4 (lit "0.00")].
Proof.
  assert (Hy : 0 <= YearFromTime (clock world0) <= 9999)
    by (split; apply Z.leb_le; vm_compute; reflexivity).
  split; [exact Hy |].
  destruct (fresh_form_qr_code (lit "a1b2c3d4e") world0 world1 Hy)
    as (st0 & today & rest & s & Ha & Hb & Hc & Hd & He & Hf).
  exists st0, s. split; [exact Ha |].
  assert (Ht : today = lit "2026-11-01").
  { vm_compute in Ha. injection Ha as <-. vm_compute in Hb.
    injection Hb as <-. reflexivity. }
  subst today. repeat split; assumption.
Defined.

(* ================================================================== *)
(** * Properties of the invoice numbering *)

(* ------------------------------------------------------------------ *)
(** ** Numbers that a significand holds exactly *)

Lemma digits2_size p : digits2_pos p = Pos.size p.
Proof. induction p; cbn; congruence. Qed.

Lemma digits2_bounds p :
  2 ^ (Z.pos (digits2_pos p) - 1) <= Z.pos p < 2 ^ Z.pos (digits2_pos p).
Proof.
  rewrite digits2_size. 
  pose proof (Pos.size_gt p) as Hg. pose proof (Pos.size_le p) as Hl.
  assert (H2 : forall k, Z.pos (2 ^ k) = 2 ^ Z.pos k)
    by (intros; rewrite Pos2Z.inj_pow; reflexivity).
  split.
  - apply Pos2Z.pos_le_pos in Hl. rewrite Pos2Z.inj_xO, H2 in Hl.
    replace (Z.pos (Pos.size p)) with (Z.succ (Z.pos (Pos.size p) - 1)) in Hl by lia.
    rewrite Z.pow_succ_r in Hl by lia. lia.
  - apply Pos2Z.pos_lt_pos in Hg. rewrite H2 in Hg. exact Hg.
Qed.

Lemma digits2_unique p d :
  2 ^ (d - 1) <= Z.pos p < 2 ^ d -> Z.pos (digits2_pos p) = d.
Proof.
  intros [Hl Hu]. pose proof (digits2_bounds p) as [Hl' Hu'].
  set (d' := Z.pos (digits2_pos p)) in *.
  assert (0 < d).
  { destruct (Z.ltb_spec 0 d) as [Hp | Hn]; [exact Hp |]. exfalso.
    assert (2 ^ d <= 1); [| lia].
    destruct (Z.eq_dec d 0) as [-> |]; [cbn; lia |].
    rewrite Z.pow_neg_r by lia. lia. }
  destruct (Z.lt_trichotomy d d') as [Hlt | [Heq | Hgt]]; [| lia |].
  - assert (2 ^ d <= 2 ^ (d' - 1)) by (apply Z.pow_le_mono_r; lia). lia.
  - assert (2 ^ d' <= 2 ^ (d - 1)) by (apply Z.pow_le_mono_r; lia). lia.
Qed.

Lemma iter_xO p k : Z.pos (Pos.iter xO p k) = Z.pos p * 2 ^ Z.pos k.
Proof.
  induction k as [| k IH] using Pos.peano_ind.
  - cbn. lia.
  - rewrite Pos.iter_succ, Pos2Z.inj_xO, IH, Pos2Z.inj_succ, Z.pow_succ_r by lia. lia.
Qed.

Lemma iter_pos_iter {A} (f : A -> A) n x : iter_pos f n x = Pos.iter f x n.
Proof.
  revert x. induction n as [n IH | n IH |]; intros x; cbn [iter_pos Pos.iter].
  - rewrite !IH. rewrite <- !Pos.iter_swap. reflexivity.
  - rewrite !IH. reflexivity.
  - reflexivity.
Qed.

Lemma shr_exact p k :
  iter_pos shr_1 k (Build_shr_record (Z.pos (Pos.iter xO p k)) false false)
  = Build_shr_record (Z.pos p) false false.
Proof.
  rewrite iter_pos_iter. induction k as [| k IH] using Pos.peano_ind.
  - reflexivity.
  - rewrite Pos.iter_succ_r. rewrite Pos.iter_succ. cbn [shr_1 orb]. exact IH.
Qed.

Lemma binary_round_aux_canonical s m e :
  Z.pos (digits2_pos m) = 53 -> -1074 <= e <= 971 ->
  binary_round_aux prec emax s (Z.pos m) e loc_Exact = S754_finite s m e.
Proof.
  intros Hd He. unfold binary_round_aux, shr_fexp, Zdigits2.
  cbn [shr_record_of_loc]. rewrite Hd.
  replace (fexp prec emax (53 + e) - e) with 0
    by (unfold fexp, emin, prec, emax; lia).
  cbn [shr shr_m loc_of_shr_record round_nearest_even shr_record_of_loc].
  rewrite Hd.
  replace (fexp prec emax (53 + e) - e) with 0
    by (unfold fexp, emin, prec, emax; lia).
  cbn [shr shr_m].
  replace (e <=? emax - prec) with true
    by (symmetry; apply Z.leb_le; unfold prec, emax; lia).
  reflexivity.
Qed.

(** Rounding a value that a 53-bit significand holds changes nothing:
    whatever the representation it is given in. *)
Lemma binary_round_down s P E m e a :
  Z.pos (digits2_pos m) = 53 -> -1074 <= e <= 971 -> 0 <= a ->
  Z.pos P = Z.pos m * 2 ^ a -> E = e - a ->
  binary_round prec emax s P E = S754_finite s m e.
Proof.
  intros Hd He Ha HP ->.
  assert (HdP : Z.pos (digits2_pos P) = 53 + a).
  { apply digits2_unique. pose proof (digits2_bounds m) as Hb.
    rewrite Hd in Hb. rewrite HP.
    replace (53 + a - 1) with (52 + a) by lia.
    rewrite !Z.pow_add_r by lia. change (53 - 1) with 52 in Hb.
    assert (0 < 2 ^ a) by (apply Z.pow_pos_nonneg; lia). nia. }
  unfold binary_round. rewrite HdP.
  replace (fexp prec emax (53 + a + (e - a))) with e
    by (unfold fexp, emin, prec, emax; lia).
  unfold shl_align. replace (e - (e - a)) with a by lia.
  destruct a as [| a | a]; [| | lia].
  - assert (P = m) by lia. subst P. rewrite Z.sub_0_r.
    apply binary_round_aux_canonical; assumption.
  - assert (P = Pos.iter xO m a)
      by (apply Pos2Z.inj; rewrite iter_xO; exact HP). subst P.
    unfold binary_round_aux, shr_fexp, Zdigits2. cbn [shr_record_of_loc].
    rewrite HdP.
    replace (fexp prec emax (53 + Z.pos a + (e - Z.pos a)) - (e - Z.pos a))
      with (Z.pos a) by (unfold fexp, emin, prec, emax; lia).
    cbn [shr]. rewrite shr_exact.
    cbn [shr_m loc_of_shr_record round_nearest_even shr_record_of_loc].
    rewrite Hd.
    replace (fexp prec emax (53 + (e - Z.pos a + Z.pos a))
             - (e - Z.pos a + Z.pos a)) with 0
      by (unfold fexp, emin, prec, emax; lia).
    cbn [shr shr_m].
    replace (e - Z.pos a + Z.pos a <=? emax - prec) with true
      by (symmetry; apply Z.leb_le; unfold prec, emax; lia).
    f_equal. lia.
Qed.

Lemma binary_round_up s P E m e a :
  Z.pos (digits2_pos m) = 53 -> -1074 <= e <= 971 -> 0 <= a ->
  Z.pos m = Z.pos P * 2 ^ a -> E = e + a ->
  binary_round prec emax s P E = S754_finite s m e.
Proof.
  intros Hd He Ha Hm ->.
  destruct a as [| a | a]; [| | lia].
  - assert (P = m) by lia. subst P. rewrite Z.add_0_r.
    apply (binary_round_down s m e m e 0); try assumption; lia.
  - assert (m = Pos.iter xO P a)
      by (apply Pos2Z.inj; rewrite iter_xO; exact Hm).
    assert (HdP : Z.pos (digits2_pos P) = 53 - Z.pos a).
    { apply digits2_unique. pose proof (digits2_bounds m) as Hb.
      rewrite Hd in Hb. rewrite Hm in Hb. change (53 - 1) with 52 in Hb.
      pose proof (digits2_bounds P) as Hb'.
      set (d := Z.pos (digits2_pos P)) in *.
      assert (0 < 2 ^ Z.pos a) by (apply Z.pow_pos_nonneg; lia).
      assert (d + Z.pos a = 53); [| replace (53 - Z.pos a) with d by lia; exact Hb'].
      assert (Hlow : 2 ^ (d - 1 + Z.pos a) <= Z.pos P * 2 ^ Z.pos a)
        by (rewrite Z.pow_add_r by lia; nia).
      assert (Hup : Z.pos P * 2 ^ Z.pos a < 2 ^ (d + Z.pos a))
        by (rewrite Z.pow_add_r by lia; nia).
      destruct (Z.lt_trichotomy (d + Z.pos a) 53) as [Hlt | [Heq | Hgt]];
        [| assumption |].
      - assert (2 ^ (d + Z.pos a) <= 2 ^ 52) by (apply Z.pow_le_mono_r; lia). lia.
      - assert (2 ^ 53 <= 2 ^ (d - 1 + Z.pos a)) by (apply Z.pow_le_mono_r; lia). lia. }
    unfold binary_round. rewrite HdP.
    replace (fexp prec emax (53 - Z.pos a + (e + Z.pos a))) with e
      by (unfold fexp, emin, prec, emax; lia).
    unfold shl_align. replace (e - (e + Z.pos a)) with (Z.neg a) by lia.
    subst m. apply binary_round_aux_canonical; assumption.
Qed.

Lemma number_of_Z_exact N :
  0 < N < 2 ^ 53 ->
  exists m e,
    number_of_Z N = S754_finite false m e
    /\ Z.pos (digits2_pos m) = 53 /\ -52 <= e <= 0
    /\ Z.pos m = N * 2 ^ (- e).
Proof.
  intros [H0 H1]. destruct N as [| P | P]; try lia.
  pose proof (digits2_bounds P) as Hb. set (d := Z.pos (digits2_pos P)) in *.
  assert (Hd : 1 <= d <= 53).
  { split; [unfold d; lia |].
    destruct (Z.le_gt_cases d 53) as [Hle | Hgt]; [exact Hle |].
    assert (2 ^ 53 <= 2 ^ (d - 1)) by (apply Z.pow_le_mono_r; lia). lia. }
  assert (Hp : 0 < 2 ^ (53 - d)) by (apply Z.pow_pos_nonneg; lia).
  assert (E1 : 2 ^ 52 = 2 ^ (d - 1) * 2 ^ (53 - d))
    by (rewrite <- Z.pow_add_r by lia; f_equal; lia).
  assert (E2 : 2 ^ 53 = 2 ^ d * 2 ^ (53 - d))
    by (rewrite <- Z.pow_add_r by lia; f_equal; lia).
  set (m := Z.to_pos (Z.pos P * 2 ^ (53 - d))).
  assert (Hm : Z.pos m = Z.pos P * 2 ^ (53 - d)) by (apply Z2Pos.id; lia).
  assert (Hdm : Z.pos (digits2_pos m) = 53).
  { apply digits2_unique. rewrite Hm. change (53 - 1) with 52.
    rewrite E1, E2. split; nia. }
  exists m, (d - 53).
  split; [| split; [exact Hdm | split; [lia |]]].
  - unfold number_of_Z, binary_normalize.
    apply (binary_round_up false P 0 m (d - 53) (53 - d));
      try assumption; lia.
  - rewrite Hm. f_equal. f_equal. lia.
Qed.

Lemma shl_align_value mx ex ex' :
  ex' <= ex -> Z.pos (fst (shl_align mx ex ex')) = Z.pos mx * 2 ^ (ex - ex').
Proof.
  intros H. unfold shl_align. destruct (ex' - ex) as [| d | d] eqn:E.
  - replace (ex - ex') with 0 by lia. cbn [fst]. lia.
  - lia.
  - cbn [fst]. rewrite iter_xO. f_equal. f_equal. lia.
Qed.

(** Below 2^53 the sum with 1 is exact. *)
Lemma num_add_one N :
  0 <= N -> N + 1 < 2 ^ 53 ->
  num_add (number_of_Z N) (number_of_Z 1) = number_of_Z (N + 1).
Proof.
  intros H0 H1. destruct (Z.eq_dec N 0) as [-> | Hn].
  - vm_compute. reflexivity.
  - destruct (number_of_Z_exact N) as (m & e & Hx & Hd & He & Hm); [lia |].
    destruct (number_of_Z_exact (N + 1)) as (m' & e' & Hx' & Hd' & He' & Hm');
      [lia |].
    rewrite Hx, Hx'.
    replace (number_of_Z 1) with (S754_finite false 4503599627370496 (-52))
      by (vm_compute; reflexivity).
    unfold num_add, SFadd. replace (Z.min e (-52)) with (-52) by lia.
    cbn [cond_Zopp].
    pose proof (shl_align_value m e (-52)) as Ha.
    set (a := fst (shl_align m e (-52))) in *.
    set (b := fst (shl_align 4503599627370496 (-52) (-52))).
    assert (Hb : Z.pos b = 2 ^ 52) by (vm_compute; reflexivity).
    change (Z.pos a + Z.pos b) with (Z.pos (a + b)). unfold binary_normalize.
    apply (binary_round_down false (a + b)%positive (-52) m' e' (e' + 52));
      try assumption; try lia.
    rewrite Pos2Z.inj_add, Ha, Hb, Hm, Hm' by lia.
    rewrite <- !Z.mul_assoc, <- !Z.pow_add_r by lia.
    replace (- e + (e - -52)) with 52 by lia.
    replace (- e' + (e' + 52)) with 52 by lia. lia.
Qed.

(* ------------------------------------------------------------------ *)
(** ** The shortest decimal of an integer *)

Ltac set_gap g :=
  match goal with
  | |- context [if ?b then 1 else 2] =>
      set (g := if b then 1 else 2);
      assert (Hg : 1 <= g <= 2) by (unfold g; destruct b; lia);
      clearbody g
  end.

Lemma rounds_to_integer m e N c q :
  -52 <= e <= 0 -> Z.pos m = N * 2 ^ (- e) -> 0 <= q ->
  rounds_to m e c q = true -> c * 10 ^ q = N.
Proof.
  intros He Hm Hq. unfold rounds_to.
  replace (Z.max e 0) with 0 by lia. replace (Z.max (- e) 0) with (- e) by lia.
  replace (Z.max q 0) with q by lia. replace (Z.max (- q) 0) with 0 by lia.
  change (2 ^ 0) with 1. change (10 ^ 0) with 1. rewrite Hm.
  assert (HB : 0 < 2 ^ (- e)) by (apply Z.pow_pos_nonneg; lia).
  set (B := 2 ^ (- e)) in *. set (cn := c * 10 ^ q).
  set_gap g. intros Hr.
  assert (Hin : 4 * (N * B) - 2 <= 4 * (B * cn) <= 4 * (N * B) + 2).
  { destruct (Z.even _); apply andb_prop in Hr; destruct Hr as [Hl Hu];
      [apply Z.leb_le in Hl; apply Z.leb_le in Hu
      | apply Z.ltb_lt in Hl; apply Z.ltb_lt in Hu]; lia. }
  assert (HP : B * cn = N * B) by lia.
  apply (Z.mul_cancel_l _ _ B); lia.
Qed.

Lemma rounds_to_self m e N :
  -52 <= e <= 0 -> Z.pos m = N * 2 ^ (- e) -> rounds_to m e N 0 = true.
Proof.
  intros He Hm. unfold rounds_to.
  replace (Z.max e 0) with 0 by lia. replace (Z.max (- e) 0) with (- e) by lia.
  change (Z.max 0 0) with 0. change (Z.max (- 0) 0) with 0.
  change (2 ^ 0) with 1. change (10 ^ 0) with 1. rewrite Hm.
  set (B := 2 ^ (- e)).
  set_gap g.
  destruct (Z.even _); apply andb_true_intro; split;
    first [apply Z.leb_le | apply Z.ltb_lt]; lia.
Qed.

Lemma decimals_around_integer m e N :
  -52 <= e <= 0 -> Z.pos m = N * 2 ^ (- e) ->
  fst (decimals_around m e 0) = N.
Proof.
  intros He Hm. unfold decimals_around.
  replace (Z.max e 0) with 0 by lia. replace (Z.max (- e) 0) with (- e) by lia.
  change (Z.max 0 0) with 0. change (Z.max (- 0) 0) with 0.
  change (0 <=? 0) with true. cbv iota.
  change (2 ^ 0) with 1. change (10 ^ 0) with 1. rewrite Hm.
  assert (HB : 0 < 2 ^ (- e)) by (apply Z.pow_pos_nonneg; lia).
  set (B := 2 ^ (- e)) in *.
  replace (N * B * 1 / (B * 1)) with N
    by (rewrite !Z.mul_1_r; symmetry; apply Z.div_mul; lia).
  replace (2 * (N * B * 1) * 1 <? (N + (N + 1)) * 1 * B) with true
    by (symmetry; apply Z.ltb_lt; lia).
  reflexivity.
Qed.

Lemma shortest_decimal_integer m e N L :
  -52 <= e <= 0 -> Z.pos m = N * 2 ^ (- e) ->
  forall fuel k, 1 <= k <= L -> L - k < Z.of_nat fuel ->
    0 <= snd (shortest_decimal m e L k fuel)
    /\ fst (shortest_decimal m e L k fuel)
       * 10 ^ snd (shortest_decimal m e L k fuel) = N.
Proof.
  intros He Hm. induction fuel as [| fuel IH]; intros k Hk Hf; [lia |].
  cbn [shortest_decimal].
  destruct (rounds_to m e (fst (decimals_around m e (L - k))) (L - k)) eqn:E1.
  { cbn [fst snd]. split; [lia |].
    apply (rounds_to_integer m e N _ _ He Hm); [lia | exact E1]. }
  destruct (rounds_to m e (snd (decimals_around m e (L - k))) (L - k)) eqn:E2.
  { cbn [fst snd]. split; [lia |].
    apply (rounds_to_integer m e N _ _ He Hm); [lia | exact E2]. }
  destruct (Z.eq_dec k L) as [-> | Hne].
  - exfalso. rewrite Z.sub_diag in E1.
    rewrite (decimals_around_integer m e N He Hm) in E1.
    rewrite (rounds_to_self m e N He Hm) in E1. discriminate.
  - apply IH; lia.
Qed.

(* ------------------------------------------------------------------ *)
(** ** Digits and their strings *)

Lemma strip_trailing_zeros_restore t :
  (length (strip_trailing_zeros t) <= length t)%nat
  /\ strip_trailing_zeros t
     ++ repeat 48 (length t - length (strip_trailing_zeros t)) = t.
Proof.
  induction t as [| c r [IHl IH]]; [split; reflexivity |].
  cbn [strip_trailing_zeros].
  destruct (strip_trailing_zeros r) as [| x r'] eqn:E.
  - cbn [length app] in IH. rewrite Nat.sub_0_r in IH.
    destruct (Z.eqb_spec c 48) as [-> | Hc]; cbn [length]; (split; [lia |]).
    + replace (S (length r) - 0)%nat with (S (length r)) by lia.
      cbn [repeat app]. f_equal. exact IH.
    + replace (S (length r) - 1)%nat with (length r) by lia.
      cbn [app]. f_equal. exact IH.
  - cbn [length] in *. split; [lia |].
    cbn [app]. f_equal.
    replace (S (length r) - S (S (length r')))%nat
      with (length r - S (length r'))%nat by lia.
    exact IH.
Qed.

Lemma digits_value_app_zeros t j :
  digits_value (t ++ repeat 48 j) = digits_value t * 10 ^ Z.of_nat j.
Proof.
  unfold digits_value. rewrite fold_left_app.
  generalize (fold_left (fun acc c => 10 * acc + (c - 48)) t 0). intros v.
  revert v. induction j as [| j IH]; intros v.
  - cbn. lia.
  - cbn [repeat fold_left]. rewrite IH. rewrite Nat2Z.inj_succ.
    rewrite Z.pow_succ_r by lia. lia.
Qed.

Lemma all_digits_uint t :
  all_digits t -> exists u, uint_codes u = t.
Proof.
  induction 1 as [| c r Hc _ [u Hu]]; [exists Decimal.Nil; reflexivity |].
  apply is_digit_range in Hc.
  assert (Hcases : c = 48 \/ c = 49 \/ c = 50 \/ c = 51 \/ c = 52 \/ c = 53
                   \/ c = 54 \/ c = 55 \/ c = 56 \/ c = 57) by lia.
  repeat destruct Hcases as [-> | Hcases]; [| | | | | | | | |subst c];
    [exists (Decimal.D0 u) | exists (Decimal.D1 u) | exists (Decimal.D2 u)
    | exists (Decimal.D3 u) | exists (Decimal.D4 u) | exists (Decimal.D5 u)
    | exists (Decimal.D6 u) | exists (Decimal.D7 u) | exists (Decimal.D8 u)
    | exists (Decimal.D9 u)]; cbn [uint_codes]; rewrite Hu; reflexivity.
Qed.

(** A string of digits that does not start with 0 is the decimal
    representation of the number it denotes. *)
Lemma digits_canonical c r :
  49 <= c <= 57 -> all_digits r ->
  decimal_digits (digits_value (c :: r)) = c :: r.
Proof.
  intros Hc Hr. destruct (all_digits_uint r Hr) as [u Hu].
  assert (Hex : exists v, uint_codes v = c :: r /\ Decimal.unorm v = v).
  { assert (Hcases : c = 49 \/ c = 50 \/ c = 51 \/ c = 52 \/ c = 53
                     \/ c = 54 \/ c = 55 \/ c = 56 \/ c = 57) by lia.
    repeat destruct Hcases as [-> | Hcases]; [| | | | | | | |subst c];
      [exists (Decimal.D1 u) | exists (Decimal.D2 u)
      | exists (Decimal.D3 u) | exists (Decimal.D4 u) | exists (Decimal.D5 u)
      | exists (Decimal.D6 u) | exists (Decimal.D7 u) | exists (Decimal.D8 u)
      | exists (Decimal.D9 u)]; cbn [uint_codes]; rewrite Hu;
      split; reflexivity. }
  destruct Hex as (v & Hv & Hn). rewrite <- Hv at 1.
  rewrite <- of_uint_codes. unfold decimal_digits. rewrite N2Z.id.
  change (Pos.of_uint v) with (N.of_uint v).
  rewrite DecimalN.Unsigned.to_of, Hn. exact Hv.
Qed.

Lemma decimal_digits_shift s q :
  0 < s -> decimal_digits s ++ repeat 48 q
           = decimal_digits (s * 10 ^ Z.of_nat q).
Proof.
  intros Hs. pose proof (decimal_digits_digits s) as Hd.
  pose proof (digits_value_decimal s ltac:(lia)) as Hv.
  destruct (decimal_digits_head s) as [E | (c & r & E & Hc)].
  - rewrite E in Hv. cbn in Hv. lia.
  - rewrite <- Hv at 2. rewrite <- digits_value_app_zeros.
    rewrite E in *. cbn [app]. symmetry. apply digits_canonical; [exact Hc |].
    unfold all_digits in *. rewrite Forall_app. split.
    + exact (Forall_inv_tail Hd).
    + clear. induction q; constructor; [reflexivity | assumption].
Qed.

(** An integer below 2^53 is written with all its digits. *)
Lemma Number_toString_integer m e N :
  -52 <= e <= 0 -> Z.pos m = N * 2 ^ (- e) -> N < 2 ^ 53 ->
  Number_toString_finite m e = decimal_digits N.
Proof.
  intros He Hm HN.
  assert (HB : 0 < 2 ^ (- e)) by (apply Z.pow_pos_nonneg; lia).
  assert (H0 : 0 < N) by nia.
  unfold Number_toString_finite.
  replace (Z.max e 0) with 0 by lia. replace (Z.max (- e) 0) with (- e) by lia.
  change (2 ^ 0) with 1. rewrite Z.mul_1_r.
  assert (HL : decimal_exponent (Z.pos m) (2 ^ (- e))
               = Z.of_nat (length (decimal_digits N))).
  { unfold decimal_exponent. rewrite Hm.
    replace (2 ^ (- e) <=? N * 2 ^ (- e)) with true
      by (symmetry; apply Z.leb_le; nia).
    rewrite Z.div_mul by lia. reflexivity. }
  rewrite HL. set (L := Z.of_nat (length (decimal_digits N))).
  assert (HL1 : 1 <= L <= 16).
  { unfold L. pose proof (decimal_digits_nonempty N) as Hne.
    pose proof (decimal_digits_length N 16) as Hle.
    destruct (decimal_digits N); [congruence |]. cbn [length] in *.
    assert (2 ^ 53 < 10 ^ Z.of_nat 16) by (vm_compute; reflexivity). lia. }
  destruct (shortest_decimal_integer m e N L He Hm 17 1) as [Hq Hs];
    [lia | lia |].
  set (sq := shortest_decimal m e L 1 17) in *.
  set (s := fst sq) in *. set (q := snd sq) in *.
  assert (Hpq : 0 < 10 ^ q) by (apply Z.pow_pos_nonneg; lia).
  assert (Hs0 : 0 < s) by nia.
  destruct (strip_trailing_zeros_restore (decimal_digits s)) as [Hle Hre].
  set (all := decimal_digits s) in *.
  set (d := strip_trailing_zeros all) in *.
  assert (Hall : all ++ repeat 48 (Z.to_nat q) = decimal_digits N).
  { unfold all. rewrite decimal_digits_shift by lia.
    rewrite Z2Nat.id by lia. rewrite Hs. reflexivity. }
  assert (Hlen : Z.of_nat (length all) + q = L).
  { unfold L. rewrite <- Hall, length_app, repeat_length. lia. }
  rewrite Hlen.
  replace ((Z.of_nat (length d) <=? L) && (L <=? 21)) with true
    by (symmetry; apply andb_true_intro; split; apply Z.leb_le; lia).
  rewrite <- Hall.
  transitivity ((d ++ repeat 48 (length all - length d))
                ++ repeat 48 (Z.to_nat q)); [| rewrite Hre; reflexivity].
  rewrite <- app_assoc. f_equal. rewrite <- repeat_app. f_equal. lia.
Qed.

Lemma Number_toString_of_Z N :
  0 < N < 2 ^ 53 -> Number_toString (number_of_Z N) = decimal_digits N.
Proof.
  intros HN. destruct (number_of_Z_exact N HN) as (m & e & Hx & _ & He & Hm).
  rewrite Hx. cbn [Number_toString app].
  apply Number_toString_integer; [exact He | exact Hm | lia].
Qed.

(* ------------------------------------------------------------------ *)
(** ** padStart and parseInt *)

Lemma padStart_zeros s n :
  padStart s n (lit "0") = repeat 48 (n - length s) ++ s.
Proof.
  unfold padStart. f_equal. generalize (n - length s)%nat. intros k.
  assert (H : concat (repeat (lit "0") k) = repeat 48 k)
    by (induction k as [| k IH]; [reflexivity |];
        cbn [repeat concat]; rewrite IH; reflexivity).
  rewrite H. rewrite <- (repeat_length 48 k) at 1. apply firstn_all.
Qed.

Lemma digits_value_nonneg t : all_digits t -> 0 <= digits_value t.
Proof.
  intros H. pose proof (fold_digits_lower t H 0 ltac:(lia)) as Hl.
  unfold digits_value. lia.
Qed.

Lemma radix_digits_decimal t :
  all_digits t -> radix_digits 10 t = map (fun c => c - 48) t.
Proof.
  induction 1 as [| c r Hc _ IH]; [reflexivity |].
  cbn [radix_digits map]. unfold digit_of. unfold is_digit in Hc. rewrite Hc.
  apply is_digit_range in Hc.
  replace (c - 48 <? 10) with true by (symmetry; apply Z.ltb_lt; lia).
  rewrite IH. reflexivity.
Qed.

(** On a string of digits [parseInt] gives the number they denote. *)
Lemma parseInt_digits c r :
  all_digits (c :: r) ->
  parseInt (c :: r)
  = if digits_value (c :: r) =? 0 then S754_zero false
    else number_of_Z (digits_value (c :: r)).
Proof.
  intros H. pose proof (Forall_inv H) as Hc. cbv beta in Hc.
  apply is_digit_range in Hc. unfold parseInt.
  assert (Hw : is_white_space c = false).
  { unfold is_white_space.
    repeat match goal with
           | |- context [?a <=? ?b] => destruct (Z.leb_spec a b); try lia
           | |- context [?a =? ?b] => destruct (Z.eqb_spec a b); try lia
           end; reflexivity. }
  cbn [trim_start]. rewrite Hw.
  replace (c =? 45) with false by (symmetry; apply Z.eqb_neq; lia).
  replace (c =? 43) with false by (symmetry; apply Z.eqb_neq; lia).
  cbn [orb].
  assert (Hhex : match c :: r with
                 | c0 :: c1 :: _ => (c0 =? 48) && ((c1 =? 120) || (c1 =? 88))
                 | _ => false
                 end = false).
  { destruct r as [| c1 r']; [reflexivity |].
    pose proof (Forall_inv (Forall_inv_tail H)) as Hc1. cbv beta in Hc1.
    apply is_digit_range in Hc1.
    replace (c1 =? 120) with false by (symmetry; apply Z.eqb_neq; lia).
    replace (c1 =? 88) with false by (symmetry; apply Z.eqb_neq; lia).
    apply andb_false_r. }
  rewrite Hhex. rewrite (radix_digits_decimal _ H).
  assert (Hfold : forall t acc,
             fold_left (fun a d => a * 10 + d) (map (fun c => c - 48) t) acc
             = fold_left (fun acc c => 10 * acc + (c - 48)) t acc).
  { induction t as [| x t IH]; intros acc; [reflexivity |].
    cbn [map fold_left]. rewrite IH. f_equal. lia. }
  unfold digits_value. rewrite <- (Hfold (c :: r) 0). cbn [map].
  reflexivity.
Qed.

(* ------------------------------------------------------------------ *)
(** ** The next invoice number *)

Lemma digits_value_upper t :
  all_digits t -> digits_value t < 10 ^ Z.of_nat (length t).
Proof.
  intros H. unfold digits_value.
  assert (G : forall acc, 0 <= acc ->
            fold_left (fun a c => 10 * a + (c - 48)) t acc
            < (acc + 1) * 10 ^ Z.of_nat (length t)).
  { induction H as [| c r Hc _ IH]; intros acc Ha.
    - cbn. lia.
    - apply is_digit_range in Hc. cbn [fold_left length].
      rewrite Nat2Z.inj_succ, Z.pow_succ_r by lia.
      specialize (IH (10 * acc + (c - 48)) ltac:(lia)).
      assert (0 < 10 ^ Z.of_nat (length r)) by (apply Z.pow_pos_nonneg; lia).
      nia. }
  specialize (G 0 ltac:(lia)). lia.
Qed.

Lemma digits_value_leading_zeros k t :
  digits_value (repeat 48 k ++ t) = digits_value t.
Proof.
  unfold digits_value. rewrite fold_left_app. f_equal.
  induction k as [| k IH]; [reflexivity |]. cbn [repeat fold_left]. exact IH.
Qed.

Lemma zeros_digits k : all_digits (repeat 48 k).
Proof. induction k; constructor; [reflexivity | assumption]. Qed.

(** X11 (invoiceService.getNextInvoiceNumber, lines 271-291). When the last
    stored invoice number is a string of digits denoting N, with N + 1 below
    2^53, the next number is the decimal representation of N + 1, filled
    with zeros on the left to seven characters: a string of digits that
    denotes N + 1, seven characters long as long as N + 1 is below 10^7, and
    longer, without any filling, from then on. Nothing is written to the
    console. *)
Theorem next_invoice_number_follows_last s rest w :
  all_digits s -> s <> [] -> digits_value s + 1 < 2 ^ 53 ->
  let next := digits_value s + 1 in
  let d := decimal_digits next in
  exists r,
    getNextInvoiceNumber (Fulfilled (mkAppwriteInvoice s :: rest)) w
    = (Normal r, w)
    /\ r = repeat 48 (7 - length d) ++ d
    /\ all_digits r /\ digits_value r = next
    /\ (next < 10 ^ 7 -> length r = 7%nat)
    /\ (10 ^ 7 <= next -> r = d /\ (7 < length r)%nat).
Proof.
  intros Hs Hne HN. cbv zeta.
  pose proof (digits_value_nonneg s Hs) as H0.
  set (N := digits_value s) in *.
  set (d := decimal_digits (N + 1)).
  assert (Hrun : getNextInvoiceNumber (Fulfilled (mkAppwriteInvoice s :: rest)) w
                 = (Normal (repeat 48 (7 - length d) ++ d), w)).
  { cbn [getNextInvoiceNumber invoiceNumber]. cbv zeta.
    destruct s as [| c t]; [congruence |].
    assert (Hp : parseInt (c :: t) = number_of_Z N).
    { rewrite (parseInt_digits c t Hs). fold N.
      destruct (Z.eqb_spec N 0) as [E | E]; [rewrite E |]; reflexivity. }
    rewrite Hp, num_add_one by lia. rewrite Number_toString_of_Z by lia.
    rewrite padStart_zeros. reflexivity. }
  pose proof (decimal_digits_digits (N + 1)) as Hd. fold d in Hd.
  pose proof (digits_value_decimal (N + 1) ltac:(lia)) as Hv. fold d in Hv.
  exists (repeat 48 (7 - length d) ++ d).
  split; [exact Hrun |]. split; [reflexivity |]. split; [| split; [| split]].
  - unfold all_digits. rewrite Forall_app. split; [apply zeros_digits | exact Hd].
  - rewrite digits_value_leading_zeros. exact Hv.
  - intros Hlt. pose proof (decimal_digits_length (N + 1) 7) as Hl.
    fold d in Hl. rewrite length_app, repeat_length.
    assert (length d <= 7)%nat by (apply Hl; [split; [lia | exact Hlt] | lia]).
    lia.
  - intros Hge. pose proof (digits_value_upper d Hd) as Hu. rewrite Hv in Hu.
    assert (Hl : (7 < length d)%nat).
    { destruct (Nat.lt_ge_cases 7 (length d)) as [Hlt | Hle]; [exact Hlt |].
      assert (10 ^ Z.of_nat (length d) <= 10 ^ 7)
        by (apply Z.pow_le_mono_r; lia). lia. }
    replace (7 - length d)%nat with 0%nat by lia. cbn [repeat app].
    split; [reflexivity | exact Hl].
Qed.

(** After invoice 0002453 comes 0002454. *)
Lemma next_invoice_number_follows_last_witness :
  getNextInvoiceNumber (Fulfilled [mkAppwriteInvoice (lit "0002453")]) world0
  = (Normal (lit "0002454"), world0).
Proof.
  destruct (next_invoice_number_follows_last (lit "0002453") [] world0)
    as (r & Hrun & Hr & _);
    [repeat constructor | discriminate | vm_compute; reflexivity |].
  rewrite Hrun, Hr. vm_compute. reflexivity.
Defined.

(** X12 (invoiceService.getNextInvoiceNumber, lines 283-286). When the last
    stored invoice number starts with a character that is neither white
    space, nor a sign, nor a digit, the next number is the text 0000NaN. *)
Theorem next_invoice_number_not_numeric c t rest w :
  is_white_space c = false -> c <> 43 -> c <> 45 -> is_digit c = false ->
  getNextInvoiceNumber (Fulfilled (mkAppwriteInvoice (c :: t) :: rest)) w
  = (Normal (lit "0000NaN"), w).
Proof.
  intros Hw Hp Hm Hd.
  assert (Hnan : parseInt (c :: t) = S754_nan).
  { unfold parseInt. cbn [trim_start]. rewrite Hw.
    replace (c =? 45) with false by (symmetry; apply Z.eqb_neq; lia).
    replace (c =? 43) with false by (symmetry; apply Z.eqb_neq; lia).
    cbn [orb].
    assert (H48 : (c =? 48) = false).
    { apply Z.eqb_neq. intros ->. discriminate Hd. }
    assert (Hhex : match c :: t with
                   | c0 :: c1 :: _ => (c0 =? 48) && ((c1 =? 120) || (c1 =? 88))
                   | _ => false
                   end = false)
      by (destruct t; [reflexivity | rewrite H48; reflexivity]).
    rewrite Hhex. cbn [radix_digits]. unfold digit_of.
    unfold is_digit in Hd. rewrite Hd.
    destruct ((97 <=? c) && (c <=? 122)) eqn:E1.
    - apply andb_prop in E1. destruct E1 as [E1 _]. apply Z.leb_le in E1.
      replace (c - 87 <? 10) with false by (symmetry; apply Z.ltb_ge; lia).
      reflexivity.
    - destruct ((65 <=? c) && (c <=? 90)) eqn:E2; [| reflexivity].
      apply andb_prop in E2. destruct E2 as [E2 _]. apply Z.leb_le in E2.
      replace (c - 55 <? 10) with false by (symmetry; apply Z.ltb_ge; lia).
      reflexivity. }
  cbn [getNextInvoiceNumber invoiceNumber]. cbv zeta. rewrite Hnan. reflexivity.
Qed.

(** The last number being INV-0007. *)
Lemma next_invoice_number_not_numeric_witness :
  getNextInvoiceNumber (Fulfilled [mkAppwriteInvoice (lit "INV-0007")]) world0
  = (Normal (lit "0000NaN"), world0).
Proof.
  apply (next_invoice_number_not_numeric 73 (lit "NV-0007") [] world0);
    [reflexivity | discriminate | discriminate | reflexivity].
Defined.

(** X13 (invoiceService.getNextInvoiceNumber, lines 271-291). Whatever the
    listing comes to, and whatever the last stored number is, the call
    completes with a string of at least seven characters; the console is
    written to only when the listing fails. *)
Theorem next_invoice_number_length response w :
  exists r w',
    getNextInvoiceNumber response w = (Normal r, w')
    /\ (7 <= length r)%nat
    /\ ((exists documents, response = Fulfilled documents) -> w' = w).
Proof.
  destruct response as [documents | reason].
  - exists (match documents with
            | [] => lit "0000001"
            | lastInvoice :: _ =>
                padStart (Number_toString
                            (num_add (parseInt (invoiceNumber lastInvoice))
                                     (number_of_Z 1))) 7 (lit "0")
            end), w.
    split; [destruct documents; reflexivity |]. split; [| reflexivity].
    destruct documents as [| lastInvoice rest]; [cbn; lia |].
    rewrite padStart_zeros, length_app, repeat_length. lia.
  - eexists _, _. split; [reflexivity |]. split; [cbn; lia |].
    intros [documents H]. discriminate H.
Qed.
